(** * Taquito operation pipeline: a shallow embedding and its properties

    The development follows [dist/taquito.umd.js]: the operation preparer
    ([OperationEmitter.prototype.prepareOperation]), the inject step, the
    [Estimate] value object, the confirmation tracker of [Operation] and the
    operation filter [sourceFilter]; then the filters and the subscription
    of the polling stream provider, the providers of [TezosToolkit] and its
    [Context], the contract provider and the estimate provider built on the
    preparer, the activation of an account, and the method table of
    [Contract] ([src/contract/contract.ts]).

    Conventions of the embedding:
    - a JavaScript object used as a record of optional fields is a
      [gmap string Js.value]; reading an absent key gives [Js.VUndefined];
    - JavaScript numbers that hold integers are [Z] (exact below 2^53), with a
      separate [NaN]; numbers that may be fractional (seconds, fees per gas
      unit) are exact rationals [Q];
    - asynchronous calls to the collaborators (RPC node, signer, forger,
      injector) are sequenced in the order the generator code awaits them;
      each call is recorded in a log of events, and a thrown [Error] ends the
      computation with the log accumulated so far. *)

From Stdlib Require Import ZArith QArith Qround Qminmax String Ascii List Lia.
From stdpp Require Import base option gmap strings list pretty.

Local Open Scope string_scope.
Local Open Scope Z_scope.

(* ===================================================================== *)
(** ** JavaScript values *)
(* ===================================================================== *)

Module Js.

(** A JavaScript number holding an integer, or [NaN]. *)
Inductive number : Type :=
| Num (z : Z)
| NaN.

(** The values that occur as fields of operation contents. [VObject] is a
    nested JSON value (script, parameters) carried around unchanged. *)
Inductive value : Type :=
| VUndefined
| VNumber (n : number)
| VString (s : string)
| VBool (b : bool)
| VObject (json : string).

#[global] Instance number_eq_dec : EqDecision number.
Proof. solve_decision. Defined.

#[global] Instance value_eq_dec : EqDecision value.
Proof. solve_decision. Defined.

(** [o.k] : an absent property reads as [undefined]. *)
Definition get (o : gmap string value) (k : string) : value :=
  default VUndefined (o !! k).

(** [typeof v === 'undefined'] *)
Definition is_undefined (v : value) : bool :=
  match v with VUndefined => true | _ => false end.

(** [Number.prototype.toString] on integers (below 1e21) and on [NaN]. *)
Definition number_to_string (n : number) : string :=
  match n with
  | Num z => pretty z
  | NaN => "NaN"
  end.

(** The template [[ "" + v ]]. *)
Definition to_string (v : value) : string :=
  match v with
  | VUndefined => "undefined"
  | VNumber n => number_to_string n
  | VString s => s
  | VBool true => "true"
  | VBool false => "false"
  | VObject _ => "[object Object]"
  end.

(** [list.includes(v)] for a list of string literals. *)
Definition includes (l : list string) (v : value) : bool :=
  match v with
  | VString s => bool_decide (s ∈ l)
  | _ => false
  end.

(** [v === 'lit'] *)
Definition strict_eq_string (v : value) (lit : string) : bool :=
  match v with
  | VString s => String.eqb s lit
  | _ => false
  end.

(** Truthiness of a string: only the empty string is falsy. *)
Definition truthy_string (s : string) : bool :=
  negb (String.eqb s "").

(** Truthiness of an optional string ([undefined] is falsy). *)
Definition truthy_opt_string (o : option string) : bool :=
  match o with
  | Some s => truthy_string s
  | None => false
  end.

(** [!n] on an optional number: [undefined], [0] and [NaN] are falsy. *)
Definition falsy_opt_number (o : option number) : bool :=
  match o with
  | None => true
  | Some NaN => true
  | Some (Num z) => z =? 0
  end.

(** [a < b] where [a] may be [undefined]; any comparison with [NaN] or
    [undefined] is false. *)
Definition opt_number_lt (a : option number) (b : number) : bool :=
  match a, b with
  | Some (Num x), Num y => x <? y
  | _, _ => false
  end.

(** [++x] : [undefined] and [NaN] give [NaN]. *)
Definition pre_incr (o : option number) : number :=
  match o with
  | Some (Num z) => Num (z + 1)
  | _ => NaN
  end.

Definition digit_of (c : ascii) : option Z :=
  let n := Z.of_N (N_of_ascii c) in
  if (48 <=? n) && (n <=? 57) then Some (n - 48) else None.

(** Longest prefix of decimal digits, read most significant first; [acc] is
    [None] until a digit has been seen. *)
Fixpoint parse_digits (acc : option Z) (s : string) : option Z :=
  match s with
  | String c s' =>
      match digit_of c with
      | Some d => parse_digits (Some (10 * default 0 acc + d)) s'
      | None => acc
      end
  | EmptyString => acc
  end.

Definition is_whitespace (c : ascii) : bool :=
  let n := N_of_ascii c in
  ((9 <=? n) && (n <=? 13))%N || (n =? 32)%N.

Fixpoint trim_start (s : string) : string :=
  match s with
  | String c s' => if is_whitespace c then trim_start s' else s
  | EmptyString => EmptyString
  end.

(** [parseInt(s, 10)]: leading white space, an optional sign, then the longest
    run of decimal digits; [NaN] when there is no digit. *)
Definition parseInt (s : string) : number :=
  let s := trim_start s in
  let '(sign, body) :=
    match s with
    | String "-"%char r => (-1, r)
    | String "+"%char r => (1, r)
    | _ => (1, s)
    end in
  match parse_digits None body with
  | Some z => Num (sign * z)
  | None => NaN
  end.

Definition lower_ascii (c : ascii) : ascii :=
  let n := N_of_ascii c in
  if ((65 <=? n) && (n <=? 90))%N then ascii_of_N (n + 32) else c.

(** [s.toLowerCase()] on the ASCII range. *)
Fixpoint toLowerCase (s : string) : string :=
  match s with
  | String c s' => String (lower_ascii c) (toLowerCase s')
  | EmptyString => EmptyString
  end.

(** [s.startsWith(p)] *)
Definition startsWith (s p : string) : bool := String.prefix p s.

End Js.

(* ===================================================================== *)
(** ** Errors, events and the sequencing monad *)
(* ===================================================================== *)

(** What a call can throw.  [Error msg] is [new Error(msg)].  The two errors
    of the inject step carry a JSON document as message; they keep the
    document's payload instead of its serialization. *)
Inductive error : Type :=
| Error (message : string)
| TypeError
| RpcFail (results : string)
| OperationFailed (errors : list (option string)).

(** Calls made to the external collaborators, in the order they are issued.
    [CurrentHead] is one subscription to [currentHead$], which fetches the
    head block unless a fetch younger than one second is cached. *)
Inductive event : Type :=
| RpcGetBlockHeader
| RpcGetBlockMetadata
| RpcGetContract (address : string)
| RpcGetManagerKey (address : string)
| CurrentHead
| RpcPreapplyOperations
| SignerPublicKeyHash
| SignerPublicKey
| SignerSign (bytes : string)
| ForgerForge
| InjectorInject (signedOperationBytes : string).

#[global] Instance event_eq_dec : EqDecision event.
Proof. solve_decision. Defined.

(** A computation returns the log of the calls it made and either the error
    it threw or its value. *)
Definition M (A : Type) : Type := (list event * (error + A))%type.

#[global] Instance M_ret : MRet M := fun _ a => ([], inr a).

#[global] Instance M_bind : MBind M := fun _ _ f m =>
  match m with
  | (l, inl e) => (l, inl e)
  | (l, inr a) => let '(l', r) := f a in ((l ++ l')%list, r)
  end.

Definition throw {A : Type} (e : error) : M A := ([], inl e).

Definition call (ev : event) : M unit := ([ev], inr tt).

(** An event that changes the state of the network: only the injection of
    signed bytes does; every other call is a query. *)
Definition is_mutation (ev : event) : bool :=
  match ev with
  | InjectorInject _ => true
  | _ => false
  end.

(* ===================================================================== *)
(** ** Constants *)
(* ===================================================================== *)

Module DEFAULT_GAS_LIMIT.
Definition DELEGATION : Z := 10600.
Definition ORIGINATION : Z := 10600.
Definition TRANSFER : Z := 10600.
Definition REVEAL : Z := 10600.
End DEFAULT_GAS_LIMIT.

Module DEFAULT_FEE.
Definition DELEGATION : Z := 1257.
Definition ORIGINATION : Z := 10000.
Definition TRANSFER : Z := 10000.
Definition REVEAL : Z := 1420.
End DEFAULT_FEE.

Module DEFAULT_STORAGE_LIMIT.
Definition DELEGATION : Z := 0.
Definition ORIGINATION : Z := 257.
Definition TRANSFER : Z := 300.
Definition REVEAL : Z := 300.
End DEFAULT_STORAGE_LIMIT.

Module Protocols.
Definition Pt24m4xi : string := "Pt24m4xiPbLDhVgVfABUjirbmda3yohdN82Sp9FeuAXJ4eV9otd".
Definition PsBABY5H : string := "PsBABY5HQTSkA4297zNHfsZNKtxULfL18y95qb3m53QJiXGmrbU".
Definition PsBabyM1 : string := "PsBabyM1eUXZseaJdmXFApDSBqj8YBfwELoxZHHW77EMcAbbwAS".
End Protocols.

(** [protocols['004']] and [protocols['005']] *)
Definition protocols_004 : list string := [Protocols.Pt24m4xi].
Definition protocols_005 : list string := [Protocols.PsBABY5H; Protocols.PsBabyM1].

(* ===================================================================== *)
(** ** Responses of the RPC node *)
(* ===================================================================== *)

Module Rpc.

Record BlockHeader : Type := { hash : string }.

Record BlockMetadata : Type := { next_protocol : string }.

(** [ManagerKeyResponse = string | { key: string }]; the promise that stands
    for it resolves to [undefined] when no key is fetched. *)
Inductive ManagerKeyResponse : Type :=
| ManagerUndefined
| ManagerString (s : string)
| ManagerObject (key : option string).

(** [metadata.operation_result] of a preapplied content.  [errors] is
    optional; its items are JSON documents. *)
Record OperationResult : Type := {
  status : string;
  errors : option (list string)
}.

Record ContentMetadata : Type := {
  operation_result : option OperationResult
}.

(** A content of a preapply result: its kind and, when the key is present,
    its metadata. *)
Record ContentAndResult : Type := {
  kind : string;
  metadata : option ContentMetadata
}.

Record PreapplyResult : Type := {
  contents : list ContentAndResult
}.

(** What [preapplyOperations] resolves to: an array of results, or anything
    else (kept as its JSON text). *)
Inductive PreapplyResponse : Type :=
| NotAnArray (json : string)
| ResultArray (results : list PreapplyResult).

End Rpc.

(* ===================================================================== *)
(** ** The operation emitter *)
(* ===================================================================== *)

Module Emitter.

(** [{ branch, contents, protocol, signature }] *)
Record OperationObject : Type := {
  branch : string;
  contents : list (gmap string Js.value);
  protocol : string;
  signature : option string
}.

(** What [prepareOperation] returns: [{ opOb, counter }]. *)
Record PreparedOperation : Type := {
  prepared_opOb : OperationObject;
  prepared_counter : Js.number
}.

(** What [forge] returns: [{ opbytes, opOb, counter }]. *)
Record ForgedBytes : Type := {
  opbytes : string;
  opOb : OperationObject;
  counter : Js.number
}.

(** What [signer.sign] resolves to (the fields the emitter reads). *)
Record Signed : Type := {
  prefixSig : string;
  sbytes : string
}.

(** What [inject] returns; the context snapshot is left out. *)
Record Injected : Type := {
  injected_hash : string;
  injected_forgedBytes : ForgedBytes;
  injected_opResponse : list Rpc.ContentAndResult
}.

(** The collaborators reachable from [this.context]: what each call resolves
    to.  A falsy header or metadata is [None]. *)
Record Context : Type := {
  getBlockHeader : option Rpc.BlockHeader;
  getBlockMetadata : option Rpc.BlockMetadata;
  getContract_counter : string -> string;
  getManagerKey : string -> Rpc.ManagerKeyResponse;
  preapplyOperations : OperationObject -> Rpc.PreapplyResponse;
  publicKeyHash : string;
  publicKey : string;
  sign : string -> Signed;
  forger_forge : string -> list (gmap string Js.value) -> string;
  injector_inject : string -> string;
  _proto : option string
}.

(** The [operation] argument: one content or an array of contents. *)
Inductive OperationParam : Type :=
| Single (op : gmap string Js.value)
| Many (ops : list (gmap string Js.value)).

(** [isSourceOp] *)
Definition isSourceOp (op : gmap string Js.value) : bool :=
  Js.includes ["transaction"; "origination"; "delegation"] (Js.get op "kind").

(** [isFeeOp] *)
Definition isFeeOp (op : gmap string Js.value) : bool :=
  Js.includes ["reveal"; "transaction"; "origination"; "delegation"] (Js.get op "kind").

(** [Context.prototype.isAnyProtocolActive] *)
Definition isAnyProtocolActive (ctx : Context) (protocol : list string) : M bool :=
  match _proto ctx with
  | Some p =>
      if Js.truthy_string p then mret (bool_decide (p ∈ protocol))
      else
        _ ← call RpcGetBlockMetadata;
        match getBlockMetadata ctx with
        | Some md => mret (bool_decide (Rpc.next_protocol md ∈ protocol))
        | None => throw TypeError
        end
  | None =>
      _ ← call RpcGetBlockMetadata;
      match getBlockMetadata ctx with
      | Some md => mret (bool_decide (Rpc.next_protocol md ∈ protocol))
      | None => throw TypeError
      end
  end.

(** The loop of [prepareOperation] over [ops]: at the first source-bearing
    content it sets [requiresReveal], fetches the counter and the manager key
    of [publicKeyHash], and leaves the loop. *)
Fixpoint fetchSourceState (ctx : Context) (publicKeyHash : string)
  (ops : list (gmap string Js.value))
  : M (bool * option string * Rpc.ManagerKeyResponse) :=
  match ops with
  | [] => mret (false, None, Rpc.ManagerUndefined)
  | op :: rest =>
      if Js.includes ["transaction"; "origination"; "delegation"] (Js.get op "kind")
      then
        _ ← call (RpcGetContract publicKeyHash);
        let counter_1 := getContract_counter ctx publicKeyHash in
        _ ← call (RpcGetManagerKey publicKeyHash);
        mret (true, Some counter_1, getManagerKey ctx publicKeyHash)
      else fetchSourceState ctx publicKeyHash rest
  end.

(** [manager && typeof manager === 'object' ? !!manager.key : !!manager] *)
Definition haveManager (manager : Rpc.ManagerKeyResponse) : bool :=
  match manager with
  | Rpc.ManagerObject key => Js.truthy_opt_string key
  | Rpc.ManagerString s => Js.truthy_string s
  | Rpc.ManagerUndefined => false
  end.

(** The synthetic reveal content built by [prepareOperation]. *)
Definition reveal (public_key publicKeyHash : string) : gmap string Js.value :=
  <["storage_limit" := Js.VNumber (Js.Num DEFAULT_STORAGE_LIMIT.REVEAL)]>
  (<["gas_limit" := Js.VNumber (Js.Num DEFAULT_GAS_LIMIT.REVEAL)]>
  (<["source" := Js.VString publicKeyHash]>
  (<["public_key" := Js.VString public_key]>
  (<["fee" := Js.VNumber (Js.Num DEFAULT_FEE.REVEAL)]>
  (<["kind" := Js.VString "reveal"]> ∅))))).

(** A field that defaults to ['0'] when undefined and is made a string
    otherwise. *)
Definition stringOrZero (op constructedOp : gmap string Js.value) (field : string)
  : gmap string Js.value :=
  if Js.is_undefined (Js.get op field)
  then <[field := Js.VString "0"]> constructedOp
  else <[field := Js.VString (Js.to_string (Js.get op field))]> constructedOp.

(** The body of the function mapped by [constructOps] over the contents.  It
    reads and updates the [counters] object of the enclosing call. *)
Definition constructOp (publicKeyHash : string) (proto005 : bool)
  (counters : gmap string Js.number) (op : gmap string Js.value)
  : error + (gmap string Js.value * gmap string Js.number) :=
  let constructedOp := op in
  let constructedOp :=
    if isSourceOp op then
      if Js.is_undefined (Js.get op "source")
      then <["source" := Js.VString publicKeyHash]> constructedOp
      else constructedOp
    else constructedOp in
  let '(constructedOp, counters) :=
    if isFeeOp op then
      let constructedOp := stringOrZero op constructedOp "fee" in
      let constructedOp := stringOrZero op constructedOp "gas_limit" in
      let constructedOp := stringOrZero op constructedOp "storage_limit" in
      let opCounter := Js.pre_incr (counters !! publicKeyHash) in
      (<["counter" := Js.VString (Js.number_to_string opCounter)]> constructedOp,
       <[publicKeyHash := opCounter]> counters)
    else (constructedOp, counters) in
  let constructedOp :=
    if Js.strict_eq_string (Js.get op "kind") "origination" then
      if negb (Js.is_undefined (Js.get op "balance"))
      then <["balance" := Js.VString (Js.to_string (Js.get constructedOp "balance"))]> constructedOp
      else constructedOp
    else constructedOp in
  let checked : error + gmap string Js.value :=
    if Js.strict_eq_string (Js.get op "kind") "transaction" then
      let rejected : error + bool :=
        if proto005 then
          match Js.get constructedOp "source" with
          | Js.VString s => inr (Js.startsWith (Js.toLowerCase s) "kt1")
          | _ => inl TypeError
          end
        else inr false in
      match rejected with
      | inl e => inl e
      | inr true =>
          inl (Error ("KT1 addresses are not supported as source in " +:+ Protocols.PsBabyM1))
      | inr false =>
          if negb (Js.is_undefined (Js.get op "amount"))
          then inr (<["amount" := Js.VString (Js.to_string (Js.get constructedOp "amount"))]> constructedOp)
          else inr constructedOp
      end
    else inr constructedOp in
  match checked with
  | inl e => inl e
  | inr constructedOp =>
      let constructedOp :=
        if proto005
        then delete "delegatable" (delete "spendable" (delete "manager_pubkey" constructedOp))
        else constructedOp in
      inr (constructedOp, counters)
  end.

(** [constructOps]: [cOps.map(...)], left to right, threading [counters]; a
    throw inside the mapped function aborts the map. *)
Fixpoint constructOps (publicKeyHash : string) (proto005 : bool)
  (counters : gmap string Js.number) (cOps : list (gmap string Js.value))
  : error + (list (gmap string Js.value) * gmap string Js.number) :=
  match cOps with
  | [] => inr ([], counters)
  | op :: rest =>
      match constructOp publicKeyHash proto005 counters op with
      | inl e => inl e
      | inr (constructedOp, counters') =>
          match constructOps publicKeyHash proto005 counters' rest with
          | inl e => inl e
          | inr (constructed, counters'') => inr (constructedOp :: constructed, counters'')
          end
      end
  end.

(** [headCounter || '0'] *)
Definition counterOrZero (headCounter : option string) : string :=
  match headCounter with
  | Some s => if Js.truthy_string s then s else "0"
  | None => "0"
  end.

(** [OperationEmitter.prototype.prepareOperation] *)
Definition prepareOperation (ctx : Context) (operation : OperationParam)
  (source : option string) : M PreparedOperation :=
  let counters : gmap string Js.number := ∅ in
  _ ← call RpcGetBlockHeader;
  _ ← call RpcGetBlockMetadata;
  let ops := match operation with Many l => l | Single op => [op] end in
  publicKeyHash ←
    match source with
    | Some s =>
        if Js.truthy_string s then mret s
        else (_ ← call SignerPublicKeyHash; mret (publicKeyHash ctx))
    | None => _ ← call SignerPublicKeyHash; mret (publicKeyHash ctx)
    end;
  '(requiresReveal, headCounter, manager) ← fetchSourceState ctx publicKeyHash ops;
  match getBlockHeader ctx with
  | None => throw (Error "Unable to latest block header")
  | Some header =>
      match getBlockMetadata ctx with
      | None => throw (Error "Unable to fetch latest metadata")
      | Some metadata =>
          let head := header in
          ops ←
            (if requiresReveal && negb (haveManager manager)
             then
               _ ← call SignerPublicKey;
               mret (reveal (publicKey ctx) publicKeyHash :: ops)
             else mret ops);
          let counter := Js.parseInt (counterOrZero headCounter) in
          let counters :=
            if Js.falsy_opt_number (counters !! publicKeyHash)
               || Js.opt_number_lt (counters !! publicKeyHash) counter
            then <[publicKeyHash := counter]> counters
            else counters in
          proto005 ← isAnyProtocolActive ctx protocols_005;
          match constructOps publicKeyHash proto005 counters ops with
          | inl e => throw e
          | inr (contents, _) =>
              mret {| prepared_opOb :=
                        {| branch := Rpc.hash head;
                           contents := contents;
                           protocol := Rpc.next_protocol metadata;
                           signature := None |};
                      prepared_counter := counter |}
          end
      end
  end.

(** [OperationEmitter.prototype.forge] *)
Definition forge (ctx : Context) (prepared : PreparedOperation) : M ForgedBytes :=
  let ob := prepared_opOb prepared in
  _ ← call ForgerForge;
  let forgedBytes := forger_forge ctx (branch ob) (contents ob) in
  mret {| opbytes := forgedBytes;
          opOb := {| branch := branch ob; contents := contents ob;
                     protocol := protocol ob; signature := None |};
          counter := prepared_counter prepared |}.

(** [OperationEmitter.prototype.prepareAndForge] *)
Definition prepareAndForge (ctx : Context) (operation : OperationParam)
  (source : option string) : M ForgedBytes :=
  prepared ← prepareOperation ctx operation source;
  forge ctx prepared.

(** [errors.concat(x)]: an array is appended item by item, anything else
    (here: an absent [errors]) becomes one item. *)
Definition concat_errors (errors : list (option string)) (x : option (list string))
  : list (option string) :=
  match x with
  | Some items => (errors ++ (Some <$> items))%list
  | None => (errors ++ [None])%list
  end.

(** The test guarding [errors.concat] in [inject]. *)
Definition isFailed (content : Rpc.ContentAndResult) : option Rpc.OperationResult :=
  match Rpc.metadata content with
  | Some md =>
      match Rpc.operation_result md with
      | Some r => if String.eqb (Rpc.status r) "failed" then Some r else None
      | None => None
      end
  | None => None
  end.

(** The inner loop of [inject], over the contents of one result. *)
Fixpoint scanContents (cs : list Rpc.ContentAndResult)
  (opResponse : list Rpc.ContentAndResult) (errors : list (option string))
  : list Rpc.ContentAndResult * list (option string) :=
  match cs with
  | [] => (opResponse, errors)
  | content :: rest =>
      let opResponse := (opResponse ++ [content])%list in
      let errors :=
        match isFailed content with
        | Some r => concat_errors errors (Rpc.errors r)
        | None => errors
        end in
      scanContents rest opResponse errors
  end.

(** The outer loop of [inject], over the results. *)
Fixpoint scanResults (results : list Rpc.PreapplyResult)
  (opResponse : list Rpc.ContentAndResult) (errors : list (option string))
  : list Rpc.ContentAndResult * list (option string) :=
  match results with
  | [] => (opResponse, errors)
  | r :: rest =>
      let '(opResponse, errors) := scanContents (Rpc.contents r) opResponse errors in
      scanResults rest opResponse errors
  end.

(** [forgedBytes.opbytes = sbytes; forgedBytes.opOb.signature = prefixSig] *)
Definition attachSigned (forgedBytes : ForgedBytes) (prefixSig sbytes : string)
  : ForgedBytes :=
  {| opbytes := sbytes;
     opOb := {| branch := branch (opOb forgedBytes);
                contents := contents (opOb forgedBytes);
                protocol := protocol (opOb forgedBytes);
                signature := Some prefixSig |};
     counter := counter forgedBytes |}.

(** [OperationEmitter.prototype.inject] *)
Definition inject (ctx : Context) (forgedBytes : ForgedBytes)
  (prefixSig sbytes : string) : M Injected :=
  let forgedBytes := attachSigned forgedBytes prefixSig sbytes in
  _ ← call RpcPreapplyOperations;
  match preapplyOperations ctx (opOb forgedBytes) with
  | Rpc.NotAnArray json => throw (RpcFail json)
  | Rpc.ResultArray results =>
      let '(opResponse, errors) := scanResults results [] [] in
      match errors with
      | _ :: _ => throw (OperationFailed errors)
      | [] =>
          _ ← call (InjectorInject (opbytes forgedBytes));
          mret {| injected_hash := injector_inject ctx (opbytes forgedBytes);
                  injected_forgedBytes := forgedBytes;
                  injected_opResponse := opResponse |}
      end
  end.

(** [OperationEmitter.prototype.signAndInject] *)
Definition signAndInject (ctx : Context) (forgedBytes : ForgedBytes) : M Injected :=
  _ ← call (SignerSign (opbytes forgedBytes));
  let signed := sign ctx (opbytes forgedBytes) in
  inject ctx forgedBytes (prefixSig signed) (sbytes signed).

(** The tail shared by [transfer], [setDelegate] and [registerDelegate] of the
    contract provider: [prepareAndForge] followed by [signAndInject]. *)
Definition prepareForgeSignInject (ctx : Context) (operation : OperationParam)
  (source : option string) : M Injected :=
  opBytes ← prepareAndForge ctx operation source;
  signAndInject ctx opBytes.

End Emitter.

(* ===================================================================== *)
(** ** Amount formatting and the transfer content *)
(* ===================================================================== *)

Module Format.

(** The [BigNumber] made from an amount: a finite decimal
    [coefficient / 10 ^ scale], or not a number (the raw text is kept, since
    [format] then returns its argument unchanged). *)
Inductive Amount : Type :=
| Decimal (coefficient : Z) (scale : nat)
| NotANumber (raw : string).

Definition TZ_DECIMALS : nat := 6.
Definition MTZ_DECIMALS : nat := 3.

(** [getDecimal] *)
Definition getDecimal (format : string) : nat :=
  if String.eqb format "tz" then TZ_DECIMALS
  else if String.eqb format "mtz" then MTZ_DECIMALS
  else 0%nat.

(** [bigNum.multipliedBy(Math.pow(10, m)).dividedBy(Math.pow(10, d))]: both
    steps are exact on finite decimals. *)
Definition format (from to : string) (amount : Amount) : Amount :=
  match amount with
  | NotANumber raw => NotANumber raw
  | Decimal c k => Decimal (c * 10 ^ Z.of_nat (getDecimal from)) (k + getDecimal to)
  end.

(** Drop the trailing zeros of the fraction. *)
Fixpoint normalize (c : Z) (k : nat) : Z * nat :=
  match k with
  | O => (c, O)
  | S k' => if c mod 10 =? 0 then normalize (c / 10) k' else (c, k)
  end.

(** Left-pad a digit string with zeros up to [k] characters. *)
Fixpoint pad_zeros (fuel : nat) (k : nat) (s : string) : string :=
  match fuel with
  | O => s
  | S fuel' => if (String.length s <? k)%nat then pad_zeros fuel' k ("0" +:+ s) else s
  end.

(** [BigNumber.prototype.toString] in plain notation (bignumber.js switches
    to exponential notation from 1e21 up and below 1e-6, which amounts in tz
    do not reach). *)
Definition toString (amount : Amount) : string :=
  match amount with
  | NotANumber raw => raw
  | Decimal c k =>
      let '(c, k) := normalize c k in
      match k with
      | O => pretty c
      | S _ =>
          let p := 10 ^ Z.of_nat k in
          (if c <? 0 then "-" else "")
          +:+ pretty (Z.abs c / p) +:+ "."
          +:+ pad_zeros k k (pretty (Z.abs c mod p))
      end
  end.

End Format.

Module Prepare.

(** A transfer parameter: already encoded JSON, or Michelson text that goes
    through [sexp2mic]. *)
Inductive TransferParameter : Type :=
| ParamJson (json : string)
| ParamString (sexp : string).

(** The argument of [createTransferOperation]; an absent field is [None]. *)
Record TransferParams : Type := {
  to : string;
  amount : Format.Amount;
  parameter : option TransferParameter;
  fee : option Z;
  gasLimit : option Z;
  storageLimit : option Z;
  mutez : option bool;
  rawParam : option bool
}.

(** A parameter is truthy unless it is the empty string. *)
Definition truthy_parameter (p : TransferParameter) : bool :=
  match p with
  | ParamJson _ => true
  | ParamString s => Js.truthy_string s
  end.

(** [createTransferOperation]; [sexp2mic] is the Michelson encoder of
    [@taquito/utils], and the amount given in mutez is printed as it is. *)
Definition createTransferOperation (sexp2mic : string -> string)
  (params : TransferParams) : gmap string Js.value :=
  let fee := default DEFAULT_FEE.TRANSFER (fee params) in
  let gasLimit := default DEFAULT_GAS_LIMIT.TRANSFER (gasLimit params) in
  let storageLimit := default DEFAULT_STORAGE_LIMIT.TRANSFER (storageLimit params) in
  let mutez := default false (mutez params) in
  let rawParam := default false (rawParam params) in
  let operation : gmap string Js.value :=
    <["destination" := Js.VString (to params)]>
    (<["amount" := Js.VString
         (if mutez then Format.toString (amount params)
          else Format.toString (Format.format "tz" "mutez" (amount params)))]>
    (<["storage_limit" := Js.VNumber (Js.Num storageLimit)]>
    (<["gas_limit" := Js.VNumber (Js.Num gasLimit)]>
    (<["fee" := Js.VNumber (Js.Num fee)]>
    (<["kind" := Js.VString "transaction"]> ∅))))) in
  match parameter params with
  | Some p =>
      if truthy_parameter p then
        <["parameters" :=
            match p with
            | ParamJson json => Js.VObject json
            | ParamString sexp =>
                if rawParam then Js.VString sexp else Js.VObject (sexp2mic sexp)
            end]> operation
      else operation
  | None => operation
  end.

End Prepare.

(* ===================================================================== *)
(** ** Estimate *)
(* ===================================================================== *)

Module Estimate.

Definition MINIMAL_FEE_MUTEZ : Q := 100.
Definition MINIMAL_FEE_PER_BYTE_MUTEZ : Q := 1.
Definition MINIMAL_FEE_PER_STORAGE_BYTE_MUTEZ : Q := 1000.
Definition MINIMAL_FEE_PER_GAS_MUTEZ : Q := 1 # 10.
Definition GAS_BUFFER : Q := 100.

(** The fields set by the constructor. *)
Record t : Type := {
  _gasLimit : Q;
  _storageLimit : Q;
  opSize : Q;
  baseFeeMutez : Q
}.

(** [new Estimate(_gasLimit, _storageLimit, opSize, baseFeeMutez)], the last
    argument defaulting to [MINIMAL_FEE_MUTEZ]. *)
Definition new (_gasLimit _storageLimit opSize : Q) (baseFeeMutez : option Q) : t :=
  {| _gasLimit := _gasLimit;
     _storageLimit := _storageLimit;
     opSize := opSize;
     baseFeeMutez := default MINIMAL_FEE_MUTEZ baseFeeMutez |}.

(** [Math.ceil(Number(nanotez))] *)
Definition roundUp (nanotez : Q) : Z := Qceiling nanotez.

(** [Math.max(a, b)] *)
Definition Math_max (a b : Q) : Q := if Qle_bool a b then b else a.

(** [storageLimit] *)
Definition storageLimit (e : t) : Q :=
  let limit := Math_max (_storageLimit e) 0 in
  if negb (Qle_bool limit 0) then limit else 0%Q.

(** [burnFeeMutez] *)
Definition burnFeeMutez (e : t) : Z :=
  roundUp (storageLimit e * MINIMAL_FEE_PER_STORAGE_BYTE_MUTEZ)%Q.

(** [gasLimit] *)
Definition gasLimit (e : t) : Q := (_gasLimit e + GAS_BUFFER)%Q.

(** [operationFeeMutez] *)
Definition operationFeeMutez (e : t) : Q :=
  (gasLimit e * MINIMAL_FEE_PER_GAS_MUTEZ + opSize e * MINIMAL_FEE_PER_BYTE_MUTEZ)%Q.

(** [minimalFeeMutez] *)
Definition minimalFeeMutez (e : t) : Z :=
  roundUp (MINIMAL_FEE_MUTEZ + operationFeeMutez e)%Q.

(** [suggestedFeeMutez] *)
Definition suggestedFeeMutez (e : t) : Z :=
  roundUp (operationFeeMutez e + MINIMAL_FEE_MUTEZ * 2)%Q.

(** [usingBaseFeeMutez] *)
Definition usingBaseFeeMutez (e : t) : Q :=
  (Math_max (baseFeeMutez e) MINIMAL_FEE_MUTEZ + inject_Z (roundUp (operationFeeMutez e)))%Q.

(** [totalCost] *)
Definition totalCost (e : t) : Z := minimalFeeMutez e + burnFeeMutez e.

End Estimate.

(* ===================================================================== *)
(** ** The confirmation tracker of an operation handle *)
(* ===================================================================== *)

Module Operation.

(** An entry of one of the operation lists of a block. *)
Record OperationEntry : Type := { hash : string }.

(** The head block: [head.header.level] and [head.operations]. *)
Record BlockResponse : Type := {
  level : Z;
  operations : list (list OperationEntry)
}.

(** [context.config] *)
Record Config : Type := {
  confirmationPollingIntervalSecond : Q;
  defaultConfirmationCount : Z;
  confirmationPollingTimeoutSecond : Q
}.

Definition defaultConfig : Config :=
  {| confirmationPollingIntervalSecond := 10;
     defaultConfirmationCount := 0;
     confirmationPollingTimeoutSecond := 180 |}.

(** The value pushed on [_pollingConfig$]. *)
Record PollingConfig : Type := {
  interval : Q;
  timeout : Q
}.

(** [x || d] on an optional number: [undefined] and [0] are falsy. *)
Definition orDefault (x : option Q) (d : Q) : Q :=
  match x with
  | Some q => if Qeq_bool q 0 then d else q
  | None => d
  end.

(** The first [tap] of [polling$]. *)
Definition validate (config : PollingConfig) : error + unit :=
  if Qle_bool (timeout config) 0 then inl (Error "Timeout must be more than 0")
  else if Qle_bool (interval config) 0 then inl (Error "Interval must be more than 0")
  else inr tt.

(** [Math.ceil(config.timeout / config.interval) + 1] *)
Definition timeoutAt (config : PollingConfig) : Z :=
  Qceiling (timeout config / interval config) + 1.

(** What a confirmation wait leaves behind: how many times [currentHead$] was
    subscribed to, the [_foundAt] field of the handle ([None] is
    [Number.POSITIVE_INFINITY]) and how the promise settled. *)
Record Settled : Type := {
  observed : nat;
  _foundAt : option Z;
  outcome : error + Z
}.

(** [forEach] over one operation list: every entry with the tracked hash sets
    [_foundAt] to the level of the head. *)
Definition scanPass (opHash : string) (headLevel : Z) (pass : list OperationEntry)
  (foundAt : option Z) : option Z :=
  fold_left
    (fun fa op => if String.eqb (hash op) opHash then Some headLevel else fa)
    pass foundAt.

(** [for (var i = 3; i >= 0; i--) head.operations[i].forEach(...)], over the
    indices still to visit; a missing list makes [forEach] throw. *)
Fixpoint scanPasses (opHash : string) (head : BlockResponse) (indices : list nat)
  (foundAt : option Z) : option Z * option error :=
  match indices with
  | [] => (foundAt, None)
  | i :: rest =>
      match operations head !! i with
      | Some pass => scanPasses opHash head rest (scanPass opHash (level head) pass foundAt)
      | None => (foundAt, Some TypeError)
      end
  end.

Definition scanHead (opHash : string) (head : BlockResponse) (foundAt : option Z)
  : option Z * option error :=
  scanPasses opHash head [3; 2; 1; 0]%nat foundAt.

(** [head.header.level - this._foundAt >= conf] *)
Definition reached (head : BlockResponse) (foundAt : option Z) (conf : Z) : bool :=
  match foundAt with
  | Some f => conf <=? level head - f
  | None => false
  end.

(** [confirmed$] under one subscription to [polling$], after the
    configuration has passed the first [tap].  [remaining] stands for
    [config.timeoutAt - config.count]: a tick finds
    [config.count + 1 > config.timeoutAt], and throws, exactly when
    [remaining] is zero.  [heads n] is the [n]-th head delivered by
    [currentHead$] to this handle. *)
Fixpoint confirmedLoop (opHash : string) (heads : nat -> BlockResponse)
  (remaining : nat) (obs : nat) (foundAt : option Z) : Settled :=
  match remaining with
  | O => {| observed := obs; _foundAt := foundAt;
            outcome := inl (Error "Confirmation polling timed out") |}
  | S remaining' =>
      let head := heads obs in
      match scanHead opHash head foundAt with
      | (foundAt, Some e) =>
          {| observed := S obs; _foundAt := foundAt; outcome := inl e |}
      | (foundAt, None) =>
          if reached head foundAt 0
          then {| observed := S obs; _foundAt := foundAt;
                  outcome := inr (default 0 foundAt) |}
          else confirmedLoop opHash heads remaining' (S obs) foundAt
      end
  end.

(** The second stage of [confirmation]: a new subscription to [polling$]
    (its counter starts again from zero) whose heads are filtered on the
    requested depth; the promise resolves to [_foundAt + conf]. *)
Fixpoint depthLoop (heads : nat -> BlockResponse) (conf : Z)
  (remaining : nat) (obs : nat) (foundAt : option Z) : Settled :=
  match remaining with
  | O => {| observed := obs; _foundAt := foundAt;
            outcome := inl (Error "Confirmation polling timed out") |}
  | S remaining' =>
      let head := heads obs in
      if reached head foundAt conf
      then {| observed := S obs; _foundAt := foundAt;
              outcome := inr (default 0 foundAt + conf) |}
      else depthLoop heads conf remaining' (S obs) foundAt
  end.

(** A subscription to [polling$]: the configuration is checked, then [ticks]
    runs with the tick budget. *)
Definition polling (config : PollingConfig) (obs : nat) (foundAt : option Z)
  (ticks : nat -> Settled) : Settled :=
  match validate config with
  | inl e => {| observed := obs; _foundAt := foundAt; outcome := inl e |}
  | inr _ => ticks (Z.to_nat (timeoutAt config))
  end.

(** [Operation.prototype.confirmation] on a handle that no other wait is
    polling for.  [foundAt] is the [_foundAt] field of the handle when the
    call is made: [None] ([Number.POSITIVE_INFINITY]) for a handle not yet
    located, in which case [confirmed$] polls for the block; the level
    recorded by an earlier wait otherwise, in which case [confirmed$] has
    completed and replays that level.  Either way the wait goes on with a
    second subscription to [polling$]. *)
Definition confirmation (config : Config) (opHash : string)
  (heads : nat -> BlockResponse) (foundAt : option Z)
  (confirmations : option Z) (interval timeout : option Q) : Settled :=
  let pollingConfig :=
    {| interval := orDefault interval (confirmationPollingIntervalSecond config);
       timeout := orDefault timeout (confirmationPollingTimeoutSecond config) |} in
  let conf := default (defaultConfirmationCount config) confirmations in
  let found :=
    match foundAt with
    | Some f => {| observed := 0; _foundAt := Some f; outcome := inr f |}
    | None =>
        polling pollingConfig 0 None
          (fun remaining => confirmedLoop opHash heads remaining 0 None)
    end in
  match outcome found with
  | inl e => found
  | inr _ =>
      polling pollingConfig (observed found) (_foundAt found)
        (fun remaining => depthLoop heads conf remaining (observed found) (_foundAt found))
  end.

End Operation.

(* ===================================================================== *)
(** ** The operation filter *)
(* ===================================================================== *)

Module Filter.

(** The fields of a block operation content that the source filter reads;
    an absent key is [None]. *)
Record ContentMetadata : Type := { delegate : option string }.

Record OperationContent : Type := {
  kind : string;
  metadata : option ContentMetadata;
  pkh : option string;
  source : option string
}.

(** [{ source: string }] *)
Record SourceFilter : Type := { filter_source : string }.

(** [a === s] for an optional string field. *)
Definition field_eq (a : option string) (s : string) : bool :=
  match a with
  | Some x => String.eqb x s
  | None => false
  end.

(** [sourceFilter] *)
Definition sourceFilter (x : OperationContent) (filter : SourceFilter) : bool :=
  if String.eqb (kind x) "endorsement" then
    match metadata x with
    | Some md => field_eq (delegate md) (filter_source filter)
    | None => false
    end
  else if String.eqb (kind x) "activate_account" then
    match metadata x with
    | Some _ => field_eq (pkh x) (filter_source filter)
    | None => false
    end
  else
    match source x with
    | Some _ => field_eq (source x) (filter_source filter)
    | None => false
    end.

End Filter.

(* ===================================================================== *)
(** ** The blocks of the function mapped by [constructOps] *)
(* ===================================================================== *)

(** [Emitter.constructOp] is one function body, as in the source.  For the
    proofs it is cut at its top-level [if] statements; [Stages.constructOp]
    chains the pieces and is the same function. *)
Module Stages.

(** [if (isSourceOp(op)) { if (typeof op.source === 'undefined') ... }] *)
Definition defaultSource (publicKeyHash : string) (op : gmap string Js.value)
  : gmap string Js.value :=
  if Emitter.isSourceOp op then
    if Js.is_undefined (Js.get op "source")
    then <["source" := Js.VString publicKeyHash]> op
    else op
  else op.

(** [if (isFeeOp(op)) { fee, gas_limit, storage_limit, counter }] *)
Definition feesAndCounter (publicKeyHash : string) (counters : gmap string Js.number)
  (op constructedOp : gmap string Js.value)
  : gmap string Js.value * gmap string Js.number :=
  if Emitter.isFeeOp op then
    let constructedOp := Emitter.stringOrZero op constructedOp "fee" in
    let constructedOp := Emitter.stringOrZero op constructedOp "gas_limit" in
    let constructedOp := Emitter.stringOrZero op constructedOp "storage_limit" in
    let opCounter := Js.pre_incr (counters !! publicKeyHash) in
    (<["counter" := Js.VString (Js.number_to_string opCounter)]> constructedOp,
     <[publicKeyHash := opCounter]> counters)
  else (constructedOp, counters).

(** [if (op.kind === 'origination') { balance }] *)
Definition balanceString (op constructedOp : gmap string Js.value)
  : gmap string Js.value :=
  if Js.strict_eq_string (Js.get op "kind") "origination" then
    if negb (Js.is_undefined (Js.get op "balance"))
    then <["balance" := Js.VString (Js.to_string (Js.get constructedOp "balance"))]> constructedOp
    else constructedOp
  else constructedOp.

(** [if (op.kind === 'transaction') { KT1 check, amount }] *)
Definition transactionChecks (proto005 : bool) (op constructedOp : gmap string Js.value)
  : error + gmap string Js.value :=
  if Js.strict_eq_string (Js.get op "kind") "transaction" then
    let rejected : error + bool :=
      if proto005 then
        match Js.get constructedOp "source" with
        | Js.VString s => inr (Js.startsWith (Js.toLowerCase s) "kt1")
        | _ => inl TypeError
        end
      else inr false in
    match rejected with
    | inl e => inl e
    | inr true =>
        inl (Error ("KT1 addresses are not supported as source in " +:+ Protocols.PsBabyM1))
    | inr false =>
        if negb (Js.is_undefined (Js.get op "amount"))
        then inr (<["amount" := Js.VString (Js.to_string (Js.get constructedOp "amount"))]> constructedOp)
        else inr constructedOp
    end
  else inr constructedOp.

(** [if (proto005) { delete manager_pubkey, spendable, delegatable }] *)
Definition stripObsolete (proto005 : bool) (constructedOp : gmap string Js.value)
  : gmap string Js.value :=
  if proto005
  then delete "delegatable" (delete "spendable" (delete "manager_pubkey" constructedOp))
  else constructedOp.

Definition constructOp (publicKeyHash : string) (proto005 : bool)
  (counters : gmap string Js.number) (op : gmap string Js.value)
  : error + (gmap string Js.value * gmap string Js.number) :=
  let constructedOp := defaultSource publicKeyHash op in
  let '(constructedOp, counters) := feesAndCounter publicKeyHash counters op constructedOp in
  let constructedOp := balanceString op constructedOp in
  match transactionChecks proto005 op constructedOp with
  | inl e => inl e
  | inr constructedOp => inr (stripObsolete proto005 constructedOp, counters)
  end.

End Stages.

(* ===================================================================== *)
(** ** Definitions used to state the properties *)
(* ===================================================================== *)

Module Spec.

(** The [Estimate] figures as the specification words them, from raw gas
    [g], raw storage [s] and byte length [b]. *)
Definition gasLimit (g : Q) : Q := (g + 100)%Q.
Definition storageLimit (s : Q) : Q := Qmax s 0.
Definition burnFee (s : Q) : Z := Qceiling (storageLimit s * 1000)%Q.
Definition operationFee (g b : Q) : Q := (gasLimit g * (1 # 10) + b * 1)%Q.
Definition minimalFee (g b : Q) : Z := Qceiling (100 + operationFee g b)%Q.
Definition totalCost (g s b : Q) : Z := minimalFee g b + burnFee s.

(** A preapplied content reported as failed: its
    [metadata.operation_result.status] is ['failed']. *)
Definition failed (c : Rpc.ContentAndResult) : bool :=
  match Rpc.metadata c with
  | Some md =>
      match Rpc.operation_result md with
      | Some r => String.eqb (Rpc.status r) "failed"
      | None => false
      end
  | None => false
  end.

(** The items a failed content contributes: those of its [errors] array, or
    the single item [undefined] when it has no [errors] field. *)
Definition errorsOf (c : Rpc.ContentAndResult) : list (option string) :=
  match Rpc.metadata c with
  | Some md =>
      match Rpc.operation_result md with
      | Some r =>
          match Rpc.errors r with
          | Some items => Some <$> items
          | None => [None]
          end
      | None => []
      end
  | None => []
  end.

(** All contents of a preapply response, in order. *)
Definition allContents (results : list Rpc.PreapplyResult) : list Rpc.ContentAndResult :=
  flat_map Rpc.contents results.

(** The errors arrays of the failed contents, concatenated. *)
Definition aggregate (results : list Rpc.PreapplyResult) : list (option string) :=
  flat_map errorsOf (filter (fun c => failed c = true) (allContents results)).

(** The contents passed to [prepareOperation], as a list. *)
Definition inputOps (operation : Emitter.OperationParam) : list (gmap string Js.value) :=
  match operation with
  | Emitter.Many l => l
  | Emitter.Single op => [op]
  end.

(** The resolved source: the [source] argument when it is given (and not
    empty), the signer's public key hash otherwise. *)
Definition resolvedSource (ctx : Emitter.Context) (source : option string) : string :=
  if Js.truthy_opt_string source then default "" source else Emitter.publicKeyHash ctx.

(** At least one content is source-bearing. *)
Definition sourceBearing (ops : list (gmap string Js.value)) : bool :=
  existsb Emitter.isSourceOp ops.

(** A manager key is unset when the node answers nothing, an empty string, or
    an object without a (non-empty) [key]. *)
Definition managerKeyUnset (m : Rpc.ManagerKeyResponse) : Prop :=
  match m with
  | Rpc.ManagerUndefined => True
  | Rpc.ManagerString s => s = ""
  | Rpc.ManagerObject key => key = None \/ key = Some ""
  end.

(** Protocol generation 005 is active: by the protocol hint of the context
    when there is one, by the [next_protocol] of the head otherwise. *)
Definition active005 (ctx : Emitter.Context) : bool :=
  if Js.truthy_opt_string (Emitter._proto ctx)
  then bool_decide (default "" (Emitter._proto ctx) ∈ protocols_005)
  else
    match Emitter.getBlockMetadata ctx with
    | Some md => bool_decide (Rpc.next_protocol md ∈ protocols_005)
    | None => false
    end.

(** The number read from a counter text: [parseInt(text || '0', 10)]. *)
Definition counterValue (text : string) : Js.number :=
  Js.parseInt (Emitter.counterOrZero (Some text)).

(** The baseline of a call: the counter of the source account when a content
    is source-bearing (it is then fetched), zero otherwise. *)
Definition baseline (ctx : Emitter.Context) (pkh : string)
  (ops : list (gmap string Js.value)) : Js.number :=
  if sourceBearing ops
  then counterValue (Emitter.getContract_counter ctx pkh)
  else Js.Num 0.

(** A reveal has to be added: a content is source-bearing and the manager key
    of the source is not set. *)
Definition needsReveal (ctx : Emitter.Context) (pkh : string)
  (ops : list (gmap string Js.value)) : bool :=
  sourceBearing ops && negb (Emitter.haveManager (Emitter.getManagerKey ctx pkh)).

(** The calls made by [prepareOperation] up to the point where the header and
    the metadata are examined. *)
Definition fetchLog (ctx : Emitter.Context) (source : option string)
  (ops : list (gmap string Js.value)) : list event :=
  let pkh := resolvedSource ctx source in
  ([RpcGetBlockHeader; RpcGetBlockMetadata]
   ++ (if Js.truthy_opt_string source then [] else [SignerPublicKeyHash])
   ++ (if sourceBearing ops then [RpcGetContract pkh; RpcGetManagerKey pkh] else []))%list.

(** The calls made by a [prepareOperation] that reaches [constructOps]. *)
Definition prepareLog (ctx : Emitter.Context) (source : option string)
  (ops : list (gmap string Js.value)) : list event :=
  let pkh := resolvedSource ctx source in
  (fetchLog ctx source ops
   ++ (if needsReveal ctx pkh ops then [SignerPublicKey] else [])
   ++ (if Js.truthy_opt_string (Emitter._proto ctx) then [] else [RpcGetBlockMetadata]))%list.

(** The reveal content as it leaves [prepareOperation], but for its counter:
    the default reveal constants as strings, the signer's public key and the
    resolved source. *)
Definition revealContent (public_key pkh : string) : gmap string Js.value :=
  <["kind" := Js.VString "reveal"]>
  (<["fee" := Js.VString "1420"]>
  (<["gas_limit" := Js.VString "10600"]>
  (<["storage_limit" := Js.VString "300"]>
  (<["public_key" := Js.VString public_key]>
  (<["source" := Js.VString pkh]> ∅))))).



(** The source a content ends up with: its own [source] when it has one, the
    resolved source of the call otherwise. *)
Definition contentSource (pkh : string) (op : gmap string Js.value) : Js.value :=
  if Js.is_undefined (Js.get op "source") then Js.VString pkh else Js.get op "source".

(** The address of a smart contract. *)
Definition isKT1 (v : Js.value) : Prop :=
  exists s, v = Js.VString s /\ String.prefix "KT1" s = true.

(** The [source] field, when present, is a string. *)
Definition sourceIsString (op : gmap string Js.value) : Prop :=
  match Js.get op "source" with
  | Js.VUndefined | Js.VString _ => True
  | _ => False
  end.

Definition kt1Error : error :=
  Error ("KT1 addresses are not supported as source in " +:+ Protocols.PsBabyM1).



(** A query: a call that reads from the node or the signer and changes
    nothing. *)
Definition is_query (ev : event) : bool :=
  match ev with
  | RpcGetBlockHeader | RpcGetBlockMetadata | RpcGetContract _
  | RpcGetManagerKey _ | SignerPublicKeyHash | SignerPublicKey => true
  | _ => false
  end.

(** The parameters of a plain transfer: a destination and an amount in tz,
    nothing else given. *)
Definition plainTransfer (to : string) (amount : Format.Amount) : Prepare.TransferParams :=
  {| Prepare.to := to;
     Prepare.amount := amount;
     Prepare.parameter := None;
     Prepare.fee := None;
     Prepare.gasLimit := None;
     Prepare.storageLimit := None;
     Prepare.mutez := None;
     Prepare.rawParam := None |}.



(** A head block has its four operation lists. *)
Definition wellFormed (head : Operation.BlockResponse) : Prop :=
  (4 <= length (Operation.operations head))%nat.




End Spec.

(** Concrete inputs used by the examples, witnesses and counterexamples. *)

Module Sample.

(** An account activation found in a block entry that carries no metadata,
    and a filter on its public key hash. *)
Definition activation_without_metadata : Filter.OperationContent :=
  {| Filter.kind := "activate_account";
     Filter.metadata := None;
     Filter.pkh := Some "tz1abc";
     Filter.source := None |}.

Definition filter_tz1abc : Filter.SourceFilter :=
  {| Filter.filter_source := "tz1abc" |}.

Definition activation_with_metadata : Filter.OperationContent :=
  {| Filter.kind := "activate_account";
     Filter.metadata := Some {| Filter.delegate := None |};
     Filter.pkh := Some "tz1abc";
     Filter.source := None |}.

Definition endorsement_by_tz1abc : Filter.OperationContent :=
  {| Filter.kind := "endorsement";
     Filter.metadata := Some {| Filter.delegate := Some "tz1abc" |};
     Filter.pkh := None;
     Filter.source := None |}.

(** A preapply response whose only content failed with an empty [errors]
    array. *)
Definition failed_without_errors : list Rpc.PreapplyResult :=
  [ {| Rpc.contents :=
         [ {| Rpc.kind := "transaction";
              Rpc.metadata :=
                Some {| Rpc.operation_result :=
                          Some {| Rpc.status := "failed"; Rpc.errors := Some [] |} |} |} ] |} ].

(** A preapply response with one applied and one failed content. *)
Definition failed_with_errors : list Rpc.PreapplyResult :=
  [ {| Rpc.contents :=
         [ {| Rpc.kind := "reveal";
              Rpc.metadata :=
                Some {| Rpc.operation_result :=
                          Some {| Rpc.status := "applied"; Rpc.errors := None |} |} |};
           {| Rpc.kind := "transaction";
              Rpc.metadata :=
                Some {| Rpc.operation_result :=
                          Some {| Rpc.status := "failed";
                                  Rpc.errors := Some ["balance_too_low"] |} |} |} ] |} ].

(** A node and signer with fixed answers; [counter] is the counter of every
    account, [manager] its manager key and [preapplied] the preapply
    response. *)
Definition context (counter : string) (manager : Rpc.ManagerKeyResponse)
  (proto : option string) (preapplied : Rpc.PreapplyResponse) : Emitter.Context :=
  {| Emitter.getBlockHeader := Some {| Rpc.hash := "BLhead" |};
     Emitter.getBlockMetadata := Some {| Rpc.next_protocol := Protocols.PsBabyM1 |};
     Emitter.getContract_counter := fun _ => counter;
     Emitter.getManagerKey := fun _ => manager;
     Emitter.preapplyOperations := fun _ => preapplied;
     Emitter.publicKeyHash := "tz1signer";
     Emitter.publicKey := "edpksigner";
     Emitter.sign := fun bytes => {| Emitter.prefixSig := "edsig"; Emitter.sbytes := bytes +:+ "ff" |};
     Emitter.forger_forge := fun _ _ => "00aa";
     Emitter.injector_inject := fun _ => "oohash";
     Emitter._proto := proto |}.

Definition forged : Emitter.ForgedBytes :=
  {| Emitter.opbytes := "00aa";
     Emitter.opOb := {| Emitter.branch := "BLhead"; Emitter.contents := [];
                        Emitter.protocol := Protocols.PsBabyM1;
                        Emitter.signature := None |};
     Emitter.counter := Js.Num 41 |}.


(** A transfer of 1.5 tz, no fee, gas limit or storage limit given. *)
Definition transfer (to : string) : gmap string Js.value :=
  Prepare.createTransferOperation (fun sexp => sexp)
    (Spec.plainTransfer to (Format.Decimal 15 1)).

(** A delegation that leaves every optional field out. *)
Definition delegation : gmap string Js.value :=
  <["delegate" := Js.VString "tz1baker"]>
  (<["kind" := Js.VString "delegation"]> ∅).

(** A transfer whose source is a smart contract. *)
Definition contract_transfer : gmap string Js.value :=
  <["source" := Js.VString "KT1contract"]> (transfer "tz1dest").

(** A head block at [level] whose last operation list holds [hashes]. *)
Definition block (level : Z) (hashes : list string) : Operation.BlockResponse :=
  {| Operation.level := level;
     Operation.operations :=
       [[]; []; []; (fun h => {| Operation.hash := h |}) <$> hashes] |}.

(** The heads seen by a tracker of ["oohash"]: the operation is included at
    level 10, seen at the second poll, and level 11 is seen at the fourth. *)
Definition heads (n : nat) : Operation.BlockResponse :=
  match n with
  | 0%nat => block 9 []
  | 1%nat => block 10 ["oohash"]
  | 2%nat => block 10 ["oohash"]
  | _ => block 11 []
  end.

End Sample.
(* ===================================================================== *)
(** ** The filter evaluator of the operation subscription *)
(* ===================================================================== *)

Module Subscribe.

(** [metadata.operation_result] of an origination content; an absent
    [originated_contracts] is [None]. *)
Record OperationResult : Type := {
  originated_contracts : option (list string)
}.

(** [metadata] of a content: [delegate] is read for endorsements,
    [operation_result] for originations. *)
Record Metadata : Type := {
  metadata_delegate : option string;
  operation_result : option OperationResult
}.

(** A content of a block operation: the fields the filters read; an absent
    key is [None]. *)
Record Content : Type := {
  kind : string;
  metadata : option Metadata;
  pkh : option string;
  source : option string;
  destination : option string;
  delegate : option string
}.

(** What a filter is evaluated on and what the subscription emits:
    [{ hash: op.hash, ...content }]. *)
Record Item : Type := {
  hash : string;
  content : Content
}.

(** An entry of an operation list of a block. *)
Record OperationEntry : Type := {
  entry_hash : string;
  contents : list Content
}.

(** [block.operations] *)
Record BlockResponse : Type := {
  operations : list (list OperationEntry)
}.

(** The fields of a content that [sourceFilter] reads. *)
Definition sourceView (x : Content) : Filter.OperationContent :=
  {| Filter.kind := kind x;
     Filter.metadata :=
       (fun md => {| Filter.delegate := metadata_delegate md |}) <$> metadata x;
     Filter.pkh := pkh x;
     Filter.source := source x |}.

(** The keys of an operation filter object that [evaluateOpFilter] looks
    for; a key that is not in the object is [None]. *)
Record OpFilter : Type := {
  key_opHash : option string;
  key_source : option string;
  key_kind : option string;
  key_destination : option string
}.

(** The [and] or [or] property of a filter object: not in the object, in it
    with a value that is not an array, or an array of filters. *)
Inductive Property (A : Type) : Type :=
| Absent
| NotArray
| IsArray (items : list A).

Arguments Absent {A}.
Arguments NotArray {A}.
Arguments IsArray {A} items.

(** A filter as [evaluateFilter] takes it: an array of filters or one filter
    object. *)
#[warnings="-register-all"] Inductive FilterValue : Type :=
| FilterArray (items : list FilterValue)
| FilterObject (keys : OpFilter) (and_ or_ : Property FilterValue).

(** [opHashFilter] *)
Definition opHashFilter (op : Item) (opHash : string) : bool :=
  String.eqb (hash op) opHash.

(** [kindFilter]; a content always has a [kind]. *)
Definition kindFilter (x : Item) (kind_ : string) : bool :=
  String.eqb (kind (content x)) kind_.

(** [destinationFilter]; [None] is the [undefined] that the function returns
    when it leaves the [switch] through [break]. *)
Definition destinationFilter (x : Item) (destination_ : string) : option bool :=
  let x := content x in
  if String.eqb (kind x) "delegation" then
    Some (Filter.field_eq (delegate x) destination_)
  else if String.eqb (kind x) "origination" then
    match metadata x with
    | Some md =>
        match operation_result md with
        | Some r =>
            match originated_contracts r with
            | Some l => Some (existsb (fun contract => String.eqb contract destination_) l)
            | None => None
            end
        | None => None
        end
    | None => None
    end
  else if String.eqb (kind x) "transaction" then
    Some (Filter.field_eq (destination x) destination_)
  else Some false.

(** [evaluateOpFilter] *)
Definition evaluateOpFilter (op : Item) (filter : OpFilter) : option bool :=
  match key_opHash filter with
  | Some opHash => Some (opHashFilter op opHash)
  | None =>
      match key_source filter with
      | Some s =>
          Some (Filter.sourceFilter (sourceView (content op)) {| Filter.filter_source := s |})
      | None =>
          match key_kind filter with
          | Some k => Some (kindFilter op k)
          | None =>
              match key_destination filter with
              | Some d => destinationFilter op d
              | None => Some false
              end
          end
      end
  end.

Section Combinators.
Context {A : Type} (f : A -> error + bool).

(** [l.every(f)]: stops at the first element on which [f] is falsy; a throw
    of [f] ends the loop. *)
Fixpoint every (l : list A) : error + bool :=
  match l with
  | [] => inr true
  | x :: l' =>
      match f x with
      | inl e => inl e
      | inr true => every l'
      | inr false => inr false
      end
  end.

(** [l.some(f)]: stops at the first element on which [f] is truthy. *)
Fixpoint some (l : list A) : error + bool :=
  match l with
  | [] => inr false
  | x :: l' =>
      match f x with
      | inl e => inl e
      | inr true => inr true
      | inr false => some l'
      end
  end.

End Combinators.

(** Whether a filter object has an [and] or an [or] key. *)
Definition present {A : Type} (p : Property A) : bool :=
  match p with
  | Absent => false
  | _ => true
  end.

(** [evaluateFilter], with [evaluateExpression] and the callback given to
    [filters.every] written in line: the three functions call each other. *)
Fixpoint evaluateFilter (op : Item) (filter : FilterValue) {struct filter}
  : error + bool :=
  let evaluateExpression (and_ or_ : Property FilterValue) : error + bool :=
    match and_ with
    | IsArray l => every (evaluateFilter op) l
    | _ =>
        match or_ with
        | IsArray l => some (evaluateFilter op) l
        | _ => inl (Error "Filter expression must contains either and/or property")
        end
    end in
  let callback (filterOrExp : FilterValue) : error + bool :=
    match filterOrExp with
    | FilterArray _ => inr false
    | FilterObject keys and_ or_ =>
        if present and_ || present or_ then evaluateExpression and_ or_
        else inr (default false (evaluateOpFilter op keys))
    end in
  match filter with
  | FilterArray filters => every callback filters
  | FilterObject _ _ _ => callback filter
  end.

(** What one pass over some items leaves behind: the values emitted, and the
    error that ended the pass, if any. *)
Definition Emission : Type := (list Item * option error)%type.

Section Loops.
Context {A : Type} (body : A -> Emission).

(** [for (... of l) body]: the emissions follow each other; a throw in the
    body ends the loop. *)
Fixpoint forOf (l : list A) : Emission :=
  match l with
  | [] => ([], None)
  | x :: l' =>
      match body x with
      | (out, Some e) => (out, Some e)
      | (out, None) => let '(out', r) := forOf l' in ((out ++ out')%list, r)
      end
  end.

End Loops.

(** The observable that [applyFilter] builds for one block: every content of
    every operation of every operation list is tagged with the hash of its
    operation and emitted when the filter holds; an error thrown by the
    evaluation is delivered to the subscriber and ends the observable. *)
Definition applyFilter (filter : FilterValue) (block : BlockResponse) : Emission :=
  forOf (fun ops =>
    forOf (fun op =>
      forOf (fun content_ =>
        let item := {| hash := entry_hash op; content := content_ |} in
        match evaluateFilter item filter with
        | inl e => ([], Some e)
        | inr true => ([item], None)
        | inr false => ([], None)
        end) (contents op)) ops) (operations block).

End Subscribe.

Module SubscribeSpec.
Import Subscribe.

(** Every expression met by the evaluation has an array under [and] or
    under [or]. *)
Fixpoint wellFormed (f : FilterValue) : bool :=
  match f with
  | FilterArray l =>
      forallb (fun x => match x with
                        | FilterArray _ => true
                        | FilterObject _ _ _ => wellFormed x
                        end) l
  | FilterObject _ and_ or_ =>
      match and_, or_ with
      | IsArray l, _ => forallb wellFormed l
      | _, IsArray l => forallb wellFormed l
      | Absent, Absent => true
      | _, _ => false
      end
  end.

(** The reading of a filter on an item: an array holds when all its members
    do (a member that is itself an array never does), [and] when all its
    members do, [or] when one does, and an operation filter by its first key
    among [opHash], [source], [kind], [destination]. *)
Fixpoint holds (op : Item) (f : FilterValue) : bool :=
  match f with
  | FilterArray l =>
      forallb (fun x => match x with
                        | FilterArray _ => false
                        | FilterObject _ _ _ => holds op x
                        end) l
  | FilterObject keys and_ or_ =>
      match and_, or_ with
      | IsArray l, _ => forallb (holds op) l
      | _, IsArray l => existsb (holds op) l
      | _, _ => default false (evaluateOpFilter op keys)
      end
  end.

(** An operation filter with no key, and the filter objects with one key. *)
Definition noKeys : OpFilter :=
  {| key_opHash := None; key_source := None; key_kind := None; key_destination := None |}.

Definition onKind (k : string) : FilterValue :=
  FilterObject
    {| key_opHash := None; key_source := None; key_kind := Some k; key_destination := None |}
    Absent Absent.

Definition onDestination (d : string) : FilterValue :=
  FilterObject
    {| key_opHash := None; key_source := None; key_kind := None; key_destination := Some d |}
    Absent Absent.

(** A property holds of every member of the array under [and] or [or]. *)
Definition forMembers (P : FilterValue -> Prop) (p : Property FilterValue) : Prop :=
  match p with
  | IsArray l => Forall P l
  | _ => True
  end.

(** The items of a block, in block order. *)
Definition items (block : BlockResponse) : list Item :=
  ops ← operations block;
  op ← ops;
  (fun c => {| hash := entry_hash op; content := c |}) <$> contents op.

End SubscribeSpec.

(* ===================================================================== *)
(** ** The listeners of a subscription *)
(* ===================================================================== *)

Module ObservableSubscription.

(** A listener is a function; [indexOf] compares functions by identity, for
    which a number stands. *)
Definition Listener : Type := nat.

(** The three arrays of listeners of a subscription. *)
Record t : Type := {
  errorListeners : list Listener;
  messageListeners : list Listener;
  closeListeners : list Listener
}.

(** The arrays as the constructor leaves them. *)
Definition new : t :=
  {| errorListeners := []; messageListeners := []; closeListeners := [] |}.

(** [listeners.indexOf(value)]; [None] is [-1]. *)
Fixpoint indexOf (listeners : list Listener) (value : Listener) : option nat :=
  match listeners with
  | [] => None
  | l :: rest => if decide (l = value) then Some 0%nat else S <$> indexOf rest value
  end.

(** [ObservableSubscription.prototype.remove]: [splice(idx, 1)] at the index
    found. *)
Definition remove (listeners : list Listener) (value : Listener) : list Listener :=
  match indexOf listeners value with
  | Some idx => delete idx listeners
  | None => listeners
  end.

(** [ObservableSubscription.prototype.on] *)
Definition on (type : string) (cb : Listener) (s : t) : error + t :=
  if String.eqb type "data" then
    inr {| errorListeners := errorListeners s;
           messageListeners := (messageListeners s ++ [cb])%list;
           closeListeners := closeListeners s |}
  else if String.eqb type "error" then
    inr {| errorListeners := (errorListeners s ++ [cb])%list;
           messageListeners := messageListeners s;
           closeListeners := closeListeners s |}
  else if String.eqb type "close" then
    inr {| errorListeners := errorListeners s;
           messageListeners := messageListeners s;
           closeListeners := (closeListeners s ++ [cb])%list |}
  else inl (Error ("Trying to register on an unsupported event: " +:+ type)).

(** [ObservableSubscription.prototype.off] *)
Definition off (type : string) (cb : Listener) (s : t) : error + t :=
  if String.eqb type "data" then
    inr {| errorListeners := errorListeners s;
           messageListeners := remove (messageListeners s) cb;
           closeListeners := closeListeners s |}
  else if String.eqb type "error" then
    inr {| errorListeners := remove (errorListeners s) cb;
           messageListeners := messageListeners s;
           closeListeners := closeListeners s |}
  else if String.eqb type "close" then
    inr {| errorListeners := errorListeners s;
           messageListeners := messageListeners s;
           closeListeners := remove (closeListeners s) cb |}
  else inl (Error ("Trying to unregister on an unsupported event: " +:+ type)).

End ObservableSubscription.

Module SubscriptionSpec.

(** The listeners registered for an event type. *)
Definition listeners (type : string) (s : ObservableSubscription.t)
  : list ObservableSubscription.Listener :=
  if String.eqb type "data" then ObservableSubscription.messageListeners s
  else if String.eqb type "error" then ObservableSubscription.errorListeners s
  else if String.eqb type "close" then ObservableSubscription.closeListeners s
  else [].

End SubscriptionSpec.

(* ===================================================================== *)
(** ** The status of an operation handle *)
(* ===================================================================== *)

Module Handle.

(** The getter [status] of [Operation], on the [results] of the handle. *)
Definition status (results : list Rpc.ContentAndResult) : string :=
  let statuses :=
    (fun result =>
       match Rpc.metadata result with
       | Some md =>
           match Rpc.operation_result md with
           | Some r => Rpc.status r
           | None => "unknown"
           end
       | None => "unknown"
       end) <$> results in
  match statuses !! 0%nat with
  | Some s => if Js.truthy_string s then s else "unknown"
  | None => "unknown"
  end.

End Handle.

(* ===================================================================== *)
(** ** The context and the toolkit *)
(* ===================================================================== *)

(** A [Context] is a mutable object that the toolkit, its providers, the
    default forger and the default injector all hold a reference to.  The
    model keeps the contexts in a store, a finite map from locations
    (numbers) to the fields of the object at that location. *)

Module Toolkit.

(** An RPC client: [new RpcClient()], [new RpcClient(url)], or an instance
    made by the caller. *)
Inductive RpcClient : Type :=
| DefaultClient
| ClientAt (url : string)
| ClientInstance (id : nat).

(** A signer: the [NoopSigner] or one given by the caller. *)
Inductive Signer : Type :=
| NoopSigner
| SignerInstance (id : nat).

(** A forger: the [RpcForger] of a context, which forges through the RPC
    client that context has when the call is made, or one given by the
    caller.  Likewise for an injector. *)
Inductive Forger : Type :=
| RpcForger (context : nat)
| ForgerInstance (id : nat).

Inductive Injector : Type :=
| RpcInjector (context : nat)
| InjectorInstance (id : nat).

(** The [config] argument: an object with any of the three keys. *)
Record ConfigParam : Type := {
  confirmationPollingIntervalSecond : option Q;
  defaultConfirmationCount : option Z;
  confirmationPollingTimeoutSecond : option Q
}.

(** The fields of a [Context]. *)
Record Context : Type := {
  _rpcClient : RpcClient;
  _signer : Signer;
  _proto : option string;
  _config : Operation.Config;
  _forger : Forger;
  _injector : Injector
}.

(** The setter of [config]: [__assign(__assign({}, defaultConfig), value)]. *)
Definition mergeConfig (value : option ConfigParam) : Operation.Config :=
  match value with
  | None => Operation.defaultConfig
  | Some v =>
      {| Operation.confirmationPollingIntervalSecond :=
           default (Operation.confirmationPollingIntervalSecond Operation.defaultConfig)
             (confirmationPollingIntervalSecond v);
         Operation.defaultConfirmationCount :=
           default (Operation.defaultConfirmationCount Operation.defaultConfig)
             (defaultConfirmationCount v);
         Operation.confirmationPollingTimeoutSecond :=
           default (Operation.confirmationPollingTimeoutSecond Operation.defaultConfig)
             (confirmationPollingTimeoutSecond v) |}
  end.

(** A configuration read back through the getter, as an argument. *)
Definition asParam (c : Operation.Config) : ConfigParam :=
  {| confirmationPollingIntervalSecond := Some (Operation.confirmationPollingIntervalSecond c);
     defaultConfirmationCount := Some (Operation.defaultConfirmationCount c);
     confirmationPollingTimeoutSecond := Some (Operation.confirmationPollingTimeoutSecond c) |}.

(** [new Context(_rpcClient, _signer, _proto, _config, forger, injector)]:
    the new object takes a fresh location; a forger or an injector left out
    is made on the new object itself. *)
Definition newContext (h : gmap nat Context) (rpcClient : option RpcClient) (signer : option Signer)
  (proto : option string) (config : option ConfigParam)
  (forger : option Forger) (injector : option Injector) : gmap nat Context * nat :=
  let this := fresh (dom h) in
  (<[this := {| _rpcClient := default DefaultClient rpcClient;
                _signer := default NoopSigner signer;
                _proto := proto;
                _config := mergeConfig config;
                _forger := default (RpcForger this) forger;
                _injector := default (RpcInjector this) injector |}]> h,
   this).

(** [Context.prototype.clone] *)
Definition clone (h : gmap nat Context) (this : nat) : option (gmap nat Context * nat) :=
  c ← h !! this;
  Some (newContext h (Some (_rpcClient c)) (Some (_signer c)) (_proto c)
          (Some (asParam (_config c))) (Some (_forger c)) (Some (_injector c))).

(** The setters of [rpc], [signer], [proto] and [config]. *)
Definition set_rpc (this : nat) (value : RpcClient) (h : gmap nat Context) : gmap nat Context :=
  alter (fun c => {| _rpcClient := value; _signer := _signer c; _proto := _proto c;
                     _config := _config c; _forger := _forger c;
                     _injector := _injector c |}) this h.

Definition set_signer (this : nat) (value : Signer) (h : gmap nat Context) : gmap nat Context :=
  alter (fun c => {| _rpcClient := _rpcClient c; _signer := value; _proto := _proto c;
                     _config := _config c; _forger := _forger c;
                     _injector := _injector c |}) this h.

Definition set_proto (this : nat) (value : option string) (h : gmap nat Context) : gmap nat Context :=
  alter (fun c => {| _rpcClient := _rpcClient c; _signer := _signer c; _proto := value;
                     _config := _config c; _forger := _forger c;
                     _injector := _injector c |}) this h.

Definition set_config (this : nat) (value : option ConfigParam) (h : gmap nat Context) : gmap nat Context :=
  alter (fun c => {| _rpcClient := _rpcClient c; _signer := _signer c; _proto := _proto c;
                     _config := mergeConfig value; _forger := _forger c;
                     _injector := _injector c |}) this h.

(** Where the bytes go when the injector of a context is called:
    [RpcInjector.prototype.inject] reads [this.context.rpc] at the time of
    the call. *)
Inductive Target : Type :=
| ThroughRpc (client : RpcClient)
| ThroughInstance (id : nat).

Definition injectTarget (h : gmap nat Context) (this : nat) : option Target :=
  c ← h !! this;
  match _injector c with
  | RpcInjector ctx => c' ← h !! ctx; Some (ThroughRpc (_rpcClient c'))
  | InjectorInstance id => Some (ThroughInstance id)
  end.

(** Likewise for [RpcForger.prototype.forge]. *)
Definition forgeTarget (h : gmap nat Context) (this : nat) : option Target :=
  c ← h !! this;
  match _forger c with
  | RpcForger ctx => c' ← h !! ctx; Some (ThroughRpc (_rpcClient c'))
  | ForgerInstance id => Some (ThroughInstance id)
  end.

(** The [rpc] argument of [setProvider]: a URL or a client. *)
Inductive RpcOption : Type :=
| RpcUrl (url : string)
| RpcObject (client : RpcClient).

(** The [stream] argument: a URL or a provider made by the caller. *)
Inductive StreamOption : Type :=
| StreamUrl (url : string)
| StreamObject (id : nat).

(** The stream provider of the toolkit: a [PollingSubscribeProvider] on a
    context, or the provider given by the caller. *)
Inductive Stream : Type :=
| PollingSubscribeProvider (context : nat)
| StreamInstance (id : nat).

(** The [indexer] argument and the indexer client. *)
Inductive IndexerOption : Type :=
| IndexerUrl (url : string)
| IndexerObject (id : nat).

Inductive IndexerClient : Type :=
| DefaultIndexer
| IndexerAt (url : string)
| IndexerInstance (id : nat).

(** The argument of [setProvider]; a key left out is [None]. *)
Record Options : Type := {
  rpc : option RpcOption;
  indexer : option IndexerOption;
  stream : option StreamOption;
  signer : option Signer;
  protocol : option string;
  config : option ConfigParam
}.

(** The fields of a [TezosToolkit]; [_options] keeps the last [rpc],
    [indexer], [stream] and [signer] arguments.  [_query] is an
    [IndexerProvider] on [_indexerClient] and is not kept apart. *)
Record TezosToolkit : Type := {
  toolkit_rpcClient : RpcClient;
  _indexerClient : IndexerClient;
  _options_rpc : option RpcOption;
  _options_indexer : option IndexerOption;
  _options_stream : option StreamOption;
  _options_signer : option Signer;
  _context : nat;
  _stream : option Stream
}.

(** The store and the toolkit. *)
Definition State : Type := (gmap nat Context * TezosToolkit)%type.

(** [TezosToolkit.prototype.setRpcProvider] *)
Definition setRpcProvider (rpc : option RpcOption) (st : State) : State :=
  let '(h, t) := st in
  let rpcClient :=
    match rpc with
    | Some (RpcUrl url) => ClientAt url
    | Some (RpcObject client) => client
    | None =>
        match _options_rpc t with
        | None => DefaultClient
        | Some _ => toolkit_rpcClient t
        end
    end in
  (set_rpc (_context t) rpcClient h,
   {| toolkit_rpcClient := rpcClient;
      _indexerClient := _indexerClient t;
      _options_rpc := rpc;
      _options_indexer := _options_indexer t;
      _options_stream := _options_stream t;
      _options_signer := _options_signer t;
      _context := _context t;
      _stream := _stream t |}).

(** [TezosToolkit.prototype.setIndexerProvider] *)
Definition setIndexerProvider (indexer : option IndexerOption) (st : State) : State :=
  let '(h, t) := st in
  let indexerClient :=
    match indexer with
    | Some (IndexerUrl url) => IndexerAt url
    | Some (IndexerObject id) => IndexerInstance id
    | None =>
        match _options_indexer t with
        | None => DefaultIndexer
        | Some _ => _indexerClient t
        end
    end in
  (h,
   {| toolkit_rpcClient := toolkit_rpcClient t;
      _indexerClient := indexerClient;
      _options_rpc := _options_rpc t;
      _options_indexer := indexer;
      _options_stream := _options_stream t;
      _options_signer := _options_signer t;
      _context := _context t;
      _stream := _stream t |}).

(** [TezosToolkit.prototype.setStreamProvider] *)
Definition setStreamProvider (stream : option StreamOption) (st : State) : State :=
  let '(h, t) := st in
  let '(h, stream_) :=
    match stream with
    | Some (StreamUrl url) =>
        let '(h, ctx) := newContext h (Some (ClientAt url)) None None None None None in
        (h, Some (PollingSubscribeProvider ctx))
    | Some (StreamObject id) => (h, Some (StreamInstance id))
    | None =>
        match _options_stream t with
        | None => (h, Some (PollingSubscribeProvider (_context t)))
        | Some _ => (h, _stream t)
        end
    end in
  (h,
   {| toolkit_rpcClient := toolkit_rpcClient t;
      _indexerClient := _indexerClient t;
      _options_rpc := _options_rpc t;
      _options_indexer := _options_indexer t;
      _options_stream := stream;
      _options_signer := _options_signer t;
      _context := _context t;
      _stream := stream_ |}).

(** [TezosToolkit.prototype.setSignerProvider] *)
Definition setSignerProvider (signer : option Signer) (st : State) : State :=
  let '(h, t) := st in
  match _options_signer t, signer with
  | None, None =>
      (set_signer (_context t) NoopSigner h,
       {| toolkit_rpcClient := toolkit_rpcClient t;
          _indexerClient := _indexerClient t;
          _options_rpc := _options_rpc t;
          _options_indexer := _options_indexer t;
          _options_stream := _options_stream t;
          _options_signer := signer;
          _context := _context t;
          _stream := _stream t |})
  | _, Some s =>
      (set_signer (_context t) s h,
       {| toolkit_rpcClient := toolkit_rpcClient t;
          _indexerClient := _indexerClient t;
          _options_rpc := _options_rpc t;
          _options_indexer := _options_indexer t;
          _options_stream := _options_stream t;
          _options_signer := signer;
          _context := _context t;
          _stream := _stream t |})
  | Some _, None => (h, t)
  end.

(** [TezosToolkit.prototype.setProvider] *)
Definition setProvider (o : Options) (st : State) : State :=
  let st := setRpcProvider (rpc o) st in
  let st := setIndexerProvider (indexer o) st in
  let st := setStreamProvider (stream o) st in
  let '(h, t) := setSignerProvider (signer o) st in
  let h := set_proto (_context t) (protocol o) h in
  let h := set_config (_context t) (config o) h in
  (h, t).

(** [new TezosToolkit()] *)
Definition newTezosToolkit (h : gmap nat Context) : State :=
  let rpcClient := DefaultClient in
  let '(h, ctx) := newContext h None None None None None None in
  setProvider
    {| rpc := Some (RpcObject rpcClient); indexer := None; stream := None;
       signer := None; protocol := None; config := None |}
    (h, {| toolkit_rpcClient := rpcClient;
           _indexerClient := DefaultIndexer;
           _options_rpc := None;
           _options_indexer := None;
           _options_stream := None;
           _options_signer := None;
           _context := ctx;
           _stream := None |}).

(** A toolkit after a series of calls to [setProvider]. *)
Definition configured (h : gmap nat Context) (calls : list Options) : State :=
  fold_left (fun st o => setProvider o st) calls (newTezosToolkit h).

(** The getters [rpc] and [signer] of the toolkit, and the protocol hint and
    the configuration its providers see. *)
Definition toolkit_rpc (st : State) : option RpcClient :=
  _rpcClient <$> fst st !! _context (snd st).

Definition toolkit_signer (st : State) : option Signer :=
  _signer <$> fst st !! _context (snd st).

Definition toolkit_proto (st : State) : option (option string) :=
  _proto <$> fst st !! _context (snd st).

Definition toolkit_config (st : State) : option Operation.Config :=
  _config <$> fst st !! _context (snd st).

End Toolkit.

(* ===================================================================== *)
(** ** The providers built on the emitter *)
(* ===================================================================== *)

(** The contract provider, the estimate provider and the account provider
    all extend the emitter.  They talk to more of the node than the emitter
    does and throw one more kind of error, so their calls are sequenced in a
    monad of their own, into which the computations of the emitter are
    lifted. *)

Module Provider.

(** What a provider call can throw: an error of the emitter, or the error of
    [setDelegate] (an object with a [source], not an [Error]). *)
Inductive failure : Type :=
| Thrown (e : error)
| InvalidDelegationSource (source : option string).

(** The argument of [rpc.runOperation]: the operation with the signature
    stub, wrapped with the chain id from protocol 005 on. *)
Record RunOperationParam : Type := {
  run_branch : string;
  run_contents : list (gmap string Js.value);
  run_signature : string;
  run_chain_id : option string
}.

(** The calls a provider makes: those of the emitter, and three more
    requests to the RPC client. *)
Inductive request : Type :=
| Emitted (ev : event)
| RpcGetChainId
| RpcRunOperation (op : RunOperationParam)
| RpcInjectOperation (signedOpBytes : string).

Definition Task (A : Type) : Type := (list request * (failure + A))%type.

#[global] Instance Task_ret : MRet Task := fun _ a => ([], inr a).

#[global] Instance Task_bind : MBind Task := fun _ _ f m =>
  match m with
  | (l, inl e) => (l, inl e)
  | (l, inr a) => let '(l', r) := f a in ((l ++ l')%list, r)
  end.

Definition fail {A : Type} (e : failure) : Task A := ([], inl e).

Definition ask (r : request) : Task unit := ([r], inr tt).

(** A computation of the emitter, run by a provider. *)
Definition lift {A : Type} (m : M A) : Task A :=
  (Emitted <$> fst m,
   match snd m with
   | inl e => inl (Thrown e)
   | inr a => inr a
   end).

(** [source || await this.signer.publicKeyHash()] *)
Definition sourceOrSigner (ctx : Emitter.Context) (source : option string) : Task string :=
  match source with
  | Some s =>
      if Js.truthy_string s then mret s
      else (_ ← ask (Emitted SignerPublicKeyHash); mret (Emitter.publicKeyHash ctx))
  | None => _ ← ask (Emitted SignerPublicKeyHash); mret (Emitter.publicKeyHash ctx)
  end.

(** An optional string property of an object literal: the key is there, with
    the value [undefined] when nothing was given. *)
Definition stringOrUndefined (o : option string) : Js.value :=
  match o with
  | Some s => Js.VString s
  | None => Js.VUndefined
  end.

(** The argument of [createSetDelegateOperation] and of [setDelegate]. *)
Record DelegateParams : Type := {
  delegate : option string;
  source : option string;
  fee : option Z;
  gasLimit : option Z;
  storageLimit : option Z
}.

(** [createSetDelegateOperation] *)
Definition createSetDelegateOperation (params : DelegateParams) : gmap string Js.value :=
  let fee := default DEFAULT_FEE.DELEGATION (fee params) in
  let gasLimit := default DEFAULT_GAS_LIMIT.DELEGATION (gasLimit params) in
  let storageLimit := default DEFAULT_STORAGE_LIMIT.DELEGATION (storageLimit params) in
  <["delegate" := stringOrUndefined (delegate params)]>
  (<["storage_limit" := Js.VNumber (Js.Num storageLimit)]>
  (<["gas_limit" := Js.VNumber (Js.Num gasLimit)]>
  (<["fee" := Js.VNumber (Js.Num fee)]>
  (<["source" := stringOrUndefined (source params)]>
  (<["kind" := Js.VString "delegation"]> ∅))))).

(** The argument of [createRegisterDelegateOperation] and of
    [registerDelegate]. *)
Record RegisterDelegateParams : Type := {
  register_fee : option Z;
  register_gasLimit : option Z;
  register_storageLimit : option Z
}.

(** [createRegisterDelegateOperation] *)
Definition createRegisterDelegateOperation (params : RegisterDelegateParams)
  (source : string) : gmap string Js.value :=
  let fee := default DEFAULT_FEE.DELEGATION (register_fee params) in
  let gasLimit := default DEFAULT_GAS_LIMIT.DELEGATION (register_gasLimit params) in
  let storageLimit := default DEFAULT_STORAGE_LIMIT.DELEGATION (register_storageLimit params) in
  <["delegate" := Js.VString source]>
  (<["storage_limit" := Js.VNumber (Js.Num storageLimit)]>
  (<["gas_limit" := Js.VNumber (Js.Num gasLimit)]>
  (<["fee" := Js.VNumber (Js.Num fee)]>
  (<["kind" := Js.VString "delegation"]> ∅)))).

(** The handle made from an injection: [new TransactionOperation(hash,
    params, source, raw, results, context)] and [new DelegateOperation] with
    the same arguments; the context snapshot is left out. *)
Record OperationHandle : Type := {
  hash : string;
  params : gmap string Js.value;
  handle_source : string;
  raw : Emitter.ForgedBytes;
  results : list Rpc.ContentAndResult
}.

Definition handle (injected : Emitter.Injected) (params : gmap string Js.value)
  (source : string) : OperationHandle :=
  {| hash := Emitter.injected_hash injected;
     params := params;
     handle_source := source;
     raw := Emitter.injected_forgedBytes injected;
     results := Emitter.injected_opResponse injected |}.

(** *** The contract provider *)

(** The three figures [estimate] reads off the answer of the estimator:
    [suggestedFeeMutez], [gasLimit] and [storageLimit]. *)
Record Estimation : Type := {
  suggestedFeeMutez : Z;
  estimated_gasLimit : Z;
  estimated_storageLimit : Z
}.

(** What [estimate] returns: [{ fee, gasLimit, storageLimit }]. *)
Record Limits : Type := {
  limits_fee : Z;
  limits_gasLimit : Z;
  limits_storageLimit : Z
}.

(** The estimator given to the constructor of the contract provider. *)
Record EstimationProvider : Type := {
  estimate_transfer : Prepare.TransferParams -> option string -> Task Estimation;
  estimate_setDelegate : DelegateParams -> Task Estimation;
  estimate_registerDelegate : RegisterDelegateParams -> Task Estimation
}.

(** [RpcContractProvider.prototype.estimate] *)
Definition estimate (fee gasLimit storageLimit : option Z) (estimator : Task Estimation)
  : Task Limits :=
  match fee, gasLimit, storageLimit with
  | Some fee, Some gasLimit, Some storageLimit =>
      mret {| limits_fee := fee; limits_gasLimit := gasLimit;
              limits_storageLimit := storageLimit |}
  | _, _, _ =>
      estimation ← estimator;
      mret {| limits_fee := default (suggestedFeeMutez estimation) fee;
              limits_gasLimit := default (estimated_gasLimit estimation) gasLimit;
              limits_storageLimit := default (estimated_storageLimit estimation) storageLimit |}
  end.

(** [/kt1/i.test(source)]: the text holds [kt1], in any case, at some
    position; [undefined] is tested as the text ['undefined']. *)
Fixpoint includes (p s : string) : bool :=
  String.prefix p s ||
  match s with
  | String _ s' => includes p s'
  | EmptyString => false
  end.

Definition test_kt1 (source : option string) : bool :=
  includes "kt1" (Js.toLowerCase (default "undefined" source)).

Section ContractProvider.
Context (sexp2mic : string -> string) (ctx : Emitter.Context)
  (estimator : EstimationProvider).

(** [__assign(__assign({}, params), estimate)] for a transfer *)
Definition withLimits (params : Prepare.TransferParams) (limits : Limits)
  : Prepare.TransferParams :=
  {| Prepare.to := Prepare.to params;
     Prepare.amount := Prepare.amount params;
     Prepare.parameter := Prepare.parameter params;
     Prepare.fee := Some (limits_fee limits);
     Prepare.gasLimit := Some (limits_gasLimit limits);
     Prepare.storageLimit := Some (limits_storageLimit limits);
     Prepare.mutez := Prepare.mutez params;
     Prepare.rawParam := Prepare.rawParam params |}.

(** [RpcContractProvider.prototype.transfer]; [source] is [params.source]. *)
Definition transfer (params : Prepare.TransferParams) (source : option string)
  : Task OperationHandle :=
  limits ← estimate (Prepare.fee params) (Prepare.gasLimit params)
              (Prepare.storageLimit params) (estimate_transfer estimator params source);
  let operation := Prepare.createTransferOperation sexp2mic (withLimits params limits) in
  source_ ← sourceOrSigner ctx source;
  opBytes ← lift (Emitter.prepareAndForge ctx (Emitter.Single operation) source);
  injected ← lift (Emitter.signAndInject ctx opBytes);
  mret (handle injected operation source_).

(** [RpcContractProvider.prototype.getTransferSignatureHash] *)
Definition getTransferSignatureHash (params : Prepare.TransferParams)
  (source : option string) : Task Emitter.ForgedBytes :=
  limits ← estimate (Prepare.fee params) (Prepare.gasLimit params)
              (Prepare.storageLimit params) (estimate_transfer estimator params source);
  let operation := Prepare.createTransferOperation sexp2mic (withLimits params limits) in
  source_ ← sourceOrSigner ctx source;
  lift (Emitter.prepareAndForge ctx (Emitter.Single operation) (Some source_)).

(** [RpcContractProvider.prototype.setDelegate] *)
Definition setDelegate (params : DelegateParams) : Task OperationHandle :=
  proto005 ← lift (Emitter.isAnyProtocolActive ctx protocols_005);
  if proto005 && test_kt1 (source params)
  then fail (InvalidDelegationSource (source params))
  else
    limits ← estimate (fee params) (gasLimit params) (storageLimit params)
                (estimate_setDelegate estimator params);
    let operation :=
      createSetDelegateOperation
        {| delegate := delegate params;
           source := source params;
           fee := Some (limits_fee limits);
           gasLimit := Some (limits_gasLimit limits);
           storageLimit := Some (limits_storageLimit limits) |} in
    sourceOrDefault ← sourceOrSigner ctx (source params);
    opBytes ← lift (Emitter.prepareAndForge ctx (Emitter.Single operation)
                      (Some sourceOrDefault));
    injected ← lift (Emitter.signAndInject ctx opBytes);
    mret (handle injected operation sourceOrDefault).

(** [RpcContractProvider.prototype.registerDelegate] *)
Definition registerDelegate (params : RegisterDelegateParams) : Task OperationHandle :=
  limits ← estimate (register_fee params) (register_gasLimit params)
              (register_storageLimit params) (estimate_registerDelegate estimator params);
  _ ← ask (Emitted SignerPublicKeyHash);
  let source := Emitter.publicKeyHash ctx in
  let operation :=
    createRegisterDelegateOperation
      {| register_fee := Some (limits_fee limits);
         register_gasLimit := Some (limits_gasLimit limits);
         register_storageLimit := Some (limits_storageLimit limits) |} source in
  opBytes ← lift (Emitter.prepareAndForge ctx (Emitter.Single operation) None);
  injected ← lift (Emitter.signAndInject ctx opBytes);
  mret (handle injected operation source).

End ContractProvider.

(** *** Originations *)

(** [code]: Micheline JSON already, or Michelson text for [ml2mic]. *)
Inductive Code : Type :=
| CodeArray (json : string)
| CodeText (michelson : string).

(** [init]: Michelson text for [sexp2mic], or a JSON value. *)
Inductive Init : Type :=
| InitString (sexp : string)
| InitObject (json : string).

(** The argument of [createOriginationOperation] and of [originate];
    [storage] is a JavaScript value, kept as its JSON text. *)
Record OriginateParams : Type := {
  code : Code;
  init : option Init;
  balance : option Format.Amount;
  spendable : option bool;
  delegatable : option bool;
  originate_delegate : option string;
  storage : option string;
  originate_fee : option Z;
  originate_gasLimit : option Z;
  originate_storageLimit : option Z
}.

Section Origination.
(** The encoders of [@taquito/utils] and [@taquito/michelson-encoder], on
    JSON texts: [ml2mic], [sexp2mic], [new Schema(code[1].args[0]).Encode]
    as a function of the code and the storage, and the object literal
    [{ code, storage }]. *)
Context (ml2mic sexp2mic : string -> string) (encode : string -> string -> string)
  (script : string -> option string -> string).

(** [createOriginationOperation] *)
Definition createOriginationOperation (params : OriginateParams) (publicKeyHash : string)
  : error + gmap string Js.value :=
  let balance := default (Format.Decimal 0 0) (balance params) in
  let spendable := default false (spendable params) in
  let delegatable := default false (delegatable params) in
  let fee := default DEFAULT_FEE.ORIGINATION (originate_fee params) in
  let gasLimit := default DEFAULT_GAS_LIMIT.ORIGINATION (originate_gasLimit params) in
  let storageLimit := default DEFAULT_STORAGE_LIMIT.ORIGINATION (originate_storageLimit params) in
  if bool_decide (is_Some (storage params)) && bool_decide (is_Some (init params)) then
    inl (Error "Storage and Init cannot be set a the same time. Please either use storage or init but not both.")
  else
    let contractCode :=
      match code params with
      | CodeArray json => json
      | CodeText michelson => ml2mic michelson
      end in
    let contractStorage :=
      match storage params with
      | Some st => Some (encode contractCode st)
      | None =>
          match init params with
          | Some (InitString sexp) => Some (sexp2mic sexp)
          | Some (InitObject json) => Some json
          | None => None
          end
      end in
    let operation : gmap string Js.value :=
      <["script" := Js.VObject (script contractCode contractStorage)]>
      (<["delegatable" := Js.VBool delegatable]>
      (<["spendable" := Js.VBool spendable]>
      (<["manager_pubkey" := Js.VString publicKeyHash]>
      (<["balance" := Js.VString (Format.toString (Format.format "tz" "mutez" balance))]>
      (<["storage_limit" := Js.VNumber (Js.Num storageLimit)]>
      (<["gas_limit" := Js.VNumber (Js.Num gasLimit)]>
      (<["fee" := Js.VNumber (Js.Num fee)]>
      (<["kind" := Js.VString "origination"]> ∅)))))))) in
    inr (if Js.truthy_opt_string (originate_delegate params)
         then <["delegate" := stringOrUndefined (originate_delegate params)]> operation
         else operation).

(** [RpcContractProvider.prototype.originate], given the estimator's
    [originate]. *)
Definition originate (ctx : Emitter.Context)
  (estimate_originate : OriginateParams -> Task Estimation)
  (params : OriginateParams) : Task OperationHandle :=
  limits ← estimate (originate_fee params) (originate_gasLimit params)
              (originate_storageLimit params) (estimate_originate params);
  _ ← ask (Emitted SignerPublicKeyHash);
  let publicKeyHash := Emitter.publicKeyHash ctx in
  match createOriginationOperation
          {| code := code params; init := init params; balance := balance params;
             spendable := spendable params; delegatable := delegatable params;
             originate_delegate := originate_delegate params; storage := storage params;
             originate_fee := Some (limits_fee limits);
             originate_gasLimit := Some (limits_gasLimit limits);
             originate_storageLimit := Some (limits_storageLimit limits) |}
          publicKeyHash with
  | inl e => fail (Thrown e)
  | inr operation =>
      preparedOrigination ← lift (Emitter.prepareOperation ctx (Emitter.Single operation)
                                    (Some publicKeyHash));
      forgedOrigination ← lift (Emitter.forge ctx preparedOrigination);
      injected ← lift (Emitter.signAndInject ctx forgedOrigination);
      mret (handle injected operation publicKeyHash)
  end.

End Origination.

(** *** The estimate provider *)

(** What [rpc.runOperation] resolves to: the fields [createEstimate]
    reads. *)
Module Simulation.

Record OperationResult : Type := {
  consumed_gas : option string;
  paid_storage_size_diff : option string
}.

Record InternalOperationResult : Type := {
  result : option OperationResult
}.

Record Metadata : Type := {
  operation_result : option OperationResult;
  internal_operation_results : option (list InternalOperationResult)
}.

Record Content : Type := {
  kind : string;
  metadata : option Metadata
}.

(** [contents] is [None] when the response holds no array under that
    key. *)
Record Response : Type := {
  contents : option (list Content)
}.

End Simulation.

(** The RPC client as the estimate provider and the account provider use it,
    besides the collaborators of the emitter. *)
Record Node : Type := {
  context : Emitter.Context;
  getChainId : string;
  runOperation : RunOperationParam -> Simulation.Response;
  injectOperation : string -> string
}.

Definition SIGNATURE_STUB : string :=
  "edsigtkpiSSschcaCt9pUVrpNPf7TTcgvgDEDD6NCEHMy8NNQJCGnMfLZzYoQj74yLjo9wx6MPVV29CvVzgi7qEcEUok3k7AuMg".

(** [DEFAULT_PARAMS]: the maximum values defined by the protocol. *)
Module DEFAULT_PARAMS.
Definition fee : Z := 30000.
Definition storageLimit : Z := 60000.
Definition gasLimit : Z := 800000.
End DEFAULT_PARAMS.

(** [RPCEstimateProvider.prototype.getOperationResult] *)
Definition getOperationResult (opResponse : Simulation.Response) (kind : string)
  : list Simulation.OperationResult :=
  let originationOp :=
    match Simulation.contents opResponse with
    | Some results => List.find (fun op => String.eqb (Simulation.kind op) kind) results
    | None => None
    end in
  let metadata := originationOp ≫= Simulation.metadata in
  let opResult := metadata ≫= Simulation.operation_result in
  let internalResult := metadata ≫= Simulation.internal_operation_results in
  omap id (opResult :: (Simulation.result <$> default [] internalResult)).

Section EstimateProvider.
(** [Number] on the texts of the node: an integer, or [NaN]. *)
Context (Number : string -> Js.number) (sexp2mic : string -> string) (node : Node).

(** [Number(x) || 0] *)
Definition numberOrZero (x : option string) : Z :=
  match x with
  | Some s =>
      match Number s with
      | Js.Num z => z
      | Js.NaN => 0
      end
  | None => 0
  end.

(** The [forEach] of [createEstimate]: the gas and the paid storage of the
    results, summed up. *)
Definition totals (operationResults : list Simulation.OperationResult) : Z * Z :=
  fold_left
    (fun '(totalGas, totalStorage) result =>
       (totalGas + numberOrZero (Simulation.consumed_gas result),
        totalStorage +
          match Simulation.paid_storage_size_diff result with
          | Some d => numberOrZero (Some d)
          | None => 0
          end))
    operationResults (0, 0).

(** [RPCEstimateProvider.prototype.createEstimate]; [simulate] is the call to
    [rpc.runOperation]. *)
Definition createEstimate (operation : Emitter.OperationParam) (source : option string)
  (kind : string) (defaultStorage : Z) (minimumGas : option Z) : Task Estimate.t :=
  let minimumGas := default 0 minimumGas in
  forged ← lift (Emitter.prepareAndForge (context node) operation source);
  let operation :=
    {| run_branch := Emitter.branch (Emitter.opOb forged);
       run_contents := Emitter.contents (Emitter.opOb forged);
       run_signature := SIGNATURE_STUB;
       run_chain_id := None |} in
  proto005 ← lift (Emitter.isAnyProtocolActive (context node) protocols_005);
  operation ←
    (if proto005 : bool then
       _ ← ask RpcGetChainId;
       mret {| run_branch := run_branch operation;
               run_contents := run_contents operation;
               run_signature := run_signature operation;
               run_chain_id := Some (getChainId node) |}
     else mret operation);
  _ ← ask (RpcRunOperation operation);
  let opResponse := runOperation node operation in
  let operationResults := getOperationResult opResponse kind in
  let '(totalGas, totalStorage) := totals operationResults in
  mret (Estimate.new (inject_Z (Z.max totalGas minimumGas))
          (inject_Z (totalStorage + defaultStorage))
          (Z.of_nat (String.length (Emitter.opbytes forged)) # 2) None).

(** [__assign(__assign({}, rest), this.DEFAULT_PARAMS)] for a transfer *)
Definition withDefaultParams (params : Prepare.TransferParams) : Prepare.TransferParams :=
  {| Prepare.to := Prepare.to params;
     Prepare.amount := Prepare.amount params;
     Prepare.parameter := Prepare.parameter params;
     Prepare.fee := Some DEFAULT_PARAMS.fee;
     Prepare.gasLimit := Some DEFAULT_PARAMS.gasLimit;
     Prepare.storageLimit := Some DEFAULT_PARAMS.storageLimit;
     Prepare.mutez := Prepare.mutez params;
     Prepare.rawParam := Prepare.rawParam params |}.

(** [RPCEstimateProvider.prototype.transfer]; [source] is [params.source]. *)
Definition estimateTransfer (params : Prepare.TransferParams) (source : option string)
  : Task Estimate.t :=
  pkh ← sourceOrSigner (context node) source;
  let op := Prepare.createTransferOperation sexp2mic (withDefaultParams params) in
  createEstimate (Emitter.Single op) (Some pkh) "transaction"
    DEFAULT_STORAGE_LIMIT.TRANSFER None.

(** [RPCEstimateProvider.prototype.setDelegate] *)
Definition estimateSetDelegate (params : DelegateParams) : Task Estimate.t :=
  let op :=
    createSetDelegateOperation
      {| delegate := delegate params;
         source := source params;
         fee := Some DEFAULT_PARAMS.fee;
         gasLimit := Some DEFAULT_PARAMS.gasLimit;
         storageLimit := Some DEFAULT_PARAMS.storageLimit |} in
  sourceOrDefault ← sourceOrSigner (context node) (source params);
  createEstimate (Emitter.Single op) (Some sourceOrDefault) "delegation"
    DEFAULT_STORAGE_LIMIT.DELEGATION (Some DEFAULT_GAS_LIMIT.DELEGATION).

(** [RPCEstimateProvider.prototype.registerDelegate] *)
Definition estimateRegisterDelegate (params : RegisterDelegateParams) : Task Estimate.t :=
  _ ← ask (Emitted SignerPublicKeyHash);
  let op :=
    createRegisterDelegateOperation
      {| register_fee := Some DEFAULT_PARAMS.fee;
         register_gasLimit := Some DEFAULT_PARAMS.gasLimit;
         register_storageLimit := Some DEFAULT_PARAMS.storageLimit |}
      (Emitter.publicKeyHash (context node)) in
  _ ← ask (Emitted SignerPublicKeyHash);
  createEstimate (Emitter.Single op) (Some (Emitter.publicKeyHash (context node)))
    "delegation" DEFAULT_STORAGE_LIMIT.DELEGATION (Some DEFAULT_GAS_LIMIT.DELEGATION).

End EstimateProvider.

(** *** The account provider *)

(** The 64 zero bytes appended to the forged activation, in hexadecimal. *)
Definition zero_signature : string :=
  "00000000000000000000000000000000000000000000000000000000000000000000000000000000000000000000000000000000000000000000000000000000".

(** What [activate] returns: [new Operation(hash, raw, [], context)]. *)
Record ActivationHandle : Type := {
  activation_hash : string;
  activation_raw : Emitter.ForgedBytes;
  activation_results : list Rpc.ContentAndResult
}.

(** [RpcTzProvider.prototype.activate] *)
Definition activate (node : Node) (pkh secret : string) : Task ActivationHandle :=
  let operation : gmap string Js.value :=
    <["secret" := Js.VString secret]>
    (<["pkh" := Js.VString pkh]>
    (<["kind" := Js.VString "activate_account"]> ∅)) in
  forgedBytes ← lift (Emitter.prepareAndForge (context node) (Emitter.Many [operation])
                        (Some pkh));
  let bytes := Emitter.opbytes forgedBytes +:+ zero_signature in
  _ ← ask (RpcInjectOperation bytes);
  mret {| activation_hash := injectOperation node bytes;
          activation_raw :=
            {| Emitter.opbytes := bytes;
               Emitter.opOb := Emitter.opOb forgedBytes;
               Emitter.counter := Emitter.counter forgedBytes |};
          activation_results := [] |}.

End Provider.

Module ProviderSpec.

(** A request that commits to something: a signature, a preapplication or an
    injection.  Every other request reads, forges or simulates. *)
Definition commits (r : Provider.request) : bool :=
  match r with
  | Provider.Emitted (SignerSign _)
  | Provider.Emitted RpcPreapplyOperations
  | Provider.Emitted (InjectorInject _)
  | Provider.RpcInjectOperation _ => true
  | _ => false
  end.

(** The figure that ends up in an operation: the one the caller gave or,
    if none was given, the one read off the estimator's answer. *)
Definition chosen (given : option Z) (read : Provider.Estimation -> Z)
  (estimator : Provider.Task Provider.Estimation) : option Z :=
  match given with
  | Some x => Some x
  | None =>
      match snd estimator with
      | inr estimation => Some (read estimation)
      | inl _ => None
      end
  end.

(** A figure as the text sent to the node. *)
Definition text (x : Z) : Js.value := Js.VString (pretty x).

(** The calls of the protocol check. *)
Definition protocolLog (ctx : Emitter.Context) : list Provider.request :=
  if Js.truthy_opt_string (Emitter._proto ctx) then []
  else [Provider.Emitted RpcGetBlockMetadata].

(** The activation content. *)
Definition activation (pkh secret : string) : gmap string Js.value :=
  <["secret" := Js.VString secret]>
  (<["pkh" := Js.VString pkh]>
  (<["kind" := Js.VString "activate_account"]> ∅)).

End ProviderSpec.

(* ===================================================================== *)
(** ** The contract abstraction *)
(* ===================================================================== *)

(** [src/contract/contract.ts].  A [ParameterSchema] comes from
    [@taquito/michelson-encoder]; the model keeps what the contract
    abstraction reads of it.  Arguments of a method call are JavaScript
    values, kept as their JSON texts. *)

Module Contract.

Record ParameterSchema : Type := {
  isMultipleEntryPoint : bool;
  (** [Object.keys(schema.ExtractSchema())] *)
  ExtractSchema : list string;
  ExtractSignatures : list (list string);
  (** [schema.Encode(...args)], as JSON text *)
  Encode : list string -> string
}.

Definition DEFAULT_SMART_CONTRACT_METHOD_NAME : string := "main".

(** [new InvalidParameterError(smartContractMethodName, sigs, args)] *)
Record InvalidParameterError : Type := {
  smartContractMethodName : string;
  sigs : list (list string);
  error_args : list string
}.

(** [validateArgs]; [None] when it returns without throwing. *)
Definition validateArgs (args : list string) (schema : ParameterSchema) (name : string)
  : option InvalidParameterError :=
  let sigs := ExtractSignatures schema in
  match List.find (fun x => Nat.eqb (length x) (length args)) sigs with
  | Some _ => None
  | None => Some {| smartContractMethodName := name; sigs := sigs; error_args := args |}
  end.

(** The fields of a [ContractMethod], but for the provider. *)
Record ContractMethod : Type := {
  address : string;
  parameterSchema : ParameterSchema;
  name : string;
  args : list string;
  isMultipleEntrypoint : bool;
  isAnonymous : bool
}.

(** The fields of a [LegacyContractMethod], but for the provider. *)
Record LegacyContractMethod : Type := {
  legacy_address : string;
  legacy_parameterSchema : ParameterSchema;
  legacy_name : string;
  legacy_args : list string
}.

(** The argument of [send]. *)
Record SendParams : Type := {
  fee : option Z;
  gasLimit : option Z;
  storageLimit : option Z;
  amount : option Format.Amount
}.

(** The functions stored in [methods]: the five closures that
    [_initializeMethods] and [_initializeMethodsLegacy] make, with what each
    one captures besides the address and the parameter schema of the
    contract. *)
Inductive Method : Type :=
| EntrypointMethod (smartContractMethodName : string) (entrypoint : string)
| AnonymousMethod (smartContractMethodName : string)
| DefaultMethod
| LegacyMethod (smartContractMethodName : string)
| LegacyDefaultMethod.

(** What a method returns. *)
Inductive MethodCall : Type :=
| Modern (m : ContractMethod)
| Legacy (m : LegacyContractMethod).

Section Contract.
(** [new ParameterSchema(entrypoint)] on the Micheline JSON of an entry
    point, and the JSON text of the object literal [{ entrypoint, value }]. *)
Context (newParameterSchema : string -> ParameterSchema)
  (parameterObject : string -> string -> string).

(** The object that [ContractMethod.prototype.send] passes to
    [provider.transfer]. *)
Definition send (m : ContractMethod) (p : SendParams) : Prepare.TransferParams :=
  {| Prepare.to := address m;
     Prepare.amount := default (Format.Decimal 0 0) (amount p);
     Prepare.parameter :=
       Some (Prepare.ParamJson
               (parameterObject
                  (if isMultipleEntrypoint m then name m else "default")
                  (if isAnonymous m
                   then Encode (parameterSchema m) (name m :: args m)
                   else Encode (parameterSchema m) (args m))));
     Prepare.fee := fee p;
     Prepare.gasLimit := gasLimit p;
     Prepare.storageLimit := storageLimit p;
     Prepare.mutez := None;
     Prepare.rawParam := Some true |}.

(** The object that [LegacyContractMethod.prototype.send] passes to
    [provider.transfer]. *)
Definition legacy_send (m : LegacyContractMethod) (p : SendParams)
  : Prepare.TransferParams :=
  {| Prepare.to := legacy_address m;
     Prepare.amount := default (Format.Decimal 0 0) (amount p);
     Prepare.parameter :=
       Some (Prepare.ParamJson
               (if isMultipleEntryPoint (legacy_parameterSchema m)
                then Encode (legacy_parameterSchema m) (legacy_name m :: legacy_args m)
                else Encode (legacy_parameterSchema m) (legacy_args m)));
     Prepare.fee := fee p;
     Prepare.gasLimit := gasLimit p;
     Prepare.storageLimit := storageLimit p;
     Prepare.mutez := None;
     Prepare.rawParam := Some true |}.

(** A call of a function of [methods] with [args]. *)
Definition invoke (address : string) (parameterSchema : ParameterSchema) (method : Method)
  (args : list string) : InvalidParameterError + MethodCall :=
  match method with
  | EntrypointMethod smartContractMethodName entrypoint =>
      let smartContractMethodSchema := newParameterSchema entrypoint in
      match validateArgs args smartContractMethodSchema smartContractMethodName with
      | Some e => inl e
      | None =>
          inr (Modern {| address := address;
                         parameterSchema := smartContractMethodSchema;
                         name := smartContractMethodName;
                         args := args;
                         isMultipleEntrypoint := true;
                         isAnonymous := false |})
      end
  | AnonymousMethod smartContractMethodName =>
      match validateArgs (smartContractMethodName :: args) parameterSchema
              smartContractMethodName with
      | Some e => inl e
      | None =>
          inr (Modern {| address := address;
                         parameterSchema := parameterSchema;
                         name := smartContractMethodName;
                         args := args;
                         isMultipleEntrypoint := false;
                         isAnonymous := true |})
      end
  | DefaultMethod =>
      match validateArgs args parameterSchema DEFAULT_SMART_CONTRACT_METHOD_NAME with
      | Some e => inl e
      | None =>
          inr (Modern {| address := address;
                         parameterSchema := parameterSchema;
                         name := DEFAULT_SMART_CONTRACT_METHOD_NAME;
                         args := args;
                         isMultipleEntrypoint := false;
                         isAnonymous := false |})
      end
  | LegacyMethod smartContractMethodName =>
      match validateArgs (smartContractMethodName :: args) parameterSchema
              smartContractMethodName with
      | Some e => inl e
      | None =>
          inr (Legacy {| legacy_address := address;
                         legacy_parameterSchema := parameterSchema;
                         legacy_name := smartContractMethodName;
                         legacy_args := args |})
      end
  | LegacyDefaultMethod =>
      match validateArgs args parameterSchema DEFAULT_SMART_CONTRACT_METHOD_NAME with
      | Some e => inl e
      | None =>
          inr (Legacy {| legacy_address := address;
                         legacy_parameterSchema := parameterSchema;
                         legacy_name := DEFAULT_SMART_CONTRACT_METHOD_NAME;
                         legacy_args := args |})
      end
  end.

(** [Contract.prototype._initializeMethods]; [entrypoints] maps the names
    reported by the node to their Micheline JSON. *)
Definition _initializeMethods (parameterSchema : ParameterSchema)
  (entrypoints : gmap string string) : gmap string Method :=
  if isMultipleEntryPoint parameterSchema then
    let methods : gmap string Method :=
      map_imap (fun smartContractMethodName entrypoint =>
                  Some (EntrypointMethod smartContractMethodName entrypoint))
        entrypoints in
    let anonymousMethods :=
      List.filter (fun key => bool_decide (entrypoints !! key = None))
        (ExtractSchema parameterSchema) in
    fold_left (fun methods smartContractMethodName =>
                 <[smartContractMethodName := AnonymousMethod smartContractMethodName]> methods)
      anonymousMethods methods
  else {[ DEFAULT_SMART_CONTRACT_METHOD_NAME := DefaultMethod ]}.

(** [Contract.prototype._initializeMethodsLegacy] *)
Definition _initializeMethodsLegacy (parameterSchema : ParameterSchema)
  : gmap string Method :=
  if isMultipleEntryPoint parameterSchema then
    fold_left (fun methods smartContractMethodName =>
                 <[smartContractMethodName := LegacyMethod smartContractMethodName]> methods)
      (ExtractSchema parameterSchema) ∅
  else {[ DEFAULT_SMART_CONTRACT_METHOD_NAME := LegacyDefaultMethod ]}.

(** The [methods] of [new Contract(address, script, provider, entrypoints)],
    given the parameter schema read from the script. *)
Definition methods (parameterSchema : ParameterSchema)
  (entrypoints : option (gmap string string)) : gmap string Method :=
  match entrypoints with
  | None => _initializeMethodsLegacy parameterSchema
  | Some entrypoints => _initializeMethods parameterSchema entrypoints
  end.

End Contract.

End Contract.

Module ContractSpec.

(** The entry point that a call of the method [name] is sent to: the method
    itself when the node reported it as an entry point of a contract with
    several entry points, ['default'] otherwise. *)
Definition entrypointOf (parameterSchema : Contract.ParameterSchema)
  (entrypoints : gmap string string) (name : string) : string :=
  if Contract.isMultipleEntryPoint parameterSchema
     && bool_decide (is_Some (entrypoints !! name))
  then name else "default".

(** The value sent with it: the arguments encoded with the schema of the
    entry point, or, for a method the node did not report, the name and the
    arguments encoded with the schema of the whole parameter. *)
Definition valueOf (newParameterSchema : string -> Contract.ParameterSchema)
  (parameterSchema : Contract.ParameterSchema) (entrypoints : gmap string string)
  (name : string) (args : list string) : string :=
  if Contract.isMultipleEntryPoint parameterSchema then
    match entrypoints !! name with
    | Some entrypoint => Contract.Encode (newParameterSchema entrypoint) args
    | None => Contract.Encode parameterSchema (name :: args)
    end
  else Contract.Encode parameterSchema args.

End ContractSpec.

(** Definitions used to state more properties of the emitter. *)

Module EmitterSpec.

(** The fields of an origination that protocol 005 did away with. *)
Definition obsolete : list string := ["manager_pubkey"; "spendable"; "delegatable"].

(** The fields that [prepareOperation] turns into text on the contents that
    bear a fee. *)
Definition feeFields : list string := ["fee"; "gas_limit"; "storage_limit"].

(** A number as the text sent to the node, ['0'] when the field was left
    out. *)
Definition asText (v : Js.value) : Js.value :=
  if Js.is_undefined v then Js.VString "0" else Js.VString (Js.to_string v).

(** The contents that [prepareOperation] constructs: those given, after the
    reveal when one is needed. *)
Definition given (ctx : Emitter.Context) (operation : Emitter.OperationParam)
  (source : option string) : list (gmap string Js.value) :=
  let ops := Spec.inputOps operation in
  let pkh := Spec.resolvedSource ctx source in
  if Spec.needsReveal ctx pkh ops
  then Emitter.reveal (Emitter.publicKey ctx) pkh :: ops else ops.

End EmitterSpec.

(** Concrete inputs for the witnesses of the subscription, handle, toolkit
    and provider properties. *)

Module Fixture.

(** A transaction content of a block. *)
Definition tx_content (source_ destination_ : string) : Subscribe.Content :=
  {| Subscribe.kind := "transaction";
     Subscribe.metadata := None;
     Subscribe.pkh := None;
     Subscribe.source := Some source_;
     Subscribe.destination := Some destination_;
     Subscribe.delegate := None |}.

(** [{ and: [{ kind: 'transaction' }, { destination: 'KT1abc' }] }] *)
Definition transaction_to_KT1abc : Subscribe.FilterValue :=
  Subscribe.FilterObject SubscribeSpec.noKeys
    (Subscribe.IsArray [SubscribeSpec.onKind "transaction"; SubscribeSpec.onDestination "KT1abc"])
    Subscribe.Absent.

(** An expression whose [and] is not an array and that has no [or]. *)
Definition malformed : Subscribe.FilterValue :=
  Subscribe.FilterObject SubscribeSpec.noKeys Subscribe.NotArray Subscribe.Absent.

(** A block with two operations: a transfer to [KT1abc] and a transfer to
    [tz1other] followed, in the same operation, by one to [KT1abc]. *)
Definition block : Subscribe.BlockResponse :=
  {| Subscribe.operations :=
       [ []; []; [];
         [ {| Subscribe.entry_hash := "ooOne";
              Subscribe.contents := [tx_content "tz1a" "KT1abc"] |};
           {| Subscribe.entry_hash := "ooTwo";
              Subscribe.contents := [tx_content "tz1b" "tz1other";
                                     tx_content "tz1b" "KT1abc"] |} ] ] |}.

(** An estimator that answers every request with the same figures, after
    one simulation. *)
Definition estimation : Provider.Estimation :=
  {| Provider.suggestedFeeMutez := 1500;
     Provider.estimated_gasLimit := 10307;
     Provider.estimated_storageLimit := 0 |}.

Definition simulated : Provider.RunOperationParam :=
  {| Provider.run_branch := "BLhead";
     Provider.run_contents := [];
     Provider.run_signature := Provider.SIGNATURE_STUB;
     Provider.run_chain_id := Some "NetXdQprcVkpaWU" |}.

Definition estimator : Provider.EstimationProvider :=
  {| Provider.estimate_transfer := fun _ _ =>
       ([Provider.RpcRunOperation simulated], inr estimation);
     Provider.estimate_setDelegate := fun _ =>
       ([Provider.RpcRunOperation simulated], inr estimation);
     Provider.estimate_registerDelegate := fun _ =>
       ([Provider.RpcRunOperation simulated], inr estimation) |}.

(** A transfer of 1.5 tz with a fee given, the gas limit and the storage
    limit left to the estimator. *)
Definition transfer_with_fee (to : string) (fee : Z) : Prepare.TransferParams :=
  {| Prepare.to := to;
     Prepare.amount := Format.Decimal 15 1;
     Prepare.parameter := None;
     Prepare.fee := Some fee;
     Prepare.gasLimit := None;
     Prepare.storageLimit := None;
     Prepare.mutez := None;
     Prepare.rawParam := None |}.

(** A node whose simulation reports, for every operation, one content of
    each manager kind, with the gas and the storage given. *)
Definition node (ctx : Emitter.Context) (gas storage : string) : Provider.Node :=
  {| Provider.context := ctx;
     Provider.getChainId := "NetXdQprcVkpaWU";
     Provider.runOperation := fun _ =>
       {| Provider.Simulation.contents :=
            Some ((fun k =>
                     {| Provider.Simulation.kind := k;
                        Provider.Simulation.metadata :=
                          Some {| Provider.Simulation.operation_result :=
                                    Some {| Provider.Simulation.consumed_gas := Some gas;
                                            Provider.Simulation.paid_storage_size_diff :=
                                              Some storage |};
                                  Provider.Simulation.internal_operation_results := None |} |})
                    <$> ["transaction"; "delegation"; "origination"]) |};
     Provider.injectOperation := fun _ => "ooactivation" |}.

(** An origination that gives the initial storage twice, with all three
    limits given. *)
Definition origination_with_storage_and_init : Provider.OriginateParams :=
  {| Provider.code := Provider.CodeArray "[]";
     Provider.init := Some (Provider.InitString "Unit");
     Provider.balance := None;
     Provider.spendable := None;
     Provider.delegatable := None;
     Provider.originate_delegate := None;
     Provider.storage := Some "0";
     Provider.originate_fee := Some 1000;
     Provider.originate_gasLimit := Some 10000;
     Provider.originate_storageLimit := Some 300 |}.

(** A parameter schema with two branches, [mint] and [burn], each taking one
    argument; the schema of an entry point takes one argument and encodes it
    as it is; the parameter object is written [entrypoint(value)]. *)
Definition parameterSchema : Contract.ParameterSchema :=
  {| Contract.isMultipleEntryPoint := true;
     Contract.ExtractSchema := ["mint"; "burn"];
     Contract.ExtractSignatures := [["mint"; "nat"]; ["burn"; "nat"]];
     Contract.Encode := fun args => String.concat "," args |}.

Definition entrypointSchema (entrypoint : string) : Contract.ParameterSchema :=
  {| Contract.isMultipleEntryPoint := false;
     Contract.ExtractSchema := [];
     Contract.ExtractSignatures := [[entrypoint]];
     Contract.Encode := fun args => String.concat "," args |}.

Definition parameterObject (entrypoint value : string) : string :=
  entrypoint +:+ "(" +:+ value +:+ ")".

End Fixture.


(* ===================================================================== *)
(** ** Properties of Estimate *)
(* ===================================================================== *)

Section EstimateFacts.

Local Open Scope Q_scope.




End EstimateFacts.

(** An estimate from 10000 units of gas, no storage and 150 bytes. *)
Example estimate_sample :
  let e := Estimate.new 10000 0 150 None in
  Estimate.minimalFeeMutez e = 1260
  /\ Estimate.suggestedFeeMutez e = 1360
  /\ Estimate.burnFeeMutez e = 0
  /\ Estimate.totalCost e = 1260.
Proof. repeat split. Qed.



(* ===================================================================== *)
(** ** Properties of the source filter *)
(* ===================================================================== *)

Lemma field_eq_true (a : option string) (s : string) :
  Filter.field_eq a s = true <-> a = Some s.
Proof.
  destruct a as [x|]; simpl.
  - rewrite String.eqb_eq. split; [now intros -> | now intros [= ->]].
  - split; discriminate.
Qed.

(** C9, as stated, fails: the activation [Sample.activation_without_metadata]
    has the filtered [pkh], yet the filter does not match it. *)
Lemma source_filter_needs_metadata :
  Filter.kind Sample.activation_without_metadata = "activate_account"
  /\ ~ (Filter.sourceFilter Sample.activation_without_metadata Sample.filter_tz1abc = true
        <-> Filter.pkh Sample.activation_without_metadata
            = Some (Filter.filter_source Sample.filter_tz1abc)).
Proof.
  split; [reflexivity |].
  intros [_ H]. specialize (H eq_refl). discriminate H.
Qed.

(** C9, amended. A content of kind [activate_account] matches a source filter
    exactly when it carries metadata and its [pkh] equals the filter's source;
    an endorsement matches exactly when its metadata's delegate equals the
    filter's source. *)
Theorem source_filter_by_kind (x : Filter.OperationContent) (f : Filter.SourceFilter) :
  (Filter.kind x = "activate_account" ->
   (Filter.sourceFilter x f = true
    <-> is_Some (Filter.metadata x) /\ Filter.pkh x = Some (Filter.filter_source f)))
  /\ (Filter.kind x = "endorsement" ->
      (Filter.sourceFilter x f = true
       <-> exists md, Filter.metadata x = Some md
                      /\ Filter.delegate md = Some (Filter.filter_source f))).
Proof.
  split; intros Hk; unfold Filter.sourceFilter; rewrite Hk; simpl.
  - destruct (Filter.metadata x) as [md|].
    + rewrite field_eq_true. split; [intros H; split; [by eexists | exact H] | tauto].
    + split; [discriminate | intros [[? [=]] _]].
  - destruct (Filter.metadata x) as [md|].
    + rewrite field_eq_true. split.
      * intros H. exists md. tauto.
      * intros (md' & [= <-] & H). exact H.
    + split; [discriminate | intros (? & [=] & _)].
Qed.

Lemma source_filter_by_kind_witness :
  Filter.sourceFilter Sample.activation_with_metadata Sample.filter_tz1abc = true
  /\ Filter.sourceFilter Sample.endorsement_by_tz1abc Sample.filter_tz1abc = true.
Proof.
  split.
  - apply (proj1 (source_filter_by_kind Sample.activation_with_metadata Sample.filter_tz1abc) eq_refl).
    split; [by eexists | reflexivity].
  - apply (proj2 (source_filter_by_kind Sample.endorsement_by_tz1abc Sample.filter_tz1abc) eq_refl).
    eexists. split; reflexivity.
Defined.

(* ===================================================================== *)
(** ** Properties of the inject step *)
(* ===================================================================== *)

Lemma isFailed_failed (c : Rpc.ContentAndResult) :
  Spec.failed c = true ->
  exists r, Emitter.isFailed c = Some r
            /\ Emitter.concat_errors [] (Rpc.errors r) = Spec.errorsOf c.
Proof.
  unfold Spec.failed, Emitter.isFailed, Spec.errorsOf.
  destruct (Rpc.metadata c) as [md|]; [| discriminate].
  destruct (Rpc.operation_result md) as [r|]; [| discriminate].
  intros ->. exists r. split; [reflexivity |].
  unfold Emitter.concat_errors. now destruct (Rpc.errors r).
Qed.

Lemma isFailed_not_failed (c : Rpc.ContentAndResult) :
  Spec.failed c = false -> Emitter.isFailed c = None.
Proof.
  unfold Spec.failed, Emitter.isFailed.
  destruct (Rpc.metadata c) as [md|]; [| reflexivity].
  destruct (Rpc.operation_result md) as [r|]; [| reflexivity].
  now intros ->.
Qed.

Lemma concat_errors_app (acc : list (option string)) (x : option (list string)) :
  Emitter.concat_errors acc x = (acc ++ Emitter.concat_errors [] x)%list.
Proof. now destruct x. Qed.

(** The inner loop appends the contents it visits to [opResponse] and the
    errors of the failed ones to [errors]. *)
Lemma scanContents_spec (cs acc_r : list Rpc.ContentAndResult)
  (acc_e : list (option string)) :
  Emitter.scanContents cs acc_r acc_e =
  ((acc_r ++ cs)%list,
   (acc_e ++ flat_map Spec.errorsOf (filter (fun c => Spec.failed c = true) cs))%list).
Proof.
  revert acc_r acc_e.
  induction cs as [|c cs IH]; intros acc_r acc_e; simpl.
  - now rewrite !app_nil_r.
  - rewrite IH. rewrite <- app_assoc. simpl. f_equal.
    rewrite filter_cons.
    destruct (Spec.failed c) eqn:Hc.
    + destruct (isFailed_failed c Hc) as (r & -> & Hr).
      rewrite concat_errors_app, Hr.
      rewrite decide_True by reflexivity. simpl.
      now rewrite <- app_assoc.
    + rewrite (isFailed_not_failed c Hc).
      rewrite decide_False by discriminate. reflexivity.
Qed.

Lemma filter_app_failed (l1 l2 : list Rpc.ContentAndResult) :
  filter (fun c => Spec.failed c = true) (l1 ++ l2)%list
  = (filter (fun c => Spec.failed c = true) l1
     ++ filter (fun c => Spec.failed c = true) l2)%list.
Proof. apply filter_app. Qed.

(** The two loops together: every content is collected, and the aggregate is
    the concatenation of the errors of the failed contents. *)
Lemma scanResults_spec (results : list Rpc.PreapplyResult)
  (acc_r : list Rpc.ContentAndResult) (acc_e : list (option string)) :
  Emitter.scanResults results acc_r acc_e =
  ((acc_r ++ Spec.allContents results)%list, (acc_e ++ Spec.aggregate results)%list).
Proof.
  revert acc_r acc_e.
  induction results as [|r results IH]; intros acc_r acc_e; simpl.
  - unfold Spec.aggregate. simpl. now rewrite !app_nil_r.
  - rewrite scanContents_spec, IH.
    unfold Spec.aggregate, Spec.allContents. simpl.
    rewrite filter_app_failed, flat_map_app, <- !app_assoc. reflexivity.
Qed.

(** No failed content, no error in the aggregate. *)
Lemma aggregate_nil_of_no_failed (results : list Rpc.PreapplyResult) :
  Forall (fun c => Spec.failed c = false) (Spec.allContents results) ->
  Spec.aggregate results = [].
Proof.
  unfold Spec.aggregate. intros H.
  induction H as [|c l Hc _ IH]; [reflexivity |].
  rewrite filter_cons, decide_False by congruence. exact IH.
Qed.

(** C3, as stated, fails: a content failed, yet the signed bytes are handed
    to the injector and its hash is returned. *)
Lemma inject_broadcasts_failed_without_errors :
  let ctx := Sample.context "41" (Rpc.ManagerString "edpk") None
               (Rpc.ResultArray Sample.failed_without_errors) in
  Exists (fun c => Spec.failed c = true) (Spec.allContents Sample.failed_without_errors)
  /\ Emitter.inject ctx Sample.forged "edsig" "00aaff"
     = ([RpcPreapplyOperations; InjectorInject "00aaff"],
        inr {| Emitter.injected_hash := "oohash";
               Emitter.injected_forgedBytes :=
                 Emitter.attachSigned Sample.forged "edsig" "00aaff";
               Emitter.injected_opResponse :=
                 Spec.allContents Sample.failed_without_errors |}).
Proof.
  simpl. split; [| reflexivity].
  apply Exists_cons_hd. reflexivity.
Qed.

(** C3, amended. For every preapply response that is an array, the errors
    arrays of the failed contents are concatenated into one aggregate.  If the
    aggregate is not empty, the call fails with it and the injector is never
    invoked.  If it is empty, which is the case when no content failed, the
    injector is called once with the signed bytes and its hash is returned
    together with all the preapplied contents. *)
Theorem inject_aggregates_failures (ctx : Emitter.Context)
  (forgedBytes : Emitter.ForgedBytes) (prefixSig sbytes : string)
  (results : list Rpc.PreapplyResult) :
  let signed := Emitter.attachSigned forgedBytes prefixSig sbytes in
  Emitter.preapplyOperations ctx (Emitter.opOb signed) = Rpc.ResultArray results ->
  (Spec.aggregate results <> [] ->
   Emitter.inject ctx forgedBytes prefixSig sbytes
   = ([RpcPreapplyOperations], inl (OperationFailed (Spec.aggregate results))))
  /\ (Spec.aggregate results = [] ->
      Emitter.inject ctx forgedBytes prefixSig sbytes
      = ([RpcPreapplyOperations; InjectorInject sbytes],
         inr {| Emitter.injected_hash := Emitter.injector_inject ctx sbytes;
                Emitter.injected_forgedBytes := signed;
                Emitter.injected_opResponse := Spec.allContents results |}))
  /\ (Forall (fun c => Spec.failed c = false) (Spec.allContents results) ->
      Spec.aggregate results = []).
Proof.
  intros signed Hpre.
  assert (Hinj : Emitter.inject ctx forgedBytes prefixSig sbytes =
            match Spec.aggregate results with
            | _ :: _ => ([RpcPreapplyOperations], inl (OperationFailed (Spec.aggregate results)))
            | [] => ([RpcPreapplyOperations; InjectorInject sbytes],
                     inr {| Emitter.injected_hash := Emitter.injector_inject ctx sbytes;
                            Emitter.injected_forgedBytes := signed;
                            Emitter.injected_opResponse := Spec.allContents results |})
            end).
  { unfold Emitter.inject. fold signed. rewrite Hpre.
    rewrite scanResults_spec. simpl.
    destruct (Spec.aggregate results); reflexivity. }
  split; [| split].
  - intros Hne. rewrite Hinj. destruct (Spec.aggregate results); [congruence | reflexivity].
  - intros He. rewrite Hinj, He. reflexivity.
  - apply aggregate_nil_of_no_failed.
Qed.

Lemma inject_aggregates_failures_witness :
  let ctx := Sample.context "41" (Rpc.ManagerString "edpk") None
               (Rpc.ResultArray Sample.failed_with_errors) in
  Emitter.inject ctx Sample.forged "edsig" "00aaff"
  = ([RpcPreapplyOperations], inl (OperationFailed [Some "balance_too_low"])).
Proof.
  intros ctx.
  apply (proj1 (inject_aggregates_failures ctx Sample.forged "edsig" "00aaff"
                  Sample.failed_with_errors eq_refl)).
  discriminate.
Defined.

(* ===================================================================== *)
(** ** Reading back a printed counter *)
(* ===================================================================== *)

Example parseInt_prefix : Js.parseInt "12abc" = Js.Num 12.
Proof. reflexivity. Qed.

Example parseInt_sign : Js.parseInt "  -7" = Js.Num (-7).
Proof. reflexivity. Qed.

Example parseInt_no_digit : Js.parseInt "abc" = Js.NaN.
Proof. reflexivity. Qed.








(* ===================================================================== *)
(** ** Properties of the operation preparer *)
(* ===================================================================== *)

Ltac unfold_M := unfold mbind, M_bind, mret, M_ret, call, throw in *.

Lemma fetchSourceState_spec (ctx : Emitter.Context) (pkh : string)
  (ops : list (gmap string Js.value)) :
  Emitter.fetchSourceState ctx pkh ops =
  if Spec.sourceBearing ops
  then ([RpcGetContract pkh; RpcGetManagerKey pkh],
        inr (true, Some (Emitter.getContract_counter ctx pkh), Emitter.getManagerKey ctx pkh))
  else ([], inr (false, None, Rpc.ManagerUndefined)).
Proof.
  induction ops as [|op ops IH]; [reflexivity |].
  unfold Spec.sourceBearing in *. simpl.
  unfold Emitter.isSourceOp at 1.
  destruct (Js.includes _ (Js.get op "kind")); [reflexivity | exact IH].
Qed.

Lemma isAnyProtocolActive_spec (ctx : Emitter.Context) (md : Rpc.BlockMetadata) :
  Emitter.getBlockMetadata ctx = Some md ->
  Emitter.isAnyProtocolActive ctx protocols_005 =
  (if Js.truthy_opt_string (Emitter._proto ctx) then [] else [RpcGetBlockMetadata],
   inr (Spec.active005 ctx)).
Proof.
  intros Hmd. unfold Emitter.isAnyProtocolActive, Spec.active005.
  rewrite Hmd. destruct (Emitter._proto ctx) as [p|]; simpl; [| reflexivity].
  destruct (Js.truthy_string p); reflexivity.
Qed.

Lemma resolve_source_spec (ctx : Emitter.Context) (source : option string) :
  match source with
  | Some s =>
      if Js.truthy_string s then mret s
      else (_ ← call SignerPublicKeyHash; mret (Emitter.publicKeyHash ctx))
  | None => _ ← call SignerPublicKeyHash; mret (Emitter.publicKeyHash ctx)
  end
  = ((if Js.truthy_opt_string source then [] else [SignerPublicKeyHash]),
     inr (Spec.resolvedSource ctx source)).
Proof.
  unfold Spec.resolvedSource.
  destruct source as [s|]; simpl; [| reflexivity].
  destruct (Js.truthy_string s); reflexivity.
Qed.

(** [prepareOperation] in closed form: the calls it makes and what it
    returns or throws. *)
Lemma prepareOperation_unfold (ctx : Emitter.Context)
  (operation : Emitter.OperationParam) (source : option string) :
  let ops := Spec.inputOps operation in
  let pkh := Spec.resolvedSource ctx source in
  Emitter.prepareOperation ctx operation source =
  match Emitter.getBlockHeader ctx with
  | None => (Spec.fetchLog ctx source ops, inl (Error "Unable to latest block header"))
  | Some header =>
      match Emitter.getBlockMetadata ctx with
      | None => (Spec.fetchLog ctx source ops, inl (Error "Unable to fetch latest metadata"))
      | Some metadata =>
          let ops' :=
            if Spec.needsReveal ctx pkh ops
            then Emitter.reveal (Emitter.publicKey ctx) pkh :: ops else ops in
          match Emitter.constructOps pkh (Spec.active005 ctx)
                  {[ pkh := Spec.baseline ctx pkh ops ]} ops' with
          | inl e => (Spec.prepareLog ctx source ops, inl e)
          | inr (contents, _) =>
              (Spec.prepareLog ctx source ops,
               inr {| Emitter.prepared_opOb :=
                        {| Emitter.branch := Rpc.hash header;
                           Emitter.contents := contents;
                           Emitter.protocol := Rpc.next_protocol metadata;
                           Emitter.signature := None |};
                      Emitter.prepared_counter := Spec.baseline ctx pkh ops |})
          end
      end
  end.
Proof.
  intros ops pkh.
  unfold Emitter.prepareOperation.
  fold (Spec.inputOps operation). fold ops.
  rewrite resolve_source_spec. fold pkh.
  unfold Spec.prepareLog, Spec.fetchLog, Spec.needsReveal, Spec.baseline. fold pkh.
  unfold_M. cbn.
  rewrite fetchSourceState_spec.
  destruct (Emitter.getBlockHeader ctx) as [header|] eqn:Hh.
  2:{ destruct (Spec.sourceBearing ops); cbn; rewrite ?app_nil_r; reflexivity. }
  destruct (Emitter.getBlockMetadata ctx) as [metadata|] eqn:Hm.
  2:{ destruct (Spec.sourceBearing ops); cbn; rewrite ?app_nil_r; reflexivity. }
  rewrite (isAnyProtocolActive_spec ctx metadata Hm).
  unfold Spec.counterValue, Emitter.counterOrZero.
  destruct (Spec.sourceBearing ops); cbn;
    rewrite lookup_empty; cbn; rewrite insert_empty;
    change (Js.parseInt "0") with (Js.Num 0);
    destruct (Js.truthy_opt_string source);
    destruct (Js.truthy_opt_string (Emitter._proto ctx));
    try destruct (Emitter.haveManager (Emitter.getManagerKey ctx pkh)); cbn;
    idtac.
  all: try (match goal with
     | |- context [Emitter.constructOps ?a ?b ?c ?d] =>
         destruct (Emitter.constructOps a b c d) as [e|[contents counters]]
     end; reflexivity).
  all: match goal with
     | |- context [Emitter.constructOp ?a ?b ?c ?d] =>
         destruct (Emitter.constructOp a b c d) as [e|[c0 counters0]]
     end; [reflexivity |].
  all: match goal with
     | |- context [Emitter.constructOps ?a ?b ?c ?d] =>
         destruct (Emitter.constructOps a b c d) as [e|[contents counters]]
     end; reflexivity.
Qed.

(** *** What [constructOp] does to one content *)

Lemma constructOp_stages (pkh : string) (p : bool) (cs : gmap string Js.number)
  (op : gmap string Js.value) :
  Emitter.constructOp pkh p cs op = Stages.constructOp pkh p cs op.
Proof.
  unfold Emitter.constructOp, Stages.constructOp, Stages.defaultSource,
    Stages.feesAndCounter, Stages.balanceString, Stages.transactionChecks,
    Stages.stripObsolete.
  destruct (Emitter.isFeeOp op); reflexivity.
Qed.

Ltac lookup_chain :=
  unfold Js.get;
  repeat first
    [ rewrite lookup_insert_eq
    | rewrite lookup_insert_ne by discriminate
    | rewrite lookup_delete_ne by discriminate ].

Lemma get_defaultSource (pkh : string) (op : gmap string Js.value) (k : string) :
  k <> "source" -> Js.get (Stages.defaultSource pkh op) k = Js.get op k.
Proof.
  intros Hk. unfold Stages.defaultSource, Js.get.
  repeat case_match; rewrite ?lookup_insert_ne by congruence; reflexivity.
Qed.

Lemma get_source_defaultSource (pkh : string) (op : gmap string Js.value) :
  Emitter.isSourceOp op = true ->
  Js.get (Stages.defaultSource pkh op) "source" = Spec.contentSource pkh op.
Proof.
  intros Hs. unfold Stages.defaultSource, Spec.contentSource. rewrite Hs.
  destruct (Js.is_undefined (Js.get op "source")); [| reflexivity].
  unfold Js.get. now rewrite lookup_insert_eq.
Qed.

Lemma get_stringOrZero (op c : gmap string Js.value) (field k : string) :
  k <> field -> Js.get (Emitter.stringOrZero op c field) k = Js.get c k.
Proof.
  intros Hk. unfold Emitter.stringOrZero, Js.get.
  case_match; rewrite lookup_insert_ne by congruence; reflexivity.
Qed.

(** The fee stage touches the three fee fields and the counter only; a
    fee-bearing content takes the next counter and any other content leaves
    the counters alone. *)
Lemma feesAndCounter_spec (pkh : string) (cs : gmap string Js.number)
  (op c : gmap string Js.value) :
  let r := Stages.feesAndCounter pkh cs op c in
  (forall k, k <> "fee" -> k <> "gas_limit" -> k <> "storage_limit" -> k <> "counter" ->
             Js.get (fst r) k = Js.get c k)
  /\ (if Emitter.isFeeOp op
      then Js.get (fst r) "counter"
           = Js.VString (Js.number_to_string (Js.pre_incr (cs !! pkh)))
           /\ snd r = <[pkh := Js.pre_incr (cs !! pkh)]> cs
      else r = (c, cs)).
Proof.
  unfold Stages.feesAndCounter.
  destruct (Emitter.isFeeOp op); cbn [fst snd].
  - split; [| split; [| reflexivity]].
    + intros k H1 H2 H3 H4.
      unfold Js.get at 1. rewrite lookup_insert_ne by congruence.
      fold (Js.get (Emitter.stringOrZero op
                      (Emitter.stringOrZero op (Emitter.stringOrZero op c "fee") "gas_limit")
                      "storage_limit") k).
      now rewrite !get_stringOrZero by congruence.
    + unfold Js.get. now rewrite lookup_insert_eq.
  - split; reflexivity.
Qed.

Lemma get_balanceString (op c : gmap string Js.value) (k : string) :
  k <> "balance" -> Js.get (Stages.balanceString op c) k = Js.get c k.
Proof.
  intros Hk. unfold Stages.balanceString, Js.get.
  repeat case_match; rewrite ?lookup_insert_ne by congruence; reflexivity.
Qed.

Lemma get_transactionChecks (p : bool) (op c c' : gmap string Js.value) (k : string) :
  Stages.transactionChecks p op c = inr c' ->
  k <> "amount" -> Js.get c' k = Js.get c k.
Proof.
  intros H Hk. unfold Stages.transactionChecks in H.
  repeat (case_match; simplify_eq); unfold Js.get;
    rewrite ?lookup_insert_ne by congruence; reflexivity.
Qed.

Lemma get_stripObsolete (p : bool) (c : gmap string Js.value) (k : string) :
  k <> "manager_pubkey" -> k <> "spendable" -> k <> "delegatable" ->
  Js.get (Stages.stripObsolete p c) k = Js.get c k.
Proof.
  intros H1 H2 H3. unfold Stages.stripObsolete, Js.get.
  destruct p; rewrite ?lookup_delete_ne by congruence; reflexivity.
Qed.

(** The kind is left as it is; a fee-bearing content takes the next counter
    and any other content leaves the counters alone. *)
Lemma constructOp_inr (pkh : string) (p : bool) (cs cs' : gmap string Js.number)
  (op c : gmap string Js.value) :
  Emitter.constructOp pkh p cs op = inr (c, cs') ->
  Js.get c "kind" = Js.get op "kind"
  /\ (if Emitter.isFeeOp op
      then Js.get c "counter" = Js.VString (Js.number_to_string (Js.pre_incr (cs !! pkh)))
           /\ cs' = <[pkh := Js.pre_incr (cs !! pkh)]> cs
      else cs' = cs).
Proof.
  rewrite constructOp_stages. unfold Stages.constructOp.
  pose proof (feesAndCounter_spec pkh cs op (Stages.defaultSource pkh op)) as [Hget Hfee].
  destruct (Stages.feesAndCounter pkh cs op (Stages.defaultSource pkh op)) as [c1 cs1].
  cbn [fst snd] in Hget, Hfee.
  destruct (Stages.transactionChecks p op (Stages.balanceString op c1)) as [e|c2] eqn:Htx;
    [discriminate |].
  intros [= <- <-].
  assert (Hthrough : forall k, k <> "amount" -> k <> "balance" ->
            k <> "manager_pubkey" -> k <> "spendable" -> k <> "delegatable" ->
            Js.get (Stages.stripObsolete p c2) k = Js.get c1 k).
  { intros k H1 H2 H3 H4 H5.
    rewrite get_stripObsolete by assumption.
    rewrite (get_transactionChecks _ _ _ _ k Htx) by assumption.
    now apply get_balanceString. }
  split.
  - rewrite Hthrough by discriminate. rewrite Hget by discriminate.
    now apply get_defaultSource.
  - destruct (Emitter.isFeeOp op).
    + destruct Hfee as [Hc Hcs]. split; [| exact Hcs].
      rewrite Hthrough by discriminate. exact Hc.
    + now injection Hfee.
Qed.



(** *** Counters *)

Lemma constructOps_kinds (pkh : string) (p : bool)
  (ops contents : list (gmap string Js.value)) (cs cs' : gmap string Js.number) :
  Emitter.constructOps pkh p cs ops = inr (contents, cs') ->
  Forall2 (fun c op => Js.get c "kind" = Js.get op "kind") contents ops.
Proof.
  revert contents cs cs'.
  induction ops as [|op ops IH]; intros contents cs cs' H; simpl in H.
  - simplify_eq. constructor.
  - destruct (Emitter.constructOp pkh p cs op) as [e|[c cs1]] eqn:Hop; [discriminate |].
    destruct (Emitter.constructOps pkh p cs1 ops) as [e|[cs2 cs3]] eqn:Hops; [discriminate |].
    simplify_eq. constructor; [| by eapply IH].
    apply (constructOp_inr _ _ _ _ _ _ Hop).
Qed.

(** A successful [prepareOperation], read off its closed form. *)
Lemma prepareOperation_inr (ctx : Emitter.Context)
  (operation : Emitter.OperationParam) (source : option string)
  (log : list event) (out : Emitter.PreparedOperation) :
  let ops := Spec.inputOps operation in
  let pkh := Spec.resolvedSource ctx source in
  Emitter.prepareOperation ctx operation source = (log, inr out) ->
  log = Spec.prepareLog ctx source ops
  /\ Emitter.prepared_counter out = Spec.baseline ctx pkh ops
  /\ exists cs',
      Emitter.constructOps pkh (Spec.active005 ctx) {[ pkh := Spec.baseline ctx pkh ops ]}
        (if Spec.needsReveal ctx pkh ops
         then Emitter.reveal (Emitter.publicKey ctx) pkh :: ops else ops)
      = inr (Emitter.contents (Emitter.prepared_opOb out), cs').
Proof.
  intros ops pkh. rewrite prepareOperation_unfold. fold ops pkh.
  destruct (Emitter.getBlockHeader ctx); [| discriminate].
  destruct (Emitter.getBlockMetadata ctx); [| discriminate].
  cbv zeta.
  destruct (Emitter.constructOps _ _ _ _) as [e|[contents cs']]; [discriminate |].
  intros H. injection H as <- <-. simpl. eauto.
Qed.



(** *** Counters of a prepared operation *)






(** *** The reveal *)

Lemma constructOp_reveal (pkh pk : string) (p : bool) (cs : gmap string Js.number) :
  Emitter.constructOp pkh p cs (Emitter.reveal pk pkh)
  = inr (<["counter" := Js.VString (Js.number_to_string (Js.pre_incr (cs !! pkh)))]>
           (Spec.revealContent pk pkh),
         <[pkh := Js.pre_incr (cs !! pkh)]> cs).
Proof. destruct p; reflexivity. Qed.

Lemma managerKeyUnset_haveManager (m : Rpc.ManagerKeyResponse) :
  Spec.managerKeyUnset m <-> Emitter.haveManager m = false.
Proof.
  destruct m as [|s|[s|]]; simpl; unfold Js.truthy_string.
  - tauto.
  - rewrite negb_false_iff, String.eqb_eq. tauto.
  - rewrite negb_false_iff, String.eqb_eq. split; [intros [[=]|[= ->]]; reflexivity | intros ->; now right].
  - split; [reflexivity | now left].
Qed.

Lemma needsReveal_spec (ctx : Emitter.Context) (pkh : string)
  (ops : list (gmap string Js.value)) :
  Spec.needsReveal ctx pkh ops = true
  <-> Spec.sourceBearing ops = true
      /\ Spec.managerKeyUnset (Emitter.getManagerKey ctx pkh).
Proof.
  unfold Spec.needsReveal.
  rewrite andb_true_iff, negb_true_iff, managerKeyUnset_haveManager. reflexivity.
Qed.

(** C2. In every successful call, [prepareOperation] puts a reveal content
    (the signer's public key, the resolved source, the default reveal fee, gas
    limit and storage limit, and a counter) in front of the contents if and
    only if at least one input content is source-bearing and the manager key
    fetched for the source is unset; otherwise the contents of the result are
    the input contents, one for one, with no reveal added. *)
Theorem reveal_prepended_iff (ctx : Emitter.Context)
  (operation : Emitter.OperationParam) (source : option string)
  (log : list event) (out : Emitter.PreparedOperation) :
  let ops := Spec.inputOps operation in
  let pkh := Spec.resolvedSource ctx source in
  let contents := Emitter.contents (Emitter.prepared_opOb out) in
  let same_kind := fun c op : gmap string Js.value => Js.get c "kind" = Js.get op "kind" in
  Emitter.prepareOperation ctx operation source = (log, inr out) ->
  ((exists c rest,
      contents = <["counter" := Js.VString c]>
                   (Spec.revealContent (Emitter.publicKey ctx) pkh) :: rest
      /\ Forall2 same_kind rest ops)
   <-> Spec.sourceBearing ops = true
       /\ Spec.managerKeyUnset (Emitter.getManagerKey ctx pkh))
  /\ (~ (Spec.sourceBearing ops = true
         /\ Spec.managerKeyUnset (Emitter.getManagerKey ctx pkh)) ->
      Forall2 same_kind contents ops).
Proof.
  intros ops pkh contents same_kind Hprep.
  destruct (prepareOperation_inr _ _ _ _ _ Hprep) as (_ & _ & cs' & Hc).
  fold ops pkh contents in Hc.
  rewrite <- needsReveal_spec.
  destruct (Spec.needsReveal ctx pkh ops) eqn:Hr.
  - split; [| intros []; reflexivity].
    split; [reflexivity | intros _].
    simpl in Hc. rewrite constructOp_reveal in Hc.
    destruct (Emitter.constructOps _ _ _ ops) as [e|[rest cs2]] eqn:Hrest; [discriminate |].
    injection Hc as Hc _. rewrite <- Hc.
    eexists _, rest. split; [reflexivity |].
    exact (constructOps_kinds _ _ _ _ _ _ Hrest).
  - pose proof (constructOps_kinds _ _ _ _ _ _ Hc) as Hk.
    split; [| intros _; exact Hk].
    split; [| discriminate].
    intros (c & rest & Hcont & Hrest).
    apply Forall2_length in Hk, Hrest. rewrite Hcont in Hk. simpl in Hk. lia.
Qed.

Lemma reveal_prepended_iff_witness :
  let ctx := Sample.context "41" Rpc.ManagerUndefined None (Rpc.ResultArray []) in
  exists log out,
    Emitter.prepareOperation ctx (Emitter.Single Sample.delegation) None = (log, inr out)
    /\ exists c rest,
        Emitter.contents (Emitter.prepared_opOb out)
        = <["counter" := Js.VString c]> (Spec.revealContent "edpksigner" "tz1signer") :: rest
        /\ Forall2 (fun c op : gmap string Js.value => Js.get c "kind" = Js.get op "kind")
             rest [Sample.delegation].
Proof.
  intros ctx. eexists _, _. split; [reflexivity |].
  apply (proj1 (reveal_prepended_iff ctx (Emitter.Single Sample.delegation) None _ _ eq_refl)).
  split; [reflexivity | exact I].
Defined.

(** *** Contract sources under protocol 005 *)

Lemma prefix_cons_inv (a : ascii) (p : string) (s : string) :
  String.prefix (String a p) s = true ->
  exists s', s = String a s' /\ String.prefix p s' = true.
Proof.
  destruct s as [|b s']; cbn [String.prefix]; [discriminate |].
  destruct (ascii_dec a b) as [<-|]; [| discriminate]. eauto.
Qed.

Lemma prefix_KT1_lower (s : string) :
  String.prefix "KT1" s = true -> Js.startsWith (Js.toLowerCase s) "kt1" = true.
Proof.
  intros H.
  apply prefix_cons_inv in H as (s1 & -> & H).
  apply prefix_cons_inv in H as (s2 & -> & H).
  apply prefix_cons_inv in H as (s3 & -> & _).
  unfold Js.startsWith. cbn [Js.toLowerCase].
  destruct (Js.toLowerCase s3); reflexivity.
Qed.

Lemma isSourceOp_transaction (op : gmap string Js.value) :
  Js.strict_eq_string (Js.get op "kind") "transaction" = true ->
  Emitter.isSourceOp op = true.
Proof.
  unfold Emitter.isSourceOp, Js.strict_eq_string.
  destruct (Js.get op "kind") as [| |s| |]; try discriminate.
  rewrite String.eqb_eq. intros ->. reflexivity.
Qed.

(** The source seen by the transaction checks is the one the content ends up
    with. *)
Lemma get_source_before_checks (pkh : string) (cs : gmap string Js.number)
  (op : gmap string Js.value) :
  Emitter.isSourceOp op = true ->
  Js.get (Stages.balanceString op
            (fst (Stages.feesAndCounter pkh cs op (Stages.defaultSource pkh op)))) "source"
  = Spec.contentSource pkh op.
Proof.
  intros Hs.
  rewrite get_balanceString by discriminate.
  rewrite (proj1 (feesAndCounter_spec pkh cs op _)) by discriminate.
  now apply get_source_defaultSource.
Qed.

(** A transaction whose source is a contract is rejected under 005. *)
Lemma constructOp_kt1 (pkh : string) (cs : gmap string Js.number)
  (op : gmap string Js.value) :
  Js.get op "kind" = Js.VString "transaction" ->
  Spec.isKT1 (Spec.contentSource pkh op) ->
  Emitter.constructOp pkh true cs op = inl Spec.kt1Error.
Proof.
  intros Hk (s & Hs & Hp). apply prefix_KT1_lower in Hp.
  assert (Hkind : Js.strict_eq_string (Js.get op "kind") "transaction" = true)
    by now rewrite Hk.
  pose proof (get_source_before_checks pkh cs op (isSourceOp_transaction _ Hkind)) as Hsrc.
  rewrite constructOp_stages. unfold Stages.constructOp.
  destruct (Stages.feesAndCounter pkh cs op (Stages.defaultSource pkh op)) as [c1 cs1].
  cbn [fst] in Hsrc.
  unfold Stages.transactionChecks. rewrite Hkind, Hsrc, Hs, Hp. reflexivity.
Qed.

(** With string sources, the only error [constructOp] throws is the
    rejection of a contract source. *)
Lemma constructOp_inl (pkh : string) (p : bool) (cs : gmap string Js.number)
  (op : gmap string Js.value) (e : error) :
  Spec.sourceIsString op ->
  Emitter.constructOp pkh p cs op = inl e -> e = Spec.kt1Error.
Proof.
  intros Hty. rewrite constructOp_stages. unfold Stages.constructOp.
  pose proof (get_source_before_checks pkh cs op) as Hsrc.
  destruct (Stages.feesAndCounter pkh cs op (Stages.defaultSource pkh op)) as [c1 cs1].
  cbn [fst] in Hsrc.
  destruct (Stages.transactionChecks p op (Stages.balanceString op c1)) as [e'|c2] eqn:Htx;
    [| discriminate].
  intros [= <-]. unfold Stages.transactionChecks in Htx.
  destruct (Js.strict_eq_string (Js.get op "kind") "transaction") eqn:Hkind; [| discriminate].
  rewrite (Hsrc (isSourceOp_transaction _ Hkind)) in Htx.
  unfold Spec.contentSource, Spec.sourceIsString in *.
  destruct p; [| repeat case_match; simplify_eq ].
  destruct (Js.get op "source"); cbn in Htx; try contradiction;
    repeat case_match; simplify_eq; reflexivity.
Qed.

(** Under 005, a list of contents that holds a transaction with a contract
    source is never constructed. *)
Lemma constructOps_kt1 (pkh : string) (cs : gmap string Js.number)
  (ops : list (gmap string Js.value)) (op : gmap string Js.value) :
  op ∈ ops ->
  Js.get op "kind" = Js.VString "transaction" ->
  Spec.isKT1 (Spec.contentSource pkh op) ->
  exists e, Emitter.constructOps pkh true cs ops = inl e
            /\ (Forall Spec.sourceIsString ops -> e = Spec.kt1Error).
Proof.
  intros Hin Hk Hkt. revert cs.
  induction ops as [|o ops IH]; intros cs; [by apply elem_of_nil in Hin |].
  cbn [Emitter.constructOps].
  destruct (Emitter.constructOp pkh true cs o) as [e|[c cs1]] eqn:Ho.
  - exists e. split; [reflexivity |].
    intros Hty. apply Forall_cons in Hty as [Hty _].
    exact (constructOp_inl _ _ _ _ _ Hty Ho).
  - apply elem_of_cons in Hin as [->|Hin].
    + rewrite (constructOp_kt1 _ _ _ Hk Hkt) in Ho. discriminate.
    + destruct (IH Hin cs1) as (e & -> & He).
      exists e. split; [reflexivity |].
      intros Hty. apply Forall_cons in Hty as [_ Hty]. auto.
Qed.

Lemma sourceIsString_reveal (pk pkh : string) :
  Spec.sourceIsString (Emitter.reveal pk pkh).
Proof. exact I. Qed.

Lemma prepareLog_queries (ctx : Emitter.Context) (source : option string)
  (ops : list (gmap string Js.value)) :
  Forall (fun ev => Spec.is_query ev = true) (Spec.prepareLog ctx source ops).
Proof.
  unfold Spec.prepareLog, Spec.fetchLog.
  destruct (Js.truthy_opt_string source), (Spec.sourceBearing ops),
    (Spec.needsReveal _ _ _), (Js.truthy_opt_string (Emitter._proto ctx));
    repeat constructor.
Qed.

Lemma fetchLog_queries (ctx : Emitter.Context) (source : option string)
  (ops : list (gmap string Js.value)) :
  Forall (fun ev => Spec.is_query ev = true) (Spec.fetchLog ctx source ops).
Proof.
  unfold Spec.fetchLog.
  destruct (Js.truthy_opt_string source), (Spec.sourceBearing ops); repeat constructor.
Qed.

(** A failed preparation ends the pipeline: nothing is forged, signed,
    preapplied or injected. *)
Lemma pipeline_stops_at_prepare (ctx : Emitter.Context)
  (operation : Emitter.OperationParam) (source : option string)
  (log : list event) (e : error) :
  Emitter.prepareOperation ctx operation source = (log, inl e) ->
  Emitter.prepareForgeSignInject ctx operation source = (log, inl e).
Proof.
  intros H. unfold Emitter.prepareForgeSignInject, Emitter.prepareAndForge.
  unfold mbind, M_bind. rewrite H. reflexivity.
Qed.

(** C7. When protocol generation 005 is active, [prepareOperation] fails for
    every list of contents that holds a transaction whose resolved source is a
    KT1 address: the call throws, with the descriptive error when the head
    header and metadata were fetched and the sources are strings, and the
    calls made are queries only; the pipeline that would go on to forge, sign
    and inject stops with the same error and the same calls. *)
Theorem kt1_source_rejected (ctx : Emitter.Context)
  (operation : Emitter.OperationParam) (source : option string)
  (op : gmap string Js.value) :
  let ops := Spec.inputOps operation in
  let pkh := Spec.resolvedSource ctx source in
  Spec.active005 ctx = true ->
  op ∈ ops ->
  Js.get op "kind" = Js.VString "transaction" ->
  Spec.isKT1 (Spec.contentSource pkh op) ->
  exists log e,
    Emitter.prepareOperation ctx operation source = (log, inl e)
    /\ Emitter.prepareForgeSignInject ctx operation source = (log, inl e)
    /\ Forall (fun ev => Spec.is_query ev = true) log
    /\ Forall (fun ev => is_mutation ev = false) log
    /\ (is_Some (Emitter.getBlockHeader ctx) ->
        is_Some (Emitter.getBlockMetadata ctx) ->
        Forall Spec.sourceIsString ops ->
        e = Spec.kt1Error).
Proof.
  intros ops pkh Hact Hin Hk Hkt.
  assert (Hq : forall l, Forall (fun ev => Spec.is_query ev = true) l ->
               Forall (fun ev => is_mutation ev = false) l).
  { intros l Hl. eapply Forall_impl; [exact Hl | now intros []]. }
  assert (H : exists log e,
             Emitter.prepareOperation ctx operation source = (log, inl e)
             /\ Forall (fun ev => Spec.is_query ev = true) log
             /\ (is_Some (Emitter.getBlockHeader ctx) ->
                 is_Some (Emitter.getBlockMetadata ctx) ->
                 Forall Spec.sourceIsString ops -> e = Spec.kt1Error)).
  { rewrite prepareOperation_unfold. fold ops pkh. cbv zeta.
    destruct (Emitter.getBlockHeader ctx) as [header|].
    2:{ eexists _, _. split; [reflexivity |]. split; [apply fetchLog_queries |].
        intros [? [=]]. }
    destruct (Emitter.getBlockMetadata ctx) as [metadata|].
    2:{ eexists _, _. split; [reflexivity |]. split; [apply fetchLog_queries |].
        intros _ [? [=]]. }
    rewrite Hact.
    set (ops' := if Spec.needsReveal ctx pkh ops
                 then Emitter.reveal (Emitter.publicKey ctx) pkh :: ops else ops).
    assert (Hin' : op ∈ ops').
    { unfold ops'. destruct (Spec.needsReveal ctx pkh ops); [apply elem_of_cons |]; auto. }
    destruct (constructOps_kt1 pkh {[pkh := Spec.baseline ctx pkh ops]} ops' op Hin' Hk Hkt)
      as (e & -> & He).
    eexists _, e. split; [reflexivity |]. split; [apply prepareLog_queries |].
    intros _ _ Hty. apply He. unfold ops'.
    destruct (Spec.needsReveal ctx pkh ops); [| exact Hty].
    constructor; [apply sourceIsString_reveal | exact Hty]. }
  destruct H as (log & e & Hprep & Hlog & He).
  exists log, e. repeat split; auto using pipeline_stops_at_prepare.
Qed.

Lemma kt1_source_rejected_witness :
  let ctx := Sample.context "41" (Rpc.ManagerString "edpk") None (Rpc.ResultArray []) in
  exists log,
    Emitter.prepareOperation ctx (Emitter.Single Sample.contract_transfer) None
    = (log, inl Spec.kt1Error)
    /\ Emitter.prepareForgeSignInject ctx (Emitter.Single Sample.contract_transfer) None
       = (log, inl Spec.kt1Error)
    /\ Forall (fun ev => is_mutation ev = false) log.
Proof.
  intros ctx.
  destruct (kt1_source_rejected ctx (Emitter.Single Sample.contract_transfer) None
              Sample.contract_transfer eq_refl (list_elem_of_here _ _) eq_refl
              (ex_intro _ "KT1contract" (conj eq_refl eq_refl)))
    as (log & e & H1 & H2 & _ & H3 & He).
  exists log.
  assert (Hty : Forall Spec.sourceIsString
                  (Spec.inputOps (Emitter.Single Sample.contract_transfer)))
    by (constructor; [exact I | constructor]).
  rewrite <- (He (mk_is_Some _ _ eq_refl) (mk_is_Some _ _ eq_refl) Hty).
  auto.
Defined.

(** *** A plain transfer *)

Example format_tz_to_mutez :
  Format.toString (Format.format "tz" "mutez" (Format.Decimal 15 1)) = "1500000".
Proof. reflexivity. Qed.

Example toString_fraction :
  Format.toString (Format.format "mutez" "tz" (Format.Decimal 1500 0)) = "0.0015".
Proof. reflexivity. Qed.





(* ===================================================================== *)
(** ** Properties of the confirmation tracker *)
(* ===================================================================== *)

Example confirmation_sample :
  Operation.confirmation Operation.defaultConfig "oohash" Sample.heads None (Some 1) None None
  = {| Operation.observed := 4; Operation._foundAt := Some 10; Operation.outcome := inr 11 |}.
Proof. reflexivity. Qed.





















(* ===================================================================== *)
(** ** Properties of the filter evaluator *)
(* ===================================================================== *)

Lemma FilterValue_nested_ind (P : Subscribe.FilterValue -> Prop) :
  (forall l, Forall P l -> P (Subscribe.FilterArray l)) ->
  (forall keys and_ or_,
     SubscribeSpec.forMembers P and_ -> SubscribeSpec.forMembers P or_ ->
     P (Subscribe.FilterObject keys and_ or_)) ->
  forall f, P f.
Proof.
  intros HA HO. fix IH 1. intros [l | keys a o].
  - apply HA. induction l as [|x l IHl]; constructor; [apply IH | exact IHl].
  - apply HO.
    + destruct a as [| |l]; simpl; [exact I | exact I |].
      induction l as [|x l IHl]; constructor; [apply IH | exact IHl].
    + destruct o as [| |l]; simpl; [exact I | exact I |].
      induction l as [|x l IHl]; constructor; [apply IH | exact IHl].
Qed.

Lemma every_forallb {A : Type} (f : A -> error + bool) (g : A -> bool) (l : list A) :
  Forall (fun x => f x = inr (g x)) l ->
  Subscribe.every f l = inr (forallb g l).
Proof.
  induction 1 as [|x l Hx _ IH]; [reflexivity |].
  simpl. rewrite Hx. destruct (g x); [exact IH | reflexivity].
Qed.

Lemma some_existsb {A : Type} (f : A -> error + bool) (g : A -> bool) (l : list A) :
  Forall (fun x => f x = inr (g x)) l ->
  Subscribe.some f l = inr (existsb g l).
Proof.
  induction 1 as [|x l Hx _ IH]; [reflexivity |].
  simpl. rewrite Hx. destruct (g x); [reflexivity | exact IH].
Qed.

Lemma Forall_forallb_impl {A : Type} (P : A -> Prop) (w : A -> bool) (l : list A) :
  Forall (fun x => w x = true -> P x) l -> forallb w l = true -> Forall P l.
Proof.
  induction 1 as [|x l Hx _ IH]; [constructor |].
  simpl. intros [Hw Hl]%andb_prop. constructor; auto.
Qed.

(** [evaluateFilter] on a filter object is the callback of the outer
    [every]. *)
Lemma evaluateFilter_object (op : Subscribe.Item) (keys : Subscribe.OpFilter)
  (and_ or_ : Subscribe.Property Subscribe.FilterValue) :
  Subscribe.evaluateFilter op (Subscribe.FilterObject keys and_ or_) =
  if Subscribe.present and_ || Subscribe.present or_ then
    match and_ with
    | Subscribe.IsArray l => Subscribe.every (Subscribe.evaluateFilter op) l
    | _ =>
        match or_ with
        | Subscribe.IsArray l => Subscribe.some (Subscribe.evaluateFilter op) l
        | _ => inl (Error "Filter expression must contains either and/or property")
        end
    end
  else inr (default false (Subscribe.evaluateOpFilter op keys)).
Proof. reflexivity. Qed.

(** The evaluation of a well-formed filter is its reading as a formula. *)
Lemma evaluateFilter_holds (op : Subscribe.Item) (f : Subscribe.FilterValue) :
  SubscribeSpec.wellFormed f = true ->
  Subscribe.evaluateFilter op f = inr (SubscribeSpec.holds op f).
Proof.
  induction f as [l IH | keys a o IHa IHo] using FilterValue_nested_ind; intros Hwf.
  - cbn [Subscribe.evaluateFilter SubscribeSpec.holds].
    apply every_forallb.
    cbn [SubscribeSpec.wellFormed] in Hwf.
    revert Hwf. induction IH as [|x l Hx _ IHl]; [constructor |].
    cbn [forallb]. intros [Hw Hl]%andb_prop. constructor; [| exact (IHl Hl)].
    destruct x as [l' | keys a o]; [reflexivity |]. exact (Hx Hw).
  - rewrite evaluateFilter_object.
    cbn [SubscribeSpec.wellFormed SubscribeSpec.holds] in *.
    destruct a as [| |la]; destruct o as [| |lo]; simpl in *; try discriminate;
      try reflexivity.
    all: first [ apply every_forallb | apply some_existsb ].
    all: eapply Forall_forallb_impl; eassumption.
Qed.

(** X1. A filter whose expressions all carry an array under [and] or under
    [or] is evaluated without error, and the answer is its reading as a
    formula: an array and an [and] are conjunctions, an [or] is a
    disjunction, cut short or not. *)
Theorem evaluateFilter_well_formed (op : Subscribe.Item) (f : Subscribe.FilterValue) :
  SubscribeSpec.wellFormed f = true ->
  Subscribe.evaluateFilter op f = inr (SubscribeSpec.holds op f).
Proof. exact (evaluateFilter_holds op f). Qed.

Lemma evaluateFilter_well_formed_witness :
  let op := {| Subscribe.hash := "oohash";
               Subscribe.content := Fixture.tx_content "tz1src" "KT1abc" |} in
  Subscribe.evaluateFilter op Fixture.transaction_to_KT1abc = inr true.
Proof.
  intros op. exact (evaluateFilter_well_formed op Fixture.transaction_to_KT1abc eq_refl).
Defined.

Lemma every_stops (A : Type) (f : A -> error + bool) (before after : list A) (x : A) :
  Forall (fun y => f y = inr true) before ->
  f x = inr false ->
  Subscribe.every f (before ++ x :: after) = inr false.
Proof.
  intros Hb Hx. induction Hb as [|y l Hy _ IH]; simpl.
  - now rewrite Hx.
  - now rewrite Hy.
Qed.

Lemma some_stops (A : Type) (f : A -> error + bool) (before after : list A) (x : A) :
  Forall (fun y => f y = inr false) before ->
  f x = inr true ->
  Subscribe.some f (before ++ x :: after) = inr true.
Proof.
  intros Hb Hx. induction Hb as [|y l Hy _ IH]; simpl.
  - now rewrite Hx.
  - now rewrite Hy.
Qed.

(** X2. An [and] expression is false as soon as one member is false and an
    [or] expression is true as soon as one member is true: the members after
    it are not evaluated, so that a malformed expression among them does not
    make the evaluation throw. *)
Theorem expression_stops_at_deciding_member (op : Subscribe.Item)
  (keys : Subscribe.OpFilter) (other : Subscribe.Property Subscribe.FilterValue)
  (before after : list Subscribe.FilterValue) (x : Subscribe.FilterValue) :
  (Forall (fun y => Subscribe.evaluateFilter op y = inr true) before ->
   Subscribe.evaluateFilter op x = inr false ->
   Subscribe.evaluateFilter op
     (Subscribe.FilterObject keys (Subscribe.IsArray (before ++ x :: after)) other)
   = inr false)
  /\ (Forall (fun y => Subscribe.evaluateFilter op y = inr false) before ->
      Subscribe.evaluateFilter op x = inr true ->
      (forall l, other <> Subscribe.IsArray l) ->
      Subscribe.evaluateFilter op
        (Subscribe.FilterObject keys other (Subscribe.IsArray (before ++ x :: after)))
      = inr true).
Proof.
  split.
  - intros Hb Hx. rewrite evaluateFilter_object. cbn [Subscribe.present orb].
    now apply every_stops.
  - intros Hb Hx Ho. rewrite evaluateFilter_object.
    destruct other as [| |l]; cbn [Subscribe.present orb];
      [now apply some_stops | now apply some_stops | now destruct (Ho l)].
Qed.

Lemma expression_stops_at_deciding_member_witness :
  let op := {| Subscribe.hash := "oohash";
               Subscribe.content := Fixture.tx_content "tz1src" "KT1abc" |} in
  Subscribe.evaluateFilter op
    (Subscribe.FilterObject SubscribeSpec.noKeys
       (Subscribe.IsArray [SubscribeSpec.onKind "transaction"; SubscribeSpec.onKind "reveal";
                           Fixture.malformed])
       Subscribe.Absent) = inr false
  /\ Subscribe.evaluateFilter op
       (Subscribe.FilterObject SubscribeSpec.noKeys Subscribe.Absent
          (Subscribe.IsArray [SubscribeSpec.onKind "reveal"; SubscribeSpec.onKind "transaction";
                              Fixture.malformed])) = inr true
  /\ Subscribe.evaluateFilter op Fixture.malformed
     = inl (Error "Filter expression must contains either and/or property").
Proof.
  intros op. split; [| split; [| reflexivity]].
  - apply (proj1 (expression_stops_at_deciding_member op SubscribeSpec.noKeys Subscribe.Absent
                    [SubscribeSpec.onKind "transaction"] [Fixture.malformed]
                    (SubscribeSpec.onKind "reveal"))).
    + repeat constructor.
    + reflexivity.
  - apply (proj2 (expression_stops_at_deciding_member op SubscribeSpec.noKeys Subscribe.Absent
                    [SubscribeSpec.onKind "reveal"] [Fixture.malformed]
                    (SubscribeSpec.onKind "transaction"))).
    + repeat constructor.
    + reflexivity.
    + discriminate.
Defined.

Lemma existsb_eqb_elem_of (d : string) (l : list string) :
  existsb (fun contract => String.eqb contract d) l = true <-> d ∈ l.
Proof.
  rewrite existsb_exists. split.
  - intros (x & Hin & ->%String.eqb_eq). now apply list_elem_of_In.
  - intros Hin. exists d. split; [now apply list_elem_of_In | apply String.eqb_refl].
Qed.

(** X3. A filter on [destination] alone never throws, and it holds of an item
    exactly when the item is a delegation to that address, an origination
    whose result lists that address among the originated contracts, or a
    transaction to that address; no other kind of content passes. *)
Theorem destination_filter_by_kind (op : Subscribe.Item) (d : string) :
  let x := Subscribe.content op in
  exists b,
    Subscribe.evaluateFilter op (SubscribeSpec.onDestination d) = inr b
    /\ (b = true <->
        (Subscribe.kind x = "delegation" /\ Subscribe.delegate x = Some d)
        \/ (Subscribe.kind x = "origination"
            /\ exists md r l, Subscribe.metadata x = Some md
                 /\ Subscribe.operation_result md = Some r
                 /\ Subscribe.originated_contracts r = Some l /\ d ∈ l)
        \/ (Subscribe.kind x = "transaction" /\ Subscribe.destination x = Some d)).
Proof.
  intros x. eexists. split; [reflexivity |].
  cbn -[String.eqb]. unfold Subscribe.destinationFilter. fold x.
  destruct (String.eqb_spec (Subscribe.kind x) "delegation") as [Hk|Hk].
  { simpl. rewrite field_eq_true. split; [intros H; left; auto |].
    intros [[_ H] | [[H _] | [H _]]]; [exact H | congruence | congruence]. }
  destruct (String.eqb_spec (Subscribe.kind x) "origination") as [Hk2|Hk2].
  { split.
    - intros H. right; left. split; [exact Hk2 |].
      destruct (Subscribe.metadata x) as [md|] eqn:Hmd; [| discriminate].
      destruct (Subscribe.operation_result md) as [r|] eqn:Hr; [| discriminate].
      destruct (Subscribe.originated_contracts r) as [l|] eqn:Hl; [| discriminate].
      exists md, r, l. split; [reflexivity |]. split; [exact Hr |]. split; [exact Hl |].
      now apply existsb_eqb_elem_of.
    - intros [[H _] | [[_ (md & r & l & -> & Hr & Hl & Hin)] | [H _]]];
        [congruence | | congruence].
      rewrite Hr, Hl. simpl. now apply existsb_eqb_elem_of. }
  destruct (String.eqb_spec (Subscribe.kind x) "transaction") as [Hk3|Hk3].
  { simpl. rewrite field_eq_true. split; [intros H; right; right; auto |].
    intros [[H _] | [[H _] | [_ H]]]; [congruence | congruence | exact H]. }
  simpl. split; [discriminate |].
  intros [[H _] | [[H _] | [H _]]]; congruence.
Qed.

Lemma forOf_bind {A : Type} (body : A -> Subscribe.Emission) (g : A -> list Subscribe.Item)
  (l : list A) :
  Forall (fun x => body x = (g x, None)) l ->
  Subscribe.forOf body l = (l ≫= g, None).
Proof.
  induction 1 as [|x l Hx _ IH]; [reflexivity |].
  simpl. now rewrite Hx, IH.
Qed.

(** X4. For a well-formed filter, the observable made by [applyFilter] for a
    block emits exactly the items of the block on which the filter holds, in
    block order, each one tagged with the hash of the operation it comes
    from, and it completes without error. *)
Theorem applyFilter_emits_matching (filter : Subscribe.FilterValue)
  (block : Subscribe.BlockResponse) :
  SubscribeSpec.wellFormed filter = true ->
  Subscribe.applyFilter filter block
  = (base.filter (fun i => SubscribeSpec.holds i filter = true) (SubscribeSpec.items block),
     None).
Proof.
  intros Hwf. unfold Subscribe.applyFilter, SubscribeSpec.items.
  set (P := fun i : Subscribe.Item => SubscribeSpec.holds i filter = true).
  rewrite (forOf_bind _ (fun ops => base.filter P
             (op ← ops; (fun c => {| Subscribe.hash := Subscribe.entry_hash op;
                                     Subscribe.content := c |}) <$> Subscribe.contents op))).
  - f_equal. induction (Subscribe.operations block) as [|ops l IH]; [reflexivity |].
    rewrite !bind_cons, filter_app. now f_equal.
  - apply Forall_forall. intros ops _.
    rewrite (forOf_bind _ (fun op => base.filter P
               ((fun c => {| Subscribe.hash := Subscribe.entry_hash op;
                             Subscribe.content := c |}) <$> Subscribe.contents op))).
    + f_equal. induction ops as [|op l IH]; [reflexivity |].
      rewrite !bind_cons, filter_app. now f_equal.
    + apply Forall_forall. intros op _.
      rewrite (forOf_bind _ (fun c =>
                 base.filter P [ {| Subscribe.hash := Subscribe.entry_hash op;
                                    Subscribe.content := c |} ])).
      * f_equal. induction (Subscribe.contents op) as [|c l IH]; [reflexivity |].
        rewrite bind_cons, fmap_cons, filter_cons, IH.
        rewrite filter_cons, filter_nil. unfold P. now case_decide.
      * apply Forall_forall. intros c _.
        rewrite (evaluateFilter_holds _ _ Hwf).
        rewrite filter_cons, filter_nil. unfold P.
        destruct (SubscribeSpec.holds _ filter) eqn:E.
        -- now rewrite decide_True.
        -- now rewrite decide_False by discriminate.
Qed.

Lemma applyFilter_emits_matching_witness :
  Subscribe.applyFilter Fixture.transaction_to_KT1abc Fixture.block
  = ([ {| Subscribe.hash := "ooOne";
          Subscribe.content := Fixture.tx_content "tz1a" "KT1abc" |};
       {| Subscribe.hash := "ooTwo";
          Subscribe.content := Fixture.tx_content "tz1b" "KT1abc" |} ], None).
Proof.
  exact (applyFilter_emits_matching Fixture.transaction_to_KT1abc Fixture.block eq_refl).
Defined.

(* ===================================================================== *)
(** ** Properties of the listeners of a subscription *)
(* ===================================================================== *)

Lemma indexOf_None (l : list ObservableSubscription.Listener)
  (cb : ObservableSubscription.Listener) :
  ObservableSubscription.indexOf l cb = None <-> cb ∉ l.
Proof.
  induction l as [|x l IH]; simpl.
  - split; [intros _; apply not_elem_of_nil | reflexivity].
  - destruct (decide (x = cb)) as [->|Hne].
    + split; [discriminate | intros H; destruct H; apply list_elem_of_here].
    + rewrite not_elem_of_cons, fmap_None, IH. split; [intros H; split; [congruence | exact H] | intros [_ H]; exact H].
Qed.

(** What [remove] does: when the listener is registered, the array splits at
    its first occurrence, which is taken out; otherwise the array is left
    as it is. *)
Lemma remove_spec (l : list ObservableSubscription.Listener)
  (cb : ObservableSubscription.Listener) :
  ((cb ∉ l) /\ ObservableSubscription.remove l cb = l)
  \/ (exists before after,
        l = (before ++ cb :: after)%list /\ (cb ∉ before)
        /\ ObservableSubscription.remove l cb = (before ++ after)%list).
Proof.
  unfold ObservableSubscription.remove.
  induction l as [|x l IH]; simpl.
  - left. split; [apply not_elem_of_nil | reflexivity].
  - destruct (decide (x = cb)) as [->|Hne].
    + right. exists [], l. repeat split. apply not_elem_of_nil.
    + destruct IH as [[Hni Hr] | (before & after & -> & Hni & Hr)].
      * left. split; [now apply not_elem_of_cons |].
        apply indexOf_None in Hni. now rewrite Hni.
      * right. exists (x :: before), after.
        split; [reflexivity |]. split; [now apply not_elem_of_cons |].
        destruct (ObservableSubscription.indexOf (before ++ cb :: after) cb) as [i|];
          simpl in *; [now rewrite Hr | ].
        exfalso. apply (f_equal length) in Hr.
        rewrite !length_app in Hr. simpl in Hr. lia.
Qed.

Lemma remove_app_new (l : list ObservableSubscription.Listener)
  (cb : ObservableSubscription.Listener) :
  cb ∉ l -> ObservableSubscription.remove (l ++ [cb]) cb = l.
Proof.
  intros Hni.
  destruct (remove_spec (l ++ [cb]) cb) as [[Hn _] | (before & after & Heq & Hb & ->)].
  - destruct Hn. apply elem_of_app. right. apply list_elem_of_here.
  - assert (Hlen : length before = length l).
    { destruct (Nat.lt_trichotomy (length before) (length l)) as [Hlt | [He | Hgt]];
        [| exact He |].
      - exfalso. apply Hni.
        assert (H : (l ++ [cb])%list !! length before = Some cb)
          by (rewrite Heq; apply list_lookup_middle; reflexivity).
        rewrite lookup_app_l in H by exact Hlt.
        now apply list_elem_of_lookup_2 in H.
      - exfalso. apply (f_equal length) in Heq.
        rewrite !length_app in Heq. simpl in Heq. lia. }
    apply app_inj_1 in Heq as [-> Heq]; [| now symmetry].
    injection Heq as <-. now rewrite app_nil_r.
Qed.

(** X5. [off] takes out one registration of the listener, the first one: the
    listeners of the event type split around the first occurrence of the
    callback and are joined again without it, so that a callback registered
    twice is still registered once; the two other arrays are not touched,
    and a callback that is not registered leaves everything as it is. *)
Theorem off_removes_first_registration (type : string)
  (cb : ObservableSubscription.Listener) (s s' : ObservableSubscription.t) :
  ObservableSubscription.off type cb s = inr s' ->
  let changed (get : ObservableSubscription.t -> list ObservableSubscription.Listener) :=
    ((cb ∉ get s) /\ get s' = get s)
    \/ (exists before after,
          get s = (before ++ cb :: after)%list /\ (cb ∉ before)
          /\ get s' = (before ++ after)%list) in
  (type = "data" /\ changed ObservableSubscription.messageListeners
   /\ ObservableSubscription.errorListeners s' = ObservableSubscription.errorListeners s
   /\ ObservableSubscription.closeListeners s' = ObservableSubscription.closeListeners s)
  \/ (type = "error" /\ changed ObservableSubscription.errorListeners
      /\ ObservableSubscription.messageListeners s' = ObservableSubscription.messageListeners s
      /\ ObservableSubscription.closeListeners s' = ObservableSubscription.closeListeners s)
  \/ (type = "close" /\ changed ObservableSubscription.closeListeners
      /\ ObservableSubscription.messageListeners s' = ObservableSubscription.messageListeners s
      /\ ObservableSubscription.errorListeners s' = ObservableSubscription.errorListeners s).
Proof.
  intros H. cbv zeta. unfold ObservableSubscription.off in H.
  destruct (String.eqb_spec type "data") as [->|_];
    [injection H as <-; left; repeat split; apply remove_spec |].
  destruct (String.eqb_spec type "error") as [->|_];
    [injection H as <-; right; left; repeat split; apply remove_spec |].
  destruct (String.eqb_spec type "close") as [->|_];
    [injection H as <-; right; right; repeat split; apply remove_spec | discriminate].
Qed.

Lemma off_removes_first_registration_witness :
  let s := {| ObservableSubscription.errorListeners := [];
              ObservableSubscription.messageListeners := [1; 2; 1]%nat;
              ObservableSubscription.closeListeners := [] |} in
  exists s', ObservableSubscription.off "data" 1%nat s = inr s'
             /\ ObservableSubscription.messageListeners s' = [2; 1]%nat.
Proof.
  intros s. eexists. split; [reflexivity |].
  destruct (off_removes_first_registration "data" 1%nat s _ eq_refl)
    as [(_ & _ & _ & _) | [(H & _) | (H & _)]]; [reflexivity | discriminate H | discriminate H].
Defined.

(** X6. Registering a callback that is not yet registered for an event type
    and unregistering it again gives back the subscription as it was. *)
Theorem off_undoes_on (type : string) (cb : ObservableSubscription.Listener)
  (s s' : ObservableSubscription.t) :
  ObservableSubscription.on type cb s = inr s' ->
  cb ∉ SubscriptionSpec.listeners type s ->
  ObservableSubscription.off type cb s' = inr s.
Proof.
  unfold ObservableSubscription.on, ObservableSubscription.off, SubscriptionSpec.listeners.
  destruct s as [el ml cl]. simpl.
  destruct (String.eqb type "data");
    [intros [= <-] Hn; simpl; now rewrite remove_app_new |].
  destruct (String.eqb type "error");
    [intros [= <-] Hn; simpl; now rewrite remove_app_new |].
  destruct (String.eqb type "close");
    [intros [= <-] Hn; simpl; now rewrite remove_app_new | discriminate].
Qed.

Lemma off_undoes_on_witness :
  let s := {| ObservableSubscription.errorListeners := [7]%nat;
              ObservableSubscription.messageListeners := [1; 2]%nat;
              ObservableSubscription.closeListeners := [] |} in
  exists s',
    ObservableSubscription.on "data" 7%nat s = inr s'
    /\ ObservableSubscription.off "data" 7%nat s' = inr s.
Proof.
  intros s. eexists. split; [reflexivity |].
  apply (off_undoes_on "data" 7%nat s _ eq_refl).
  change (7%nat ∉ [1; 2]%nat).
  rewrite !not_elem_of_cons. repeat split; [lia | lia | apply not_elem_of_nil].
Defined.

(* ===================================================================== *)
(** ** Properties of the context and the toolkit *)
(* ===================================================================== *)

Lemma newContext_lookup (h : gmap nat Toolkit.Context) r s p c f i (l : nat)
  (x : Toolkit.Context) :
  h !! l = Some x -> fst (Toolkit.newContext h r s p c f i) !! l = Some x.
Proof.
  intros Hl. unfold Toolkit.newContext. cbv zeta. cbn [fst].
  rewrite lookup_insert_ne; [exact Hl |].
  intros Heq. apply (is_fresh (dom h)). rewrite Heq. apply elem_of_dom. eauto.
Qed.

Lemma newContext_lookup_new (h : gmap nat Toolkit.Context) r s p c f i :
  let '(h', l) := Toolkit.newContext h r s p c f i in
  h' !! l = Some {| Toolkit._rpcClient := default Toolkit.DefaultClient r;
                    Toolkit._signer := default Toolkit.NoopSigner s;
                    Toolkit._proto := p;
                    Toolkit._config := Toolkit.mergeConfig c;
                    Toolkit._forger := default (Toolkit.RpcForger l) f;
                    Toolkit._injector := default (Toolkit.RpcInjector l) i |}.
Proof. unfold Toolkit.newContext. cbv zeta. now rewrite lookup_insert_eq. Qed.

(** What one call to [setProvider] does to the context of the toolkit and to
    the remembered options. *)
Lemma setProvider_spec (o : Toolkit.Options) (h : gmap nat Toolkit.Context)
  (t : Toolkit.TezosToolkit) (c : Toolkit.Context) :
  h !! Toolkit._context t = Some c ->
  let st := Toolkit.setProvider o (h, t) in
  let client :=
    match Toolkit.rpc o with
    | Some (Toolkit.RpcUrl url) => Toolkit.ClientAt url
    | Some (Toolkit.RpcObject client) => client
    | None =>
        match Toolkit._options_rpc t with
        | None => Toolkit.DefaultClient
        | Some _ => Toolkit.toolkit_rpcClient t
        end
    end in
  Toolkit._context (snd st) = Toolkit._context t
  /\ Toolkit._options_rpc (snd st) = Toolkit.rpc o
  /\ Toolkit.toolkit_rpcClient (snd st) = client
  /\ Toolkit._options_signer (snd st)
     = match Toolkit._options_signer t, Toolkit.signer o with
       | Some s, None => Some s
       | _, s => s
       end
  /\ fst st !! Toolkit._context t
     = Some {| Toolkit._rpcClient := client;
               Toolkit._signer :=
                 match Toolkit._options_signer t, Toolkit.signer o with
                 | _, Some s => s
                 | None, None => Toolkit.NoopSigner
                 | Some _, None => Toolkit._signer c
                 end;
               Toolkit._proto := Toolkit.protocol o;
               Toolkit._config := Toolkit.mergeConfig (Toolkit.config o);
               Toolkit._forger := Toolkit._forger c;
               Toolkit._injector := Toolkit._injector c |}.
Proof.
  intros Hc st client. subst st.
  unfold Toolkit.setProvider, Toolkit.setRpcProvider, Toolkit.setIndexerProvider.
  fold client.
  set (h1 := Toolkit.set_rpc (Toolkit._context t) client h).
  assert (H1 : h1 !! Toolkit._context t
               = Some {| Toolkit._rpcClient := client; Toolkit._signer := Toolkit._signer c;
                         Toolkit._proto := Toolkit._proto c;
                         Toolkit._config := Toolkit._config c;
                         Toolkit._forger := Toolkit._forger c;
                         Toolkit._injector := Toolkit._injector c |}).
  { unfold h1, Toolkit.set_rpc. now rewrite lookup_alter_eq, Hc. }
  clearbody h1 client. clear Hc.
  unfold Toolkit.setStreamProvider. cbn [Toolkit._options_stream Toolkit._context Toolkit._stream].
  set (r := match Toolkit.stream o with
            | Some (Toolkit.StreamUrl url) =>
                let '(h0, ctx) := Toolkit.newContext h1 (Some (Toolkit.ClientAt url))
                                    None None None None None in
                (h0, Some (Toolkit.PollingSubscribeProvider ctx))
            | Some (Toolkit.StreamObject id) => (h1, Some (Toolkit.StreamInstance id))
            | None => match Toolkit._options_stream t with
                      | Some _ => (h1, Toolkit._stream t)
                      | None => (h1, Some (Toolkit.PollingSubscribeProvider (Toolkit._context t)))
                      end
            end).
  assert (H2 : fst r !! Toolkit._context t
               = Some {| Toolkit._rpcClient := client; Toolkit._signer := Toolkit._signer c;
                         Toolkit._proto := Toolkit._proto c;
                         Toolkit._config := Toolkit._config c;
                         Toolkit._forger := Toolkit._forger c;
                         Toolkit._injector := Toolkit._injector c |}).
  { unfold r. destruct (Toolkit.stream o) as [[url|id]|]; [| exact H1 |].
    - pose proof (newContext_lookup h1 (Some (Toolkit.ClientAt url)) None None None None None
                    _ _ H1) as Hn.
      destruct (Toolkit.newContext h1 _ _ _ _ _ _). exact Hn.
    - destruct (Toolkit._options_stream t); exact H1. }
  destruct r as [h2 str]. cbn [fst] in H2. clear H1.
  unfold Toolkit.setSignerProvider.
  cbn [Toolkit._options_signer Toolkit._context Toolkit.toolkit_rpcClient
       Toolkit._indexerClient Toolkit._options_rpc Toolkit._options_indexer
       Toolkit._options_stream Toolkit._stream].
  destruct (Toolkit._options_signer t) as [s0|], (Toolkit.signer o) as [s|];
    cbn [fst snd Toolkit._context Toolkit._options_rpc Toolkit.toolkit_rpcClient
         Toolkit._options_signer];
    (split; [reflexivity |]); (split; [reflexivity |]); (split; [reflexivity |]);
    (split; [reflexivity |]);
    unfold Toolkit.set_config, Toolkit.set_proto, Toolkit.set_signer;
    rewrite !lookup_alter_eq, H2; reflexivity.
Qed.

(** The context of the toolkit is allocated once and stays where it is. *)
Lemma configured_context (h : gmap nat Toolkit.Context) (calls : list Toolkit.Options) :
  exists c, fst (Toolkit.configured h calls) !! Toolkit._context (snd (Toolkit.configured h calls))
            = Some c.
Proof.
  unfold Toolkit.configured.
  assert (H0 : exists c, fst (Toolkit.newTezosToolkit h)
                           !! Toolkit._context (snd (Toolkit.newTezosToolkit h)) = Some c).
  { unfold Toolkit.newTezosToolkit.
    pose proof (newContext_lookup_new h None None None None None None) as Hn.
    destruct (Toolkit.newContext h None None None None None None) as [h0 ctx].
    match goal with
    | |- context [Toolkit.setProvider ?o (h0, ?t)] =>
        destruct (setProvider_spec o h0 t _ Hn) as (Hctx & _ & _ & _ & Hl)
    end.
    rewrite Hctx. eauto. }
  revert H0. generalize (Toolkit.newTezosToolkit h).
  induction calls as [|o calls IH]; intros st Hst; [exact Hst |].
  cbn [fold_left]. apply IH.
  destruct st as [h0 t], Hst as [c Hc]. cbn [fst snd] in Hc.
  destruct (setProvider_spec o h0 t c Hc) as (Hctx & _ & _ & _ & Hl).
  rewrite Hctx. eauto.
Qed.

Lemma configured_snoc (h : gmap nat Toolkit.Context) (calls : list Toolkit.Options)
  (o : Toolkit.Options) :
  Toolkit.configured h (calls ++ [o])
  = Toolkit.setProvider o (Toolkit.configured h calls).
Proof. unfold Toolkit.configured. now rewrite fold_left_app. Qed.

(** X7. Every call to [setProvider] overwrites the protocol hint and the
    polling configuration of the toolkit's context: after a call they are
    the [protocol] of that call, none if it gave none, and the defaults
    overridden by the [config] of that call, whatever earlier calls had
    set. *)
Theorem setProvider_overwrites_protocol_and_config (h : gmap nat Toolkit.Context)
  (before : list Toolkit.Options) (o : Toolkit.Options) :
  let st := Toolkit.configured h (before ++ [o]) in
  Toolkit.toolkit_proto st = Some (Toolkit.protocol o)
  /\ Toolkit.toolkit_config st = Some (Toolkit.mergeConfig (Toolkit.config o)).
Proof.
  intros st. subst st. rewrite configured_snoc.
  destruct (configured_context h before) as [c Hc].
  destruct (Toolkit.configured h before) as [h0 t]. cbn [fst snd] in Hc.
  destruct (setProvider_spec o h0 t c Hc) as (Hctx & _ & _ & _ & Hl).
  unfold Toolkit.toolkit_proto, Toolkit.toolkit_config.
  rewrite Hctx, Hl. split; reflexivity.
Qed.

(** X8. A call to [setProvider] that leaves [rpc] out keeps the RPC client
    when the call before it gave one, but two such calls in a row put the
    toolkit back on the default RPC client, whatever client had been
    configured: the first forgets that a client was given, and the second
    then makes a new default one. *)
Theorem setProvider_twice_without_rpc_resets_client (h : gmap nat Toolkit.Context)
  (before : list Toolkit.Options) (o0 o1 o2 : Toolkit.Options) :
  Toolkit.rpc o1 = None ->
  Toolkit.rpc o2 = None ->
  (is_Some (Toolkit.rpc o0) ->
   Toolkit.toolkit_rpc (Toolkit.configured h ((before ++ [o0]) ++ [o1]))
   = Toolkit.toolkit_rpc (Toolkit.configured h (before ++ [o0])))
  /\ Toolkit.toolkit_rpc (Toolkit.configured h (((before ++ [o0]) ++ [o1]) ++ [o2]))
     = Some Toolkit.DefaultClient.
Proof.
  intros H1 H2. rewrite !configured_snoc.
  destruct (configured_context h before) as [c Hc].
  destruct (Toolkit.configured h before) as [h0 t]. cbn [fst snd] in Hc.
  destruct (setProvider_spec o0 h0 t c Hc) as (Hctx0 & Ho0 & Hcl0 & _ & Hl0).
  destruct (Toolkit.setProvider o0 (h0, t)) as [h' t']. cbn [fst snd] in *.
  rewrite <- Hctx0 in Hl0.
  destruct (setProvider_spec o1 h' t' _ Hl0) as (Hctx & Ho & Hcl & _ & Hl).
  destruct (Toolkit.setProvider o1 (h', t')) as [h1 t1]. cbn [fst snd] in *.
  rewrite H1 in Ho, Hl, Hcl. rewrite <- Hctx in Hl.
  destruct (setProvider_spec o2 h1 t1 _ Hl) as (Hctx2 & _ & _ & _ & Hl2).
  unfold Toolkit.toolkit_rpc. cbn [fst snd].
  rewrite Hctx2, Hl2, Hl, Hl0, H2, Ho. cbn.
  split; [| reflexivity].
  intros [r Hr]. rewrite Ho0, Hcl0, Hr. reflexivity.
Qed.

Lemma setProvider_twice_without_rpc_resets_client_witness :
  let with_rpc := {| Toolkit.rpc := Some (Toolkit.RpcUrl "https://node.example");
                     Toolkit.indexer := None; Toolkit.stream := None;
                     Toolkit.signer := None; Toolkit.protocol := None;
                     Toolkit.config := None |} in
  let with_signer := {| Toolkit.rpc := None; Toolkit.indexer := None;
                        Toolkit.stream := None;
                        Toolkit.signer := Some (Toolkit.SignerInstance 1);
                        Toolkit.protocol := None; Toolkit.config := None |} in
  let with_protocol := {| Toolkit.rpc := None; Toolkit.indexer := None;
                          Toolkit.stream := None; Toolkit.signer := None;
                          Toolkit.protocol := Some Protocols.PsBabyM1;
                          Toolkit.config := None |} in
  Toolkit.toolkit_rpc (Toolkit.configured ∅ [with_rpc; with_signer])
  = Some (Toolkit.ClientAt "https://node.example")
  /\ Toolkit.toolkit_rpc (Toolkit.configured ∅ [with_rpc; with_signer; with_protocol])
     = Some Toolkit.DefaultClient.
Proof.
  intros with_rpc with_signer with_protocol.
  destruct (setProvider_twice_without_rpc_resets_client ∅ [] with_rpc with_signer
              with_protocol eq_refl eq_refl) as [Hkeep Hreset].
  split; [| exact Hreset].
  etransitivity; [exact (Hkeep (mk_is_Some _ _ eq_refl)) | reflexivity].
Defined.

(** X9. A signer given to [setProvider] stays the signer of the toolkit
    through every later call that leaves [signer] out. *)
Theorem signer_kept_by_later_calls (h : gmap nat Toolkit.Context)
  (before after : list Toolkit.Options) (o : Toolkit.Options) (s : Toolkit.Signer) :
  Toolkit.signer o = Some s ->
  Forall (fun o' => Toolkit.signer o' = None) after ->
  Toolkit.toolkit_signer (Toolkit.configured h ((before ++ [o]) ++ after)) = Some s.
Proof.
  intros Ho Hafter.
  assert (H0 : Toolkit.toolkit_signer (Toolkit.configured h (before ++ [o])) = Some s
               /\ Toolkit._options_signer (snd (Toolkit.configured h (before ++ [o])))
                  = Some s).
  { rewrite configured_snoc.
    destruct (configured_context h before) as [c Hc].
    destruct (Toolkit.configured h before) as [h0 t]. cbn [fst snd] in Hc.
    destruct (setProvider_spec o h0 t c Hc) as (Hctx & _ & _ & Hs & Hl).
    unfold Toolkit.toolkit_signer. rewrite Hctx, Hl, Hs, Ho. cbn.
    destruct (Toolkit._options_signer t); split; reflexivity. }
  unfold Toolkit.configured in *. rewrite fold_left_app.
  revert H0. generalize (fold_left (fun st o0 => Toolkit.setProvider o0 st) (before ++ [o])
                           (Toolkit.newTezosToolkit h)).
  induction Hafter as [|o' after Ho' _ IH]; intros st [Hs Hopt]; [exact Hs |].
  cbn [fold_left]. apply IH.
  destruct st as [h0 t]. unfold Toolkit.toolkit_signer in Hs. cbn [fst snd] in Hs, Hopt.
  destruct (h0 !! Toolkit._context t) as [c|] eqn:Hc; [| discriminate].
  injection Hs as Hs.
  destruct (setProvider_spec o' h0 t c Hc) as (Hctx & _ & _ & Hs' & Hl).
  unfold Toolkit.toolkit_signer. rewrite Hctx, Hl, Hs', Hopt, Ho'. cbn.
  rewrite Hs. split; reflexivity.
Qed.

Lemma signer_kept_by_later_calls_witness :
  let with_signer := {| Toolkit.rpc := None; Toolkit.indexer := None;
                        Toolkit.stream := None;
                        Toolkit.signer := Some (Toolkit.SignerInstance 1);
                        Toolkit.protocol := None; Toolkit.config := None |} in
  let with_protocol := {| Toolkit.rpc := None; Toolkit.indexer := None;
                          Toolkit.stream := None; Toolkit.signer := None;
                          Toolkit.protocol := Some Protocols.PsBabyM1;
                          Toolkit.config := None |} in
  Toolkit.toolkit_signer
    (Toolkit.configured ∅ [with_signer; with_protocol; with_protocol])
  = Some (Toolkit.SignerInstance 1).
Proof.
  intros with_signer with_protocol.
  apply (signer_kept_by_later_calls ∅ [] [with_protocol; with_protocol] with_signer
           (Toolkit.SignerInstance 1) eq_refl).
  repeat constructor.
Defined.

(** X10. A clone of a context keeps the RPC client and the configuration the
    context had when it was cloned, also when the context is given another
    client afterwards; but the clone shares the forger and the injector of
    the context, so that with the default forger and injector the clone
    forges and injects through the client that the original context has at
    the time of the call. *)
Theorem clone_shares_forger_and_injector (h h' : gmap nat Toolkit.Context)
  (this copy : nat) (c : Toolkit.Context) (client : Toolkit.RpcClient) :
  h !! this = Some c ->
  Toolkit._forger c = Toolkit.RpcForger this ->
  Toolkit._injector c = Toolkit.RpcInjector this ->
  Toolkit.clone h this = Some (h', copy) ->
  let h'' := Toolkit.set_rpc this client h' in
  copy <> this
  /\ Toolkit._rpcClient <$> h'' !! copy = Some (Toolkit._rpcClient c)
  /\ Toolkit._config <$> h'' !! copy = Some (Toolkit._config c)
  /\ Toolkit.forgeTarget h'' copy = Some (Toolkit.ThroughRpc client)
  /\ Toolkit.injectTarget h'' copy = Some (Toolkit.ThroughRpc client).
Proof.
  intros Hc Hf Hi Hclone h''.
  unfold Toolkit.clone in Hclone. rewrite Hc in Hclone. cbn in Hclone.
  injection Hclone as <- <-.
  set (copy := fresh (dom h)).
  assert (Hne : copy <> this).
  { intros Heq. apply (is_fresh (dom h)). fold copy. rewrite Heq.
    apply elem_of_dom. eauto. }
  assert (Hcopy : h'' !! copy
                  = Some {| Toolkit._rpcClient := Toolkit._rpcClient c;
                            Toolkit._signer := Toolkit._signer c;
                            Toolkit._proto := Toolkit._proto c;
                            Toolkit._config := Toolkit._config c;
                            Toolkit._forger := Toolkit.RpcForger this;
                            Toolkit._injector := Toolkit.RpcInjector this |}).
  { unfold h'', Toolkit.set_rpc.
    rewrite lookup_alter_ne by (intros E; exact (Hne (eq_sym E))).
    rewrite lookup_insert_eq. rewrite Hf, Hi. do 2 f_equal.
    destruct (Toolkit._config c). reflexivity. }
  assert (Hthis : Toolkit._rpcClient <$> h'' !! this = Some client).
  { unfold h'', Toolkit.set_rpc. rewrite lookup_alter_eq.
    rewrite lookup_insert_ne by exact Hne. now rewrite Hc. }
  split; [exact Hne |].
  unfold Toolkit.forgeTarget, Toolkit.injectTarget. rewrite Hcopy. cbn.
  destruct (h'' !! this) as [c'|]; [| discriminate]. cbn in *.
  injection Hthis as ->. repeat split.
Qed.

Lemma clone_shares_forger_and_injector_witness :
  let '(h, this) := Toolkit.newContext ∅ (Some (Toolkit.ClientAt "https://old.example"))
                      None None None None None in
  exists h' copy,
    Toolkit.clone h this = Some (h', copy)
    /\ Toolkit._rpcClient <$> Toolkit.set_rpc this Toolkit.DefaultClient h' !! copy
       = Some (Toolkit.ClientAt "https://old.example")
    /\ Toolkit.injectTarget (Toolkit.set_rpc this Toolkit.DefaultClient h') copy
       = Some (Toolkit.ThroughRpc Toolkit.DefaultClient).
Proof.
  pose proof (newContext_lookup_new ∅ (Some (Toolkit.ClientAt "https://old.example"))
                None None None None None) as Hnew.
  destruct (Toolkit.newContext ∅ (Some (Toolkit.ClientAt "https://old.example"))
              None None None None None) as [h this].
  destruct (Toolkit.clone h this) as [[h' copy]|] eqn:Hclone.
  - exists h', copy. split; [reflexivity |].
    destruct (clone_shares_forger_and_injector h h' this copy _ Toolkit.DefaultClient
                Hnew eq_refl eq_refl Hclone) as (_ & Hr & _ & _ & Hi).
    split; [exact Hr | exact Hi].
  - unfold Toolkit.clone in Hclone. rewrite Hnew in Hclone. discriminate Hclone.
Defined.

(* ===================================================================== *)
(** ** More properties of the emitter *)
(* ===================================================================== *)

Lemma constructOp_obsolete (pkh : string) (p : bool) (cs cs' : gmap string Js.number)
  (op c : gmap string Js.value) (k : string) :
  k ∈ EmitterSpec.obsolete ->
  Emitter.constructOp pkh p cs op = inr (c, cs') ->
  if p then c !! k = None else Js.get c k = Js.get op k.
Proof.
  intros Hk. rewrite constructOp_stages. unfold Stages.constructOp.
  pose proof (feesAndCounter_spec pkh cs op (Stages.defaultSource pkh op)) as [Hget _].
  destruct (Stages.feesAndCounter pkh cs op (Stages.defaultSource pkh op)) as [c1 cs1].
  cbn [fst snd] in Hget.
  destruct (Stages.transactionChecks p op (Stages.balanceString op c1)) as [e|c2] eqn:Htx;
    [discriminate |].
  intros [= <- <-].
  unfold EmitterSpec.obsolete in Hk.
  destruct p.
  - unfold Stages.stripObsolete.
    apply elem_of_cons in Hk as [->|Hk];
      [now rewrite 2?lookup_delete_ne, lookup_delete_eq by discriminate |].
    apply elem_of_cons in Hk as [->|Hk];
      [now rewrite 1?lookup_delete_ne, lookup_delete_eq by discriminate |].
    apply elem_of_cons in Hk as [->|Hk]; [now rewrite lookup_delete_eq |].
    now apply elem_of_nil in Hk.
  - unfold Stages.stripObsolete.
    assert (Hne : k <> "amount" /\ k <> "balance" /\ k <> "fee" /\ k <> "gas_limit"
                  /\ k <> "storage_limit" /\ k <> "counter" /\ k <> "source").
    { repeat (apply elem_of_cons in Hk as [->|Hk]; [repeat split; discriminate |]).
      now apply elem_of_nil in Hk. }
    destruct Hne as (N1 & N2 & N3 & N4 & N5 & N6 & N7).
    rewrite (get_transactionChecks _ _ _ _ k Htx) by assumption.
    rewrite get_balanceString by assumption.
    rewrite Hget by assumption.
    now apply get_defaultSource.
Qed.

(** Each content built by [constructOps] is built by [constructOp] from the
    content at the same place. *)
Lemma constructOps_each (pkh : string) (p : bool)
  (ops contents : list (gmap string Js.value)) (cs cs' : gmap string Js.number) :
  Emitter.constructOps pkh p cs ops = inr (contents, cs') ->
  Forall2 (fun c op => exists cs1 cs2, Emitter.constructOp pkh p cs1 op = inr (c, cs2))
    contents ops.
Proof.
  revert contents cs cs'.
  induction ops as [|op ops IH]; intros contents cs cs' H; simpl in H.
  - injection H as <- <-. constructor.
  - destruct (Emitter.constructOp pkh p cs op) as [e|[c cs1]] eqn:Hop; [discriminate |].
    destruct (Emitter.constructOps pkh p cs1 ops) as [e|[cs2 cs3]] eqn:Hops; [discriminate |].
    injection H as <- <-. constructor; [eauto | eapply IH; eassumption].
Qed.

(** A successful [prepareOperation] builds its contents one by one from the
    contents given. *)
Lemma prepareOperation_each (ctx : Emitter.Context)
  (operation : Emitter.OperationParam) (source : option string)
  (log : list event) (out : Emitter.PreparedOperation) :
  Emitter.prepareOperation ctx operation source = (log, inr out) ->
  Forall2 (fun c op => exists cs1 cs2,
             Emitter.constructOp (Spec.resolvedSource ctx source) (Spec.active005 ctx) cs1 op
             = inr (c, cs2))
    (Emitter.contents (Emitter.prepared_opOb out))
    (EmitterSpec.given ctx operation source).
Proof.
  intros H. apply prepareOperation_inr in H as (_ & _ & cs' & H).
  exact (constructOps_each _ _ _ _ _ _ H).
Qed.

(** X11. From protocol 005 on, no content that leaves [prepareOperation]
    carries a [manager_pubkey], [spendable] or [delegatable] field, whatever
    the caller put in; on an earlier protocol these three fields come out as
    they went in. *)
Theorem prepared_contents_drop_obsolete_fields (ctx : Emitter.Context)
  (operation : Emitter.OperationParam) (source : option string)
  (log : list event) (out : Emitter.PreparedOperation) :
  Emitter.prepareOperation ctx operation source = (log, inr out) ->
  Forall2 (fun c op => forall k, k ∈ EmitterSpec.obsolete ->
             if Spec.active005 ctx then c !! k = None else Js.get c k = Js.get op k)
    (Emitter.contents (Emitter.prepared_opOb out))
    (EmitterSpec.given ctx operation source).
Proof.
  intros H. apply prepareOperation_each in H.
  eapply Forall2_impl; [exact H |].
  intros c op (cs1 & cs2 & Hop) k Hk.
  exact (constructOp_obsolete _ _ _ _ _ _ k Hk Hop).
Qed.

Lemma prepared_contents_drop_obsolete_fields_witness :
  let ctx := Sample.context "41" (Rpc.ManagerString "edpk") None (Rpc.ResultArray []) in
  let op := <["manager_pubkey" := Js.VString "tz1signer"]> (Sample.transfer "tz1dest") in
  exists log out,
    Emitter.prepareOperation ctx (Emitter.Single op) None = (log, inr out)
    /\ Forall2 (fun (c _ : gmap string Js.value) =>
                  forall k, k ∈ EmitterSpec.obsolete -> c !! k = None)
         (Emitter.contents (Emitter.prepared_opOb out)) [op].
Proof.
  intros ctx op. eexists _, _. split; [reflexivity |].
  exact (prepared_contents_drop_obsolete_fields ctx (Emitter.Single op) None _ _ eq_refl).
Defined.

Lemma get_feesAndCounter_fee (pkh : string) (cs : gmap string Js.number)
  (op c : gmap string Js.value) (k : string) :
  Emitter.isFeeOp op = true ->
  k ∈ EmitterSpec.feeFields ->
  Js.get (fst (Stages.feesAndCounter pkh cs op c)) k = EmitterSpec.asText (Js.get op k).
Proof.
  intros Hfee Hk. unfold Stages.feesAndCounter. rewrite Hfee. cbn [fst].
  unfold EmitterSpec.feeFields in Hk. unfold Emitter.stringOrZero, EmitterSpec.asText.
  repeat (apply elem_of_cons in Hk as [->|Hk];
          [repeat case_match; lookup_chain; reflexivity |]).
  now apply elem_of_nil in Hk.
Qed.

(** What [constructOp] does to the fields of a content that it constructs:
    the fee fields become text, the source of a source-bearing content is
    filled in, and the fields it has no business with are left alone. *)
Lemma constructOp_fields (pkh : string) (p : bool) (cs cs' : gmap string Js.number)
  (op c : gmap string Js.value) :
  Emitter.constructOp pkh p cs op = inr (c, cs') ->
  (Emitter.isFeeOp op = true ->
   forall k, k ∈ EmitterSpec.feeFields -> Js.get c k = EmitterSpec.asText (Js.get op k))
  /\ (Emitter.isSourceOp op = true -> Js.get c "source" = Spec.contentSource pkh op)
  /\ (forall k, k ∉ ["source"; "fee"; "gas_limit"; "storage_limit"; "counter"; "balance";
                     "amount"; "manager_pubkey"; "spendable"; "delegatable"] ->
                Js.get c k = Js.get op k).
Proof.
  rewrite constructOp_stages. unfold Stages.constructOp.
  pose proof (feesAndCounter_spec pkh cs op (Stages.defaultSource pkh op)) as [Hget _].
  pose proof (get_feesAndCounter_fee pkh cs op (Stages.defaultSource pkh op)) as Hfees.
  pose proof (get_source_before_checks pkh cs op) as Hsrc.
  destruct (Stages.feesAndCounter pkh cs op (Stages.defaultSource pkh op)) as [c1 cs1].
  cbn [fst snd] in Hget, Hfees, Hsrc.
  destruct (Stages.transactionChecks p op (Stages.balanceString op c1)) as [e|c2] eqn:Htx;
    [discriminate |].
  intros [= <- <-].
  assert (Hthrough : forall k, k <> "amount" -> k <> "balance" ->
            k <> "manager_pubkey" -> k <> "spendable" -> k <> "delegatable" ->
            Js.get (Stages.stripObsolete p c2) k = Js.get c1 k).
  { intros k H1 H2 H3 H4 H5.
    rewrite get_stripObsolete by assumption.
    rewrite (get_transactionChecks _ _ _ _ k Htx) by assumption.
    now apply get_balanceString. }
  split; [| split].
  - intros Hfee k Hk. rewrite <- (Hfees k Hfee Hk).
    unfold EmitterSpec.feeFields in Hk.
    repeat (apply elem_of_cons in Hk as [->|Hk]; [apply Hthrough; discriminate |]).
    now apply elem_of_nil in Hk.
  - intros Hs. rewrite get_stripObsolete by discriminate.
    rewrite (get_transactionChecks _ _ _ _ "source" Htx) by discriminate.
    exact (Hsrc Hs).
  - intros k Hk. rewrite !not_elem_of_cons in Hk.
    destruct Hk as (N1 & N2 & N3 & N4 & N5 & N6 & N7 & N8 & N9 & N10 & _).
    rewrite Hthrough by assumption. rewrite Hget by assumption.
    now apply get_defaultSource.
Qed.

(** X12. Every content that bears a fee (reveal, transaction, origination,
    delegation) leaves [prepareOperation] with its fee, gas limit and
    storage limit as text: the decimal text of the number that was given,
    and ['0'] for a field that was left out. *)
Theorem prepared_fee_fields_are_text (ctx : Emitter.Context)
  (operation : Emitter.OperationParam) (source : option string)
  (log : list event) (out : Emitter.PreparedOperation) :
  Emitter.prepareOperation ctx operation source = (log, inr out) ->
  Forall2 (fun c op => Emitter.isFeeOp op = true ->
             forall k, k ∈ EmitterSpec.feeFields ->
                       Js.get c k = EmitterSpec.asText (Js.get op k))
    (Emitter.contents (Emitter.prepared_opOb out))
    (EmitterSpec.given ctx operation source).
Proof.
  intros H. apply prepareOperation_each in H.
  eapply Forall2_impl; [exact H |].
  intros c op (cs1 & cs2 & Hop).
  exact (proj1 (constructOp_fields _ _ _ _ _ _ Hop)).
Qed.

Lemma prepared_fee_fields_are_text_witness :
  let ctx := Sample.context "41" (Rpc.ManagerString "edpk") None (Rpc.ResultArray []) in
  exists log out,
    Emitter.prepareOperation ctx (Emitter.Single Sample.delegation) None = (log, inr out)
    /\ Forall2 (fun (c op : gmap string Js.value) =>
                  Emitter.isFeeOp op = true ->
                  forall k, k ∈ EmitterSpec.feeFields ->
                            Js.get c k = EmitterSpec.asText (Js.get op k))
         (Emitter.contents (Emitter.prepared_opOb out)) [Sample.delegation].
Proof.
  intros ctx. eexists _, _. split; [reflexivity |].
  exact (prepared_fee_fields_are_text ctx (Emitter.Single Sample.delegation) None _ _
           eq_refl).
Defined.

(** X13. [signAndInject] asks the signer for a signature of the forged
    bytes, has the operation preapplied, and then either fails, in which
    case nothing is injected, or calls the injector once, last, with the
    bytes the signer returned; the handle data then hold the injector's
    hash, those bytes, the signer's prefixed signature, and the contents,
    branch and protocol as they were forged. *)
Theorem signAndInject_injects_signed_bytes (ctx : Emitter.Context)
  (forgedBytes : Emitter.ForgedBytes) :
  let signed := Emitter.sign ctx (Emitter.opbytes forgedBytes) in
  (exists e,
     Emitter.signAndInject ctx forgedBytes
     = ([SignerSign (Emitter.opbytes forgedBytes); RpcPreapplyOperations], inl e))
  \/ (exists opResponse,
        Emitter.signAndInject ctx forgedBytes
        = ([SignerSign (Emitter.opbytes forgedBytes); RpcPreapplyOperations;
            InjectorInject (Emitter.sbytes signed)],
           inr {| Emitter.injected_hash := Emitter.injector_inject ctx (Emitter.sbytes signed);
                  Emitter.injected_forgedBytes :=
                    {| Emitter.opbytes := Emitter.sbytes signed;
                       Emitter.opOb :=
                         {| Emitter.branch := Emitter.branch (Emitter.opOb forgedBytes);
                            Emitter.contents := Emitter.contents (Emitter.opOb forgedBytes);
                            Emitter.protocol := Emitter.protocol (Emitter.opOb forgedBytes);
                            Emitter.signature := Some (Emitter.prefixSig signed) |};
                       Emitter.counter := Emitter.counter forgedBytes |};
                  Emitter.injected_opResponse := opResponse |})).
Proof.
  intros signed. unfold Emitter.signAndInject, Emitter.inject. fold signed.
  unfold_M. cbn.
  destruct (Emitter.preapplyOperations ctx _) as [json|results].
  - left. eexists. reflexivity.
  - destruct (Emitter.scanResults results [] []) as [opResponse [|err errors]].
    + right. eexists. reflexivity.
    + left. eexists. reflexivity.
Qed.

(* ===================================================================== *)
(** ** Unit conversion *)
(* ===================================================================== *)

Lemma normalize_shift (c : Z) (k n : nat) :
  Format.normalize (c * 10 ^ Z.of_nat n) (n + k) = Format.normalize c k.
Proof.
  induction n as [|n IH].
  - simpl. now rewrite Z.mul_1_r.
  - cbn [Nat.add Format.normalize].
    replace (c * 10 ^ Z.of_nat (S n)) with (c * 10 ^ Z.of_nat n * 10)
      by (rewrite Nat2Z.inj_succ, Z.pow_succ_r by lia; ring).
    rewrite Z_mod_mult, Z.eqb_refl, Z_div_mult by lia. exact IH.
Qed.

(** X14. Converting an amount from one unit to another and back prints the
    amount that was given, for the units [tz], [mtz] and [mutez] (any other
    unit name counts as [mutez]) and for every amount whose conversion stays
    within the 20 decimal places that the arithmetic keeps; a value that is
    not a number is handed back untouched by both conversions. *)
Theorem format_there_and_back (from to : string) (amount : Format.Amount) :
  match amount with
  | Format.Decimal c k => (k + Format.getDecimal to <= 20)%nat
  | Format.NotANumber _ => True
  end ->
  Format.toString (Format.format to from (Format.format from to amount))
  = Format.toString amount.
Proof.
  destruct amount as [c k | raw]; [| reflexivity].
  intros _. unfold Format.format, Format.toString.
  replace (c * 10 ^ Z.of_nat (Format.getDecimal from) * 10 ^ Z.of_nat (Format.getDecimal to))
    with (c * 10 ^ Z.of_nat (Format.getDecimal from + Format.getDecimal to))
    by (rewrite Nat2Z.inj_add, Z.pow_add_r by lia; ring).
  replace (k + Format.getDecimal to + Format.getDecimal from)%nat
    with ((Format.getDecimal from + Format.getDecimal to) + k)%nat by lia.
  now rewrite normalize_shift.
Qed.

Lemma format_there_and_back_witness :
  Format.toString (Format.format "tz" "mutez"
                     (Format.format "mutez" "tz" (Format.Decimal 1500000 0)))
  = "1500000"
  /\ Format.toString (Format.format "mutez" "tz" (Format.Decimal 1500000 0)) = "1.5".
Proof.
  split; [| reflexivity].
  apply (format_there_and_back "mutez" "tz" (Format.Decimal 1500000 0)).
  unfold Format.getDecimal, Format.TZ_DECIMALS. simpl. lia.
Defined.

(* ===================================================================== *)
(** ** Properties of the providers *)
(* ===================================================================== *)

Ltac unfold_Task :=
  unfold mbind, Provider.Task_bind, mret, Provider.Task_ret, Provider.ask,
    Provider.fail, Provider.lift in *.

Lemma Task_bind_inr {A B : Type} (m : Provider.Task A) (f : A -> Provider.Task B)
  (log : list Provider.request) (b : B) :
  m ≫= f = (log, inr b) ->
  exists l1 a l2, m = (l1, inr a) /\ f a = (l2, inr b) /\ log = (l1 ++ l2)%list.
Proof.
  unfold mbind, Provider.Task_bind. destruct m as [l1 [e|a]]; [discriminate |].
  destruct (f a) as [l2 r] eqn:Hf. intros [= <- ->]. eauto 6.
Qed.

Lemma lift_inr {A : Type} (m : M A) (log : list Provider.request) (a : A) :
  Provider.lift m = (log, inr a) ->
  exists l, m = (l, inr a) /\ log = Provider.Emitted <$> l.
Proof.
  unfold Provider.lift. destruct m as [l [e|a']]; cbn; [discriminate |].
  intros [= <- ->]. eauto.
Qed.

Lemma prepareAndForge_inr (ctx : Emitter.Context) (operation : Emitter.OperationParam)
  (source : option string) (log : list event) (fb : Emitter.ForgedBytes) :
  Emitter.prepareAndForge ctx operation source = (log, inr fb) ->
  exists out,
    Emitter.prepareOperation ctx operation source
    = (Spec.prepareLog ctx source (Spec.inputOps operation), inr out)
    /\ log = (Spec.prepareLog ctx source (Spec.inputOps operation) ++ [ForgerForge])%list
    /\ fb = {| Emitter.opbytes :=
                 Emitter.forger_forge ctx (Emitter.branch (Emitter.prepared_opOb out))
                   (Emitter.contents (Emitter.prepared_opOb out));
               Emitter.opOb :=
                 {| Emitter.branch := Emitter.branch (Emitter.prepared_opOb out);
                    Emitter.contents := Emitter.contents (Emitter.prepared_opOb out);
                    Emitter.protocol := Emitter.protocol (Emitter.prepared_opOb out);
                    Emitter.signature := None |};
               Emitter.counter := Emitter.prepared_counter out |}.
Proof.
  unfold Emitter.prepareAndForge, Emitter.forge. unfold_M.
  destruct (Emitter.prepareOperation ctx operation source) as [l [e|out]] eqn:Hp;
    [discriminate |].
  cbn. intros [= <- <-].
  pose proof (prepareOperation_inr _ _ _ _ _ Hp) as (-> & _).
  eauto.
Qed.

Lemma signAndInject_inr (ctx : Emitter.Context) (fb : Emitter.ForgedBytes)
  (log : list event) (inj : Emitter.Injected) :
  Emitter.signAndInject ctx fb = (log, inr inj) ->
  Emitter.contents (Emitter.opOb (Emitter.injected_forgedBytes inj))
  = Emitter.contents (Emitter.opOb fb).
Proof.
  unfold Emitter.signAndInject, Emitter.inject. unfold_M. cbn.
  destruct (Emitter.preapplyOperations ctx _) as [json|results]; [discriminate |].
  destruct (Emitter.scanResults results [] []) as [opResponse [|err errors]];
    [| discriminate].
  intros [= _ <-]. reflexivity.
Qed.

Lemma Forall2_last {A B : Type} (P : A -> B -> Prop) (l1 : list A) (l2 : list B) (y : B) :
  Forall2 P l1 l2 -> last l2 = Some y -> exists x, last l1 = Some x /\ P x y.
Proof.
  induction 1 as [|a b l1 l2 Hab Hl IH]; [discriminate |].
  inversion Hl as [|a' b' l1' l2' Hab' Hl' E1 E2]; subst.
  - cbn. intros [= <-]. eauto.
  - intros Hy. change (last (b' :: l2') = Some y) in Hy.
    change (last (a :: a' :: l1')) with (last (a' :: l1')). auto.
Qed.

Lemma last_given (ctx : Emitter.Context) (op : gmap string Js.value)
  (source : option string) :
  last (EmitterSpec.given ctx (Emitter.Single op) source) = Some op.
Proof.
  unfold EmitterSpec.given. cbn [Spec.inputOps].
  destruct (Spec.needsReveal _ _ _); reflexivity.
Qed.

(** The content that a provider builds, as the last content of what its
    pipeline injects. *)
Lemma pipeline_last_content (ctx : Emitter.Context) (op : gmap string Js.value)
  (source : option string) (l3 l4 : list Provider.request) (fb : Emitter.ForgedBytes)
  (inj : Emitter.Injected) :
  Provider.lift (Emitter.prepareAndForge ctx (Emitter.Single op) source) = (l3, inr fb) ->
  Provider.lift (Emitter.signAndInject ctx fb) = (l4, inr inj) ->
  exists c cs1 cs2,
    last (Emitter.contents (Emitter.opOb (Emitter.injected_forgedBytes inj))) = Some c
    /\ Emitter.constructOp (Spec.resolvedSource ctx source) (Spec.active005 ctx) cs1 op
       = inr (c, cs2).
Proof.
  intros Hpf Hsi.
  apply lift_inr in Hpf as (l3' & Hpf & _).
  apply lift_inr in Hsi as (l4' & Hsi & _).
  apply signAndInject_inr in Hsi. rewrite Hsi.
  apply prepareAndForge_inr in Hpf as (out & Hprep & _ & ->).
  cbn [Emitter.opOb Emitter.contents].
  apply prepareOperation_each in Hprep.
  destruct (Forall2_last _ _ _ _ Hprep (last_given ctx op source))
    as (c & Hlast & cs1 & cs2 & Hc).
  eauto 6.
Qed.

Lemma estimate_inr (fee gasLimit storageLimit : option Z)
  (estimator : Provider.Task Provider.Estimation)
  (log : list Provider.request) (limits : Provider.Limits) :
  Provider.estimate fee gasLimit storageLimit estimator = (log, inr limits) ->
  ProviderSpec.chosen fee Provider.suggestedFeeMutez estimator
  = Some (Provider.limits_fee limits)
  /\ ProviderSpec.chosen gasLimit Provider.estimated_gasLimit estimator
     = Some (Provider.limits_gasLimit limits)
  /\ ProviderSpec.chosen storageLimit Provider.estimated_storageLimit estimator
     = Some (Provider.limits_storageLimit limits).
Proof.
  unfold Provider.estimate, ProviderSpec.chosen. unfold_Task.
  destruct estimator as [l [e|est]]; cbn;
    destruct fee, gasLimit, storageLimit; cbn; intros [= <- <-]; repeat split.
Qed.

Lemma get_createTransferOperation (sexp2mic : string -> string)
  (params : Prepare.TransferParams) :
  let op := Prepare.createTransferOperation sexp2mic params in
  Js.get op "kind" = Js.VString "transaction"
  /\ Js.get op "destination" = Js.VString (Prepare.to params)
  /\ Js.get op "fee"
     = Js.VNumber (Js.Num (default DEFAULT_FEE.TRANSFER (Prepare.fee params)))
  /\ Js.get op "gas_limit"
     = Js.VNumber (Js.Num (default DEFAULT_GAS_LIMIT.TRANSFER (Prepare.gasLimit params)))
  /\ Js.get op "storage_limit"
     = Js.VNumber (Js.Num (default DEFAULT_STORAGE_LIMIT.TRANSFER
                             (Prepare.storageLimit params))).
Proof.
  unfold Prepare.createTransferOperation.
  destruct (Prepare.parameter params) as [p|]; [destruct (Prepare.truthy_parameter p) |];
    repeat split; lookup_chain; reflexivity.
Qed.

Lemma isFeeOp_kind (op : gmap string Js.value) (k : string) :
  Js.get op "kind" = Js.VString k ->
  k ∈ ["reveal"; "transaction"; "origination"; "delegation"] ->
  Emitter.isFeeOp op = true.
Proof.
  intros Hk Hin. unfold Emitter.isFeeOp. rewrite Hk. cbn.
  now apply bool_decide_eq_true.
Qed.

Lemma isSourceOp_kind (op : gmap string Js.value) (k : string) :
  Js.get op "kind" = Js.VString k ->
  k ∈ ["transaction"; "origination"; "delegation"] ->
  Emitter.isSourceOp op = true.
Proof.
  intros Hk Hin. unfold Emitter.isSourceOp. rewrite Hk. cbn.
  now apply bool_decide_eq_true.
Qed.

(** X15. The transaction that [transfer] injects carries, as fee, gas limit
    and storage limit, the figures the caller gave and, for those left out,
    the suggested fee, the gas limit and the storage limit of the
    estimator's answer, as decimal text; it goes to the destination
    given. *)
Theorem transfer_carries_chosen_limits (sexp2mic : string -> string)
  (ctx : Emitter.Context) (estimator : Provider.EstimationProvider)
  (params : Prepare.TransferParams) (source : option string)
  (log : list Provider.request) (h : Provider.OperationHandle) :
  Provider.transfer sexp2mic ctx estimator params source = (log, inr h) ->
  let answer := Provider.estimate_transfer estimator params source in
  exists c,
    last (Emitter.contents (Emitter.opOb (Provider.raw h))) = Some c
    /\ Js.get c "kind" = Js.VString "transaction"
    /\ Js.get c "destination" = Js.VString (Prepare.to params)
    /\ Some (Js.get c "fee")
       = ProviderSpec.text <$>
           ProviderSpec.chosen (Prepare.fee params) Provider.suggestedFeeMutez answer
    /\ Some (Js.get c "gas_limit")
       = ProviderSpec.text <$>
           ProviderSpec.chosen (Prepare.gasLimit params) Provider.estimated_gasLimit answer
    /\ Some (Js.get c "storage_limit")
       = ProviderSpec.text <$>
           ProviderSpec.chosen (Prepare.storageLimit params)
             Provider.estimated_storageLimit answer.
Proof.
  intros H answer. unfold Provider.transfer in H.
  apply Task_bind_inr in H as (l1 & limits & l1' & Hest & H & _).
  apply Task_bind_inr in H as (l2 & src & l2' & _ & H & _).
  apply Task_bind_inr in H as (l3 & fb & l3' & Hpf & H & _).
  apply Task_bind_inr in H as (l4 & inj & l4' & Hsi & H & _).
  injection H as _ <-. cbn [Provider.handle Provider.raw].
  destruct (pipeline_last_content _ _ _ _ _ _ _ Hpf Hsi) as (c & cs1 & cs2 & Hlast & Hc).
  apply estimate_inr in Hest as (Hf & Hg & Hs). fold answer in Hf, Hg, Hs.
  rewrite Hf, Hg, Hs.
  destruct (get_createTransferOperation sexp2mic (Provider.withLimits params limits))
    as (Hkind & Hdest & Hfee & Hgas & Hsto).
  destruct (constructOp_fields _ _ _ _ _ _ Hc) as (Hfees & _ & Hother).
  specialize (Hfees (isFeeOp_kind _ _ Hkind ltac:(repeat constructor))).
  exists c. split; [exact Hlast |].
  split; [rewrite (proj1 (constructOp_inr _ _ _ _ _ _ Hc)); exact Hkind |].
  split.
  { rewrite Hother; [exact Hdest |].
    rewrite !not_elem_of_cons. repeat split; try discriminate. apply not_elem_of_nil. }
  repeat split; cbn [fmap option_fmap option_map]; f_equal.
  - rewrite (Hfees "fee") by repeat constructor. now rewrite Hfee.
  - rewrite (Hfees "gas_limit") by repeat constructor. now rewrite Hgas.
  - rewrite (Hfees "storage_limit") by repeat constructor. now rewrite Hsto.
Qed.

Lemma transfer_carries_chosen_limits_witness :
  let ctx := Sample.context "41" (Rpc.ManagerString "edpk") None (Rpc.ResultArray []) in
  match Provider.transfer (fun sexp => sexp) ctx Fixture.estimator
          (Fixture.transfer_with_fee "tz1dest" 2000) None with
  | (_, inr h) =>
      exists c,
        last (Emitter.contents (Emitter.opOb (Provider.raw h))) = Some c
        /\ Some (Js.get c "fee") = Some (Js.VString "2000")
        /\ Some (Js.get c "gas_limit") = Some (Js.VString "10307")
  | (_, inl _) => False
  end.
Proof.
  intros ctx.
  destruct (Provider.transfer (fun sexp => sexp) ctx Fixture.estimator
              (Fixture.transfer_with_fee "tz1dest" 2000) None) as [log [e|h]] eqn:E.
  - discriminate E.
  - destruct (transfer_carries_chosen_limits _ _ _ _ _ _ _ E)
      as (c & Hlast & _ & _ & Hfee & Hgas & _).
    exists c. split; [exact Hlast |]. split; [exact Hfee | exact Hgas].
Defined.

(** X16. When the caller gives the fee, the gas limit and the storage limit,
    [transfer], [setDelegate] and [registerDelegate] make no use of the
    estimator: with any two estimators they make the same calls and end the
    same way. *)
Theorem given_limits_need_no_estimate (sexp2mic : string -> string)
  (ctx : Emitter.Context) (e1 e2 : Provider.EstimationProvider)
  (limits : Provider.Limits) (params : Prepare.TransferParams) (source : option string)
  (delegate delegation_source : option string) :
  let fee := Some (Provider.limits_fee limits) in
  let gasLimit := Some (Provider.limits_gasLimit limits) in
  let storageLimit := Some (Provider.limits_storageLimit limits) in
  let transferParams := Provider.withLimits params limits in
  let delegateParams :=
    {| Provider.delegate := delegate; Provider.source := delegation_source;
       Provider.fee := fee; Provider.gasLimit := gasLimit;
       Provider.storageLimit := storageLimit |} in
  let registerParams :=
    {| Provider.register_fee := fee; Provider.register_gasLimit := gasLimit;
       Provider.register_storageLimit := storageLimit |} in
  Provider.transfer sexp2mic ctx e1 transferParams source
  = Provider.transfer sexp2mic ctx e2 transferParams source
  /\ Provider.setDelegate ctx e1 delegateParams = Provider.setDelegate ctx e2 delegateParams
  /\ Provider.registerDelegate ctx e1 registerParams
     = Provider.registerDelegate ctx e2 registerParams.
Proof. repeat split. Qed.

Lemma lift_isAnyProtocolActive (ctx : Emitter.Context) (md : Rpc.BlockMetadata) :
  Emitter.getBlockMetadata ctx = Some md ->
  Provider.lift (Emitter.isAnyProtocolActive ctx protocols_005)
  = (ProviderSpec.protocolLog ctx, inr (Spec.active005 ctx)).
Proof.
  intros Hmd. rewrite (isAnyProtocolActive_spec ctx md Hmd).
  unfold Provider.lift, ProviderSpec.protocolLog. cbn.
  destruct (Js.truthy_opt_string (Emitter._proto ctx)); reflexivity.
Qed.

(** X17. From protocol 005 on, [setDelegate] refuses every source whose
    text holds [kt1], in any case and at any position, not only an address
    that starts with [KT1]: it throws [InvalidDelegationSource] with that
    source as soon as the protocol is known, before it estimates, forges,
    signs or injects anything. *)
Theorem setDelegate_refuses_kt1_source (ctx : Emitter.Context)
  (estimator : Provider.EstimationProvider) (params : Provider.DelegateParams)
  (md : Rpc.BlockMetadata) (s : string) :
  Emitter.getBlockMetadata ctx = Some md ->
  Spec.active005 ctx = true ->
  Provider.source params = Some s ->
  Provider.includes "kt1" (Js.toLowerCase s) = true ->
  Provider.setDelegate ctx estimator params
  = (ProviderSpec.protocolLog ctx, inl (Provider.InvalidDelegationSource (Some s))).
Proof.
  intros Hmd Hact Hs Hkt. unfold Provider.setDelegate.
  rewrite (lift_isAnyProtocolActive ctx md Hmd), Hact.
  unfold mbind, Provider.Task_bind. unfold Provider.test_kt1. rewrite Hs. cbn [default id].
  rewrite Hkt. cbn. now rewrite app_nil_r.
Qed.

Lemma setDelegate_refuses_kt1_source_witness :
  let ctx := Sample.context "41" (Rpc.ManagerString "edpk") None (Rpc.ResultArray []) in
  Provider.setDelegate ctx Fixture.estimator
    {| Provider.delegate := Some "tz1baker"; Provider.source := Some "tz1ownerKt1xyz";
       Provider.fee := None; Provider.gasLimit := None; Provider.storageLimit := None |}
  = ([Provider.Emitted RpcGetBlockMetadata],
     inl (Provider.InvalidDelegationSource (Some "tz1ownerKt1xyz"))).
Proof.
  intros ctx.
  exact (setDelegate_refuses_kt1_source ctx Fixture.estimator
           {| Provider.delegate := Some "tz1baker"; Provider.source := Some "tz1ownerKt1xyz";
              Provider.fee := None; Provider.gasLimit := None;
              Provider.storageLimit := None |}
           _ "tz1ownerKt1xyz" eq_refl eq_refl eq_refl eq_refl).
Defined.

(** X18. The delegation that [registerDelegate] injects names the signer's
    public key hash both as its source and as its delegate, and the handle
    reports that hash as its source. *)
Theorem registerDelegate_delegates_to_self (ctx : Emitter.Context)
  (estimator : Provider.EstimationProvider) (params : Provider.RegisterDelegateParams)
  (log : list Provider.request) (h : Provider.OperationHandle) :
  Provider.registerDelegate ctx estimator params = (log, inr h) ->
  let pkh := Emitter.publicKeyHash ctx in
  exists c,
    last (Emitter.contents (Emitter.opOb (Provider.raw h))) = Some c
    /\ Js.get c "kind" = Js.VString "delegation"
    /\ Js.get c "source" = Js.VString pkh
    /\ Js.get c "delegate" = Js.VString pkh
    /\ Provider.handle_source h = pkh.
Proof.
  intros H pkh. unfold Provider.registerDelegate in H.
  apply Task_bind_inr in H as (l1 & limits & l1' & Hest & H & _).
  apply Task_bind_inr in H as (l2 & [] & l2' & _ & H & _).
  apply Task_bind_inr in H as (l3 & fb & l3' & Hpf & H & _).
  apply Task_bind_inr in H as (l4 & inj & l4' & Hsi & H & _).
  injection H as _ <-. cbn [Provider.handle Provider.raw Provider.handle_source].
  destruct (pipeline_last_content _ _ _ _ _ _ _ Hpf Hsi) as (c & cs1 & cs2 & Hlast & Hc).
  set (op := Provider.createRegisterDelegateOperation _ _) in Hc.
  assert (Hkind : Js.get op "kind" = Js.VString "delegation") by reflexivity.
  destruct (constructOp_fields _ _ _ _ _ _ Hc) as (_ & Hsrc & Hother).
  exists c. split; [exact Hlast |].
  split; [rewrite (proj1 (constructOp_inr _ _ _ _ _ _ Hc)); exact Hkind |].
  split; [| split; [| reflexivity]].
  - rewrite (Hsrc (isSourceOp_kind _ _ Hkind ltac:(repeat constructor))). reflexivity.
  - rewrite Hother; [reflexivity |].
    rewrite !not_elem_of_cons. repeat split; try discriminate. apply not_elem_of_nil.
Qed.

Lemma registerDelegate_delegates_to_self_witness :
  let ctx := Sample.context "41" (Rpc.ManagerString "edpk") None (Rpc.ResultArray []) in
  match Provider.registerDelegate ctx Fixture.estimator
          {| Provider.register_fee := None; Provider.register_gasLimit := None;
             Provider.register_storageLimit := None |} with
  | (_, inr h) =>
      exists c,
        last (Emitter.contents (Emitter.opOb (Provider.raw h))) = Some c
        /\ Js.get c "source" = Js.VString "tz1signer"
        /\ Js.get c "delegate" = Js.VString "tz1signer"
  | (_, inl _) => False
  end.
Proof.
  intros ctx.
  destruct (Provider.registerDelegate ctx Fixture.estimator
              {| Provider.register_fee := None; Provider.register_gasLimit := None;
                 Provider.register_storageLimit := None |}) as [log [e|h]] eqn:E.
  - discriminate E.
  - destruct (registerDelegate_delegates_to_self _ _ _ _ _ E)
      as (c & Hlast & _ & Hsrc & Hdel & _).
    exists c. split; [exact Hlast |]. split; [exact Hsrc | exact Hdel].
Defined.

(** X19. [originate] refuses parameters that give both [storage] and [init]:
    once the limits are settled and the signer has told its public key
    hash, it throws, without having asked the node for the head, forged,
    signed or injected anything. *)
Theorem originate_refuses_storage_with_init (ml2mic sexp2mic : string -> string)
  (encode : string -> string -> string) (script : string -> option string -> string)
  (ctx : Emitter.Context)
  (estimate_originate : Provider.OriginateParams -> Provider.Task Provider.Estimation)
  (params : Provider.OriginateParams) :
  is_Some (Provider.storage params) ->
  is_Some (Provider.init params) ->
  Provider.originate ml2mic sexp2mic encode script ctx estimate_originate params
  = match Provider.estimate (Provider.originate_fee params)
            (Provider.originate_gasLimit params) (Provider.originate_storageLimit params)
            (estimate_originate params) with
    | (l, inl e) => (l, inl e)
    | (l, inr _) =>
        ((l ++ [Provider.Emitted SignerPublicKeyHash])%list,
         inl (Provider.Thrown (Error "Storage and Init cannot be set a the same time. Please either use storage or init but not both.")))
    end.
Proof.
  intros Hs Hi. unfold Provider.originate, Provider.createOriginationOperation.
  cbn [Provider.storage Provider.init].
  rewrite !bool_decide_eq_true_2 by assumption. cbn [andb].
  destruct (Provider.estimate _ _ _ _) as [l [e|limits]]; reflexivity.
Qed.

Lemma originate_refuses_storage_with_init_witness :
  let ctx := Sample.context "41" (Rpc.ManagerString "edpk") None (Rpc.ResultArray []) in
  Provider.originate (fun x => x) (fun x => x) (fun _ st => st)
    (fun code _ => code) ctx (fun _ => ([], inr Fixture.estimation))
    Fixture.origination_with_storage_and_init
  = ([Provider.Emitted SignerPublicKeyHash],
     inl (Provider.Thrown (Error "Storage and Init cannot be set a the same time. Please either use storage or init but not both."))).
Proof.
  intros ctx.
  exact (originate_refuses_storage_with_init _ _ _ _ ctx _
           Fixture.origination_with_storage_and_init
           (mk_is_Some _ _ eq_refl) (mk_is_Some _ _ eq_refl)).
Defined.

(** *** Estimation and activation *)

Lemma Task_bind_log {A B : Type} (P : Provider.request -> Prop)
  (m : Provider.Task A) (f : A -> Provider.Task B) :
  Forall P (fst m) -> (forall a, Forall P (fst (f a))) -> Forall P (fst (m ≫= f)).
Proof.
  intros Hm Hf. unfold mbind, Provider.Task_bind.
  destruct m as [l [e|a]]; [exact Hm |].
  specialize (Hf a). destruct (f a) as [l' r]. cbn in *.
  apply Forall_app. split; assumption.
Qed.

Lemma M_bind_log {A B : Type} (P : event -> Prop) (m : M A) (f : A -> M B) :
  Forall P (fst m) -> (forall a, Forall P (fst (f a))) -> Forall P (fst (m ≫= f)).
Proof.
  intros Hm Hf. unfold mbind, M_bind.
  destruct m as [l [e|a]]; [exact Hm |].
  specialize (Hf a). destruct (f a) as [l' r]. cbn in *.
  apply Forall_app. split; assumption.
Qed.

Lemma lift_log {A : Type} (P : Provider.request -> Prop) (m : M A) :
  Forall (fun ev => P (Provider.Emitted ev)) (fst m) -> Forall P (fst (Provider.lift m)).
Proof. intros H. unfold Provider.lift. cbn. now apply Forall_fmap. Qed.

Lemma query_commits (ev : event) :
  Spec.is_query ev = true -> ProviderSpec.commits (Provider.Emitted ev) = false.
Proof. now destruct ev. Qed.

Lemma prepareAndForge_commits (ctx : Emitter.Context) (operation : Emitter.OperationParam)
  (source : option string) :
  Forall (fun ev => ProviderSpec.commits (Provider.Emitted ev) = false)
    (fst (Emitter.prepareAndForge ctx operation source)).
Proof.
  unfold Emitter.prepareAndForge. apply M_bind_log.
  - eapply Forall_impl; [| exact query_commits].
    rewrite prepareOperation_unfold. cbv zeta.
    destruct (Emitter.getBlockHeader ctx); [| apply fetchLog_queries].
    destruct (Emitter.getBlockMetadata ctx); [| apply fetchLog_queries].
    destruct (Emitter.constructOps _ _ _ _) as [e|[contents cs]]; apply prepareLog_queries.
  - intros prepared. repeat constructor.
Qed.

Lemma isAnyProtocolActive_commits (ctx : Emitter.Context) :
  Forall (fun ev => ProviderSpec.commits (Provider.Emitted ev) = false)
    (fst (Emitter.isAnyProtocolActive ctx protocols_005)).
Proof.
  unfold Emitter.isAnyProtocolActive.
  destruct (Emitter._proto ctx) as [p|]; [destruct (Js.truthy_string p) |];
    destruct (Emitter.getBlockMetadata ctx); repeat constructor.
Qed.

Lemma sourceOrSigner_commits (ctx : Emitter.Context) (source : option string) :
  Forall (fun r => ProviderSpec.commits r = false) (fst (Provider.sourceOrSigner ctx source)).
Proof.
  unfold Provider.sourceOrSigner.
  destruct source as [s|]; [destruct (Js.truthy_string s) |]; repeat constructor.
Qed.

Lemma createEstimate_commits (Number : string -> Js.number) (node : Provider.Node)
  (operation : Emitter.OperationParam) (source : option string) (kind : string)
  (defaultStorage : Z) (minimumGas : option Z) :
  Forall (fun r => ProviderSpec.commits r = false)
    (fst (Provider.createEstimate Number node operation source kind defaultStorage
            minimumGas)).
Proof.
  unfold Provider.createEstimate.
  apply Task_bind_log; [apply lift_log, prepareAndForge_commits |]. intros forged.
  apply Task_bind_log; [apply lift_log, isAnyProtocolActive_commits |]. intros proto005.
  apply Task_bind_log; [destruct proto005; repeat constructor |]. intros op.
  apply Task_bind_log; [repeat constructor |]. intros [].
  destruct (Provider.totals _ _). constructor.
Qed.

(** X20. Estimating a transfer, a delegation or a registration as delegate
    commits to nothing: whatever the node and the signer answer, and whether
    the estimation succeeds or fails, no signature is asked for and nothing
    is preapplied or injected. *)
Theorem estimation_commits_nothing (Number : string -> Js.number)
  (sexp2mic : string -> string) (node : Provider.Node)
  (transferParams : Prepare.TransferParams) (source : option string)
  (delegateParams : Provider.DelegateParams)
  (registerParams : Provider.RegisterDelegateParams) :
  Forall (fun r => ProviderSpec.commits r = false)
    (fst (Provider.estimateTransfer Number sexp2mic node transferParams source))
  /\ Forall (fun r => ProviderSpec.commits r = false)
       (fst (Provider.estimateSetDelegate Number node delegateParams))
  /\ Forall (fun r => ProviderSpec.commits r = false)
       (fst (Provider.estimateRegisterDelegate Number node registerParams)).
Proof.
  split; [| split].
  - unfold Provider.estimateTransfer.
    apply Task_bind_log; [apply sourceOrSigner_commits |]. intros pkh.
    apply createEstimate_commits.
  - unfold Provider.estimateSetDelegate.
    apply Task_bind_log; [apply sourceOrSigner_commits |]. intros pkh.
    apply createEstimate_commits.
  - unfold Provider.estimateRegisterDelegate.
    apply Task_bind_log; [repeat constructor |]. intros [].
    apply Task_bind_log; [repeat constructor |]. intros [].
    apply createEstimate_commits.
Qed.

(** A successful [createEstimate]: what was simulated and what the estimate
    is made of. *)
Lemma createEstimate_inr (Number : string -> Js.number) (node : Provider.Node)
  (operation : Emitter.OperationParam) (source : option string) (kind : string)
  (defaultStorage : Z) (minimumGas : option Z)
  (log : list Provider.request) (e : Estimate.t) :
  Provider.createEstimate Number node operation source kind defaultStorage minimumGas
  = (log, inr e) ->
  exists out,
    Emitter.prepareOperation (Provider.context node) operation source
    = (Spec.prepareLog (Provider.context node) source (Spec.inputOps operation), inr out)
    /\ let param :=
         {| Provider.run_branch := Emitter.branch (Emitter.prepared_opOb out);
            Provider.run_contents := Emitter.contents (Emitter.prepared_opOb out);
            Provider.run_signature := Provider.SIGNATURE_STUB;
            Provider.run_chain_id :=
              if Spec.active005 (Provider.context node)
              then Some (Provider.getChainId node) else None |} in
       let sums := Provider.totals Number
                     (Provider.getOperationResult (Provider.runOperation node param) kind) in
       last log = Some (Provider.RpcRunOperation param)
       /\ e = Estimate.new (inject_Z (Z.max (fst sums) (default 0 minimumGas)))
                (inject_Z (snd sums + defaultStorage))
                (Z.of_nat (String.length
                             (Emitter.forger_forge (Provider.context node)
                                (Emitter.branch (Emitter.prepared_opOb out))
                                (Emitter.contents (Emitter.prepared_opOb out)))) # 2)
                None.
Proof.
  unfold Provider.createEstimate. intros H.
  apply Task_bind_inr in H as (l1 & forged & l1' & Hpf & H & ->).
  apply lift_inr in Hpf as (l0 & Hpf & ->).
  apply prepareAndForge_inr in Hpf as (out & Hprep & -> & ->).
  exists out. split; [exact Hprep |].
  assert (Hmd : exists md, Emitter.getBlockMetadata (Provider.context node) = Some md).
  { rewrite prepareOperation_unfold in Hprep. cbv zeta in Hprep.
    destruct (Emitter.getBlockHeader _); [| discriminate].
    destruct (Emitter.getBlockMetadata _); [eauto | discriminate]. }
  destruct Hmd as [md Hmd].
  rewrite (lift_isAnyProtocolActive _ md Hmd) in H.
  cbn [Emitter.opOb Emitter.branch Emitter.contents Emitter.opbytes] in H |- *.
  unfold_Task.
  destruct (Spec.active005 (Provider.context node));
    cbn -[Provider.totals Provider.getOperationResult] in H; cbv beta iota zeta;
    match type of H with
    | context [Provider.totals ?n ?r] => destruct (Provider.totals n r) as [g s] eqn:Ht
    end;
    injection H as <- <-; (split; [| reflexivity]);
    rewrite !last_app; reflexivity.
Qed.




(** X22. The simulation that estimates a transfer does not look at the fee,
    the gas limit or the storage limit of the caller: the transaction it
    submits to [runOperation], last content of the operation, carries the
    maxima of the protocol, 30000, 800000 and 60000; the operation is
    signed with the signature stub and, from protocol 005 on, wrapped with
    the chain id. *)
Theorem estimateTransfer_simulates_protocol_maxima (Number : string -> Js.number)
  (sexp2mic : string -> string) (node : Provider.Node)
  (params : Prepare.TransferParams) (source : option string)
  (log : list Provider.request) (e : Estimate.t) :
  Provider.estimateTransfer Number sexp2mic node params source = (log, inr e) ->
  exists param c,
    last log = Some (Provider.RpcRunOperation param)
    /\ Provider.run_signature param = Provider.SIGNATURE_STUB
    /\ Provider.run_chain_id param
       = (if Spec.active005 (Provider.context node)
          then Some (Provider.getChainId node) else None)
    /\ last (Provider.run_contents param) = Some c
    /\ Js.get c "kind" = Js.VString "transaction"
    /\ Js.get c "fee" = Js.VString "30000"
    /\ Js.get c "gas_limit" = Js.VString "800000"
    /\ Js.get c "storage_limit" = Js.VString "60000".
Proof.
  intros H. unfold Provider.estimateTransfer in H.
  apply Task_bind_inr in H as (l1 & pkh & l2 & _ & H & ->).
  apply createEstimate_inr in H as (out & Hprep & Hlast & _).
  pose proof (prepareOperation_each _ _ _ _ _ Hprep) as Heach.
  destruct (Forall2_last _ _ _ _ Heach (last_given _ _ _)) as (c' & Hc & cs1 & cs2 & Hop).
  eexists _, c'. split.
  { destruct l2 as [|r l2]; [discriminate |].
    rewrite last_app. rewrite Hlast. reflexivity. }
  cbn [Provider.run_signature Provider.run_chain_id Provider.run_contents].
  split; [reflexivity |]. split; [reflexivity |].
  split; [exact Hc |].
  destruct (get_createTransferOperation sexp2mic (Provider.withDefaultParams params))
    as (Hkind & _ & Hfee & Hgas & Hsto).
  destruct (constructOp_fields _ _ _ _ _ _ Hop) as (Hfees & _ & _).
  specialize (Hfees (isFeeOp_kind _ _ Hkind ltac:(repeat constructor))).
  split; [rewrite (proj1 (constructOp_inr _ _ _ _ _ _ Hop)); exact Hkind |].
  repeat split.
  - rewrite (Hfees "fee") by repeat constructor. now rewrite Hfee.
  - rewrite (Hfees "gas_limit") by repeat constructor. now rewrite Hgas.
  - rewrite (Hfees "storage_limit") by repeat constructor. now rewrite Hsto.
Qed.

Lemma estimateTransfer_simulates_protocol_maxima_witness :
  let ctx := Sample.context "41" (Rpc.ManagerString "edpk") None (Rpc.ResultArray []) in
  match Provider.estimateTransfer Js.parseInt (fun sexp => sexp)
          (Fixture.node ctx "10207" "0") (Fixture.transfer_with_fee "tz1dest" 2000) None with
  | (log, inr e) =>
      exists param c,
        last log = Some (Provider.RpcRunOperation param)
        /\ last (Provider.run_contents param) = Some c
        /\ Js.get c "fee" = Js.VString "30000"
  | (_, inl _) => False
  end.
Proof.
  intros ctx.
  destruct (Provider.estimateTransfer Js.parseInt (fun sexp => sexp)
              (Fixture.node ctx "10207" "0") (Fixture.transfer_with_fee "tz1dest" 2000) None)
    as [log [err|e]] eqn:E.
  - discriminate E.
  - destruct (estimateTransfer_simulates_protocol_maxima _ _ _ _ _ _ _ E)
      as (param & c & Hlog & _ & _ & Hc & _ & Hfee & _).
    exists param, c. split; [exact Hlog |]. split; [exact Hc | exact Hfee].
Defined.

Lemma delete_obsolete_activation (pkh secret : string) :
  delete "delegatable"
    (delete "spendable" (delete "manager_pubkey" (ProviderSpec.activation pkh secret)))
  = ProviderSpec.activation pkh secret.
Proof.
  rewrite !delete_id; [reflexivity | reflexivity | |].
  - rewrite delete_id; reflexivity.
  - reflexivity.
Qed.

Lemma constructOp_activation (pkh' pkh secret : string) (p : bool)
  (cs : gmap string Js.number) :
  Emitter.constructOp pkh' p cs (ProviderSpec.activation pkh secret)
  = inr (ProviderSpec.activation pkh secret, cs).
Proof.
  rewrite constructOp_stages.
  unfold Stages.constructOp, Stages.defaultSource, Stages.feesAndCounter,
    Stages.balanceString, Stages.transactionChecks, Stages.stripObsolete.
  change (Emitter.isSourceOp (ProviderSpec.activation pkh secret)) with false.
  change (Emitter.isFeeOp (ProviderSpec.activation pkh secret)) with false.
  cbv iota.
  change (Js.strict_eq_string (Js.get (ProviderSpec.activation pkh secret) "kind")
            "origination") with false.
  change (Js.strict_eq_string (Js.get (ProviderSpec.activation pkh secret) "kind")
            "transaction") with false.
  cbv iota. destruct p; [| reflexivity].
  now rewrite delete_obsolete_activation.
Qed.

Lemma prepareAndForge_activation (ctx : Emitter.Context) (pkh secret : string)
  (header : Rpc.BlockHeader) (metadata : Rpc.BlockMetadata) :
  let op := ProviderSpec.activation pkh secret in
  Emitter.getBlockHeader ctx = Some header ->
  Emitter.getBlockMetadata ctx = Some metadata ->
  pkh <> "" ->
  Emitter.prepareAndForge ctx (Emitter.Many [op]) (Some pkh)
  = (([RpcGetBlockHeader; RpcGetBlockMetadata]
      ++ (if Js.truthy_opt_string (Emitter._proto ctx) then [] else [RpcGetBlockMetadata])
      ++ [ForgerForge])%list,
     inr {| Emitter.opbytes := Emitter.forger_forge ctx (Rpc.hash header) [op];
            Emitter.opOb := {| Emitter.branch := Rpc.hash header;
                               Emitter.contents := [op];
                               Emitter.protocol := Rpc.next_protocol metadata;
                               Emitter.signature := None |};
            Emitter.counter := Js.Num 0 |}).
Proof.
  intros op Hh Hm Hpkh.
  assert (Htruthy : Js.truthy_string pkh = true).
  { unfold Js.truthy_string. apply negb_true_iff, String.eqb_neq. exact Hpkh. }
  unfold Emitter.prepareAndForge, Emitter.forge.
  rewrite prepareOperation_unfold, Hh, Hm. cbv zeta.
  change (Spec.inputOps (Emitter.Many [op])) with [op].
  unfold Spec.resolvedSource, Spec.prepareLog, Spec.fetchLog, Spec.needsReveal, Spec.baseline.
  change (Spec.sourceBearing [op]) with false.
  cbn [Js.truthy_opt_string andb default]. rewrite Htruthy.
  cbn [Emitter.constructOps]. unfold op at 1. rewrite constructOp_activation. fold op.
  unfold_M. cbn.
  destruct (Js.truthy_opt_string (Emitter._proto ctx)); reflexivity.
Qed.

(** X23. Activating an account forges the single content
    [{ kind: 'activate_account', pkh, secret }] as it is, with no source,
    fee or counter, having fetched no counter and no manager key, and hands
    the forged bytes followed by 64 zero bytes straight to the RPC client:
    the signer is not asked to sign, nothing is preapplied and the
    configured injector is not used.  The handle has no results, so that
    its status reads ['unknown']. *)
Theorem activate_injects_unsigned (node : Provider.Node) (pkh secret : string)
  (header : Rpc.BlockHeader) (metadata : Rpc.BlockMetadata) :
  let ctx := Provider.context node in
  let op := ProviderSpec.activation pkh secret in
  let bytes := Emitter.forger_forge ctx (Rpc.hash header) [op] +:+ Provider.zero_signature in
  Emitter.getBlockHeader ctx = Some header ->
  Emitter.getBlockMetadata ctx = Some metadata ->
  pkh <> "" ->
  exists h,
    Provider.activate node pkh secret
    = (([Provider.Emitted RpcGetBlockHeader; Provider.Emitted RpcGetBlockMetadata]
        ++ ProviderSpec.protocolLog ctx
        ++ [Provider.Emitted ForgerForge; Provider.RpcInjectOperation bytes])%list,
       inr h)
    /\ Provider.activation_hash h = Provider.injectOperation node bytes
    /\ Emitter.opbytes (Provider.activation_raw h) = bytes
    /\ Emitter.contents (Emitter.opOb (Provider.activation_raw h)) = [op]
    /\ Emitter.branch (Emitter.opOb (Provider.activation_raw h)) = Rpc.hash header
    /\ Handle.status (Provider.activation_results h) = "unknown".
Proof.
  intros ctx op bytes Hh Hm Hpkh.
  unfold Provider.activate. cbv zeta. fold ctx.
  change (<["secret" := Js.VString secret]> _) with (ProviderSpec.activation pkh secret).
  rewrite (prepareAndForge_activation ctx pkh secret header metadata Hh Hm Hpkh).
  fold op. unfold ProviderSpec.protocolLog. unfold_Task. cbn.
  destruct (Js.truthy_opt_string (Emitter._proto ctx));
    eexists; (split; [reflexivity |]); repeat split.
Qed.

Lemma activate_injects_unsigned_witness :
  let ctx := Sample.context "41" (Rpc.ManagerString "edpk") None (Rpc.ResultArray []) in
  exists h,
    Provider.activate (Fixture.node ctx "0" "0") "tz1fundraiser" "secret"
    = ([Provider.Emitted RpcGetBlockHeader; Provider.Emitted RpcGetBlockMetadata;
        Provider.Emitted RpcGetBlockMetadata; Provider.Emitted ForgerForge;
        Provider.RpcInjectOperation ("00aa" +:+ Provider.zero_signature)], inr h)
    /\ Provider.activation_hash h = "ooactivation".
Proof.
  intros ctx.
  destruct (activate_injects_unsigned (Fixture.node ctx "0" "0") "tz1fundraiser" "secret"
              _ _ eq_refl eq_refl ltac:(discriminate))
    as (h & Hact & Hhash & _).
  exists h. split; [exact Hact | exact Hhash].
Defined.

(* ===================================================================== *)
(** ** Properties of the contract abstraction *)
(* ===================================================================== *)

Lemma lookup_fold_insert (f : string -> Contract.Method) (l : list string)
  (m : gmap string Contract.Method) (k : string) :
  fold_left (fun methods name => <[name := f name]> methods) l m !! k
  = if bool_decide (k ∈ l) then Some (f k) else m !! k.
Proof.
  revert m. induction l as [|x l IH]; intros m; cbn [fold_left].
  - rewrite bool_decide_eq_false_2 by apply not_elem_of_nil. reflexivity.
  - rewrite IH. destruct (decide (k ∈ l)) as [Hin|Hni].
    + rewrite !bool_decide_eq_true_2; [reflexivity | now apply elem_of_cons; right | exact Hin].
    + rewrite (bool_decide_eq_false_2 _ Hni).
      destruct (decide (k = x)) as [->|Hne].
      * rewrite lookup_insert_eq, bool_decide_eq_true_2 by apply list_elem_of_here.
        reflexivity.
      * rewrite lookup_insert_ne by congruence.
        rewrite bool_decide_eq_false_2; [reflexivity |].
        rewrite not_elem_of_cons. split; assumption.
Qed.

(** The function stored under a name by [_initializeMethods]. *)
Lemma lookup_initializeMethods (parameterSchema : Contract.ParameterSchema)
  (entrypoints : gmap string string) (k : string) :
  Contract._initializeMethods parameterSchema entrypoints !! k
  = if Contract.isMultipleEntryPoint parameterSchema then
      match entrypoints !! k with
      | Some entrypoint => Some (Contract.EntrypointMethod k entrypoint)
      | None =>
          if bool_decide (k ∈ Contract.ExtractSchema parameterSchema)
          then Some (Contract.AnonymousMethod k) else None
      end
    else if bool_decide (k = "main") then Some Contract.DefaultMethod else None.
Proof.
  unfold Contract._initializeMethods.
  destruct (Contract.isMultipleEntryPoint parameterSchema).
  - rewrite lookup_fold_insert, map_lookup_imap.
    destruct (entrypoints !! k) as [e|] eqn:Hk; cbn.
    + rewrite bool_decide_eq_false_2; [reflexivity |].
      rewrite list_elem_of_In, filter_In. intros [_ H].
      apply bool_decide_eq_true in H. congruence.
    + destruct (decide (k ∈ Contract.ExtractSchema parameterSchema)) as [Hin|Hni].
      * rewrite !bool_decide_eq_true_2; [reflexivity | exact Hin |].
        rewrite list_elem_of_In, filter_In. split; [now apply list_elem_of_In |].
        now apply bool_decide_eq_true.
      * rewrite !bool_decide_eq_false_2; [reflexivity | exact Hni |].
        rewrite list_elem_of_In, filter_In. intros [H _].
        now apply list_elem_of_In in H.
  - unfold Contract.DEFAULT_SMART_CONTRACT_METHOD_NAME.
    destruct (decide (k = "main")) as [->|Hne].
    + now rewrite lookup_singleton_eq.
    + rewrite lookup_singleton_ne by congruence.
      now rewrite bool_decide_eq_false_2.
Qed.

(** X24. A contract made with the entry points reported by the node has a
    method for every reported entry point and for every branch of its
    parameter schema, and no other, when the parameter has several entry
    points, and the single method [main] otherwise; a contract made without
    entry points has a method for every branch of the schema, or [main]. *)
Theorem contract_method_names (parameterSchema : Contract.ParameterSchema)
  (entrypoints : gmap string string) (k : string) :
  (is_Some (Contract.methods parameterSchema (Some entrypoints) !! k)
   <-> if Contract.isMultipleEntryPoint parameterSchema
       then is_Some (entrypoints !! k) \/ k ∈ Contract.ExtractSchema parameterSchema
       else k = "main")
  /\ (is_Some (Contract.methods parameterSchema None !! k)
      <-> if Contract.isMultipleEntryPoint parameterSchema
          then k ∈ Contract.ExtractSchema parameterSchema
          else k = "main").
Proof.
  assert (HN : forall A : Type, is_Some (@None A) -> False)
    by (intros A [x Hx]; discriminate Hx).
  split.
  - cbn [Contract.methods]. rewrite lookup_initializeMethods.
    destruct (Contract.isMultipleEntryPoint parameterSchema).
    + destruct (entrypoints !! k) as [e|]; [split; eauto |].
      case_bool_decide as Hin.
      * split; eauto.
      * split; [intros H; destruct (HN _ H) |].
        intros [H | H]; [destruct (HN _ H) | contradiction].
    + case_bool_decide as Hk; (split; [| intros H]); eauto;
        [intros H; destruct (HN _ H) | contradiction].
  - cbn [Contract.methods]. unfold Contract._initializeMethodsLegacy.
    destruct (Contract.isMultipleEntryPoint parameterSchema).
    + rewrite lookup_fold_insert, lookup_empty.
      case_bool_decide as Hin; (split; [| intros H]); eauto;
        [intros H; destruct (HN _ H) | contradiction].
    + unfold Contract.DEFAULT_SMART_CONTRACT_METHOD_NAME.
      destruct (decide (k = "main")) as [->|Hne].
      * rewrite lookup_singleton_eq. split; eauto.
      * rewrite lookup_singleton_ne by congruence.
        split; [intros H; destruct (HN _ H) | contradiction].
Qed.

(** X25. A call of a method of a contract made with entry points, once its
    arguments are accepted, is sent as a transfer to the address of the
    contract with a raw parameter, and of no tez unless an amount is given.
    The parameter names the method as entry point when the node reported it
    as one, with the arguments encoded by the schema of that entry point;
    otherwise it names ['default'], with the arguments (after the name of
    the method, for a branch without annotation) encoded by the schema of
    the whole parameter. *)
Theorem contract_call_entrypoint (newParameterSchema : string -> Contract.ParameterSchema)
  (parameterObject : string -> string -> string) (address : string)
  (parameterSchema : Contract.ParameterSchema) (entrypoints : gmap string string)
  (name : string) (method : Contract.Method) (args : list string)
  (call : Contract.MethodCall) (p : Contract.SendParams) :
  Contract.methods parameterSchema (Some entrypoints) !! name = Some method ->
  Contract.invoke newParameterSchema address parameterSchema method args = inr call ->
  exists m,
    call = Contract.Modern m
    /\ let sent := Contract.send parameterObject m p in
       Prepare.to sent = address
       /\ Prepare.rawParam sent = Some true
       /\ Prepare.amount sent = default (Format.Decimal 0 0) (Contract.amount p)
       /\ Prepare.parameter sent
          = Some (Prepare.ParamJson
                    (parameterObject
                       (ContractSpec.entrypointOf parameterSchema entrypoints name)
                       (ContractSpec.valueOf newParameterSchema parameterSchema
                          entrypoints name args))).
Proof.
  cbn [Contract.methods]. rewrite lookup_initializeMethods.
  unfold ContractSpec.entrypointOf, ContractSpec.valueOf, Contract.invoke.
  destruct (Contract.isMultipleEntryPoint parameterSchema).
  - destruct (entrypoints !! name) as [e|] eqn:He.
    + intros [= <-].
      destruct (Contract.validateArgs _ _ _); [discriminate |]. intros [= <-].
      eexists. split; [reflexivity |]. cbn.
      rewrite ?bool_decide_eq_true_2 by eauto. repeat split.
    + case_bool_decide; [| discriminate]. intros [= <-].
      destruct (Contract.validateArgs _ _ _); [discriminate |]. intros [= <-].
      eexists. split; [reflexivity |]. cbn.
      rewrite ?bool_decide_eq_false_2 by (intros [x Hx]; discriminate Hx). repeat split.
  - case_bool_decide as Hk; [| discriminate]. intros [= <-].
    destruct (Contract.validateArgs _ _ _); [discriminate |]. intros [= <-].
    eexists. split; [reflexivity |]. repeat split.
Qed.

Lemma contract_call_entrypoint_witness :
  let schema := Fixture.parameterSchema in
  let entrypoints : gmap string string := {[ "mint" := "nat" ]} in
  let p := {| Contract.fee := None; Contract.gasLimit := None;
              Contract.storageLimit := None; Contract.amount := None |} in
  exists m,
    Contract.invoke Fixture.entrypointSchema "KT1contract" schema
      (Contract.EntrypointMethod "mint" "nat") ["5"] = inr (Contract.Modern m)
    /\ Prepare.parameter (Contract.send Fixture.parameterObject m p)
       = Some (Prepare.ParamJson "mint(5)").
Proof.
  intros schema entrypoints p.
  destruct (contract_call_entrypoint Fixture.entrypointSchema Fixture.parameterObject
              "KT1contract" schema entrypoints "mint"
              (Contract.EntrypointMethod "mint" "nat") ["5"] _ p eq_refl eq_refl)
    as (m & Hm & _ & _ & _ & Hp).
  injection Hm as Hm. subst m.
  eexists. split; [reflexivity | exact Hp].
Defined.

